(** * ToolFi MCP server: risk scorer, response cache, HTTP client base,
      provider clients and tool facade

    A shallow embedding of [src/mcp-server/src] (models.py, chains.py,
    clients/base.py, clients/goplus.py, clients/coingecko.py,
    clients/defillama.py, clients/lifi.py, server.py) together with the
    properties the specification states about it (Part II) and further
    properties of the same code (Part III).

    Conventions of the embedding:
    - a Python [float] is an IEEE-754 binary64 value, [spec_float] at
      precision 53 and maximal exponent 1024, with the operations of
      [SpecFloat] (round to nearest, ties to even);
    - a Python [int] is a [Z];
    - a Python [str] is a [string]; the text the program handles (chain
      aliases, addresses, JSON keys) is ASCII;
    - a function that can raise returns [result A], the sum of the raised
      exception and the returned value;
    - code that reads the clock, the cache or the network runs in the
      state-and-exception monad [M] over an explicit [World]. *)

From stdpp Require Import gmap strings list pretty.
From Stdlib Require Import ZArith QArith SpecFloat Lia Permutation Sorted Ascii.

Set Warnings "-register-all".

Local Open Scope string_scope.
Local Open Scope list_scope.
Local Open Scope Z_scope.

(* ===================================================================== *)
(** * Part I: definitions                                                *)
(* ===================================================================== *)

(** ** Python floats *)

Module F64.

Definition prec : Z := 53.
Definition emax : Z := 1024.

Definition valid (x : spec_float) : Prop := valid_binary prec emax x = true.

Definition mul : spec_float → spec_float → spec_float := SFmul prec emax.
Definition add : spec_float → spec_float → spec_float := SFadd prec emax.

(** [a < b] and [a <= b] on floats; both are false when a NaN is involved. *)
Definition ltb : spec_float → spec_float → bool := SFltb.
Definition leb : spec_float → spec_float → bool := SFleb.

(** [float(n)] for an integer [n]. *)
Definition of_Z (n : Z) : spec_float := binary_normalize prec emax n 0 false.

(** The literals of the source, as the nearest binary64 values. *)
Definition zero : spec_float := S754_zero false.
(** [0.1] is [0x1.999999999999ap-4]. *)
Definition lit_0_1 : spec_float := S754_finite false 7205759403792794 (-56).
(** [100] converted to float is exactly [100.0]. *)
Definition lit_100 : spec_float := S754_finite false 7036874417766400 (-46).
(** [0.03] is [0x1.eb851eb851eb8p-6]. *)
Definition lit_0_03 : spec_float := S754_finite false 8646911284551352 (-58).

(** Magnitude of [m * 2^e] truncated to an integer. *)
Definition trunc_mag (m : positive) (e : Z) : Z :=
  if 0 <=? e then Z.pos m * 2 ^ e else Z.pos m / 2 ^ (- e).

(** Magnitude of [m * 2^e] rounded to the nearest integer, ties to even. *)
Definition round_mag (m : positive) (e : Z) : Z :=
  if 0 <=? e then Z.pos m * 2 ^ e
  else
    let d := 2 ^ (- e) in
    let q := Z.pos m / d in
    let r := Z.pos m mod d in
    match 2 * r ?= d with
    | Lt => q
    | Gt => q + 1
    | Eq => if Z.even q then q else q + 1
    end.

(** What [int(x)] does on a float: the integer part (truncation toward
    zero); [None] stands for the exception Python raises on an infinity
    (OverflowError) or a NaN (ValueError). *)
Definition to_int (x : spec_float) : option Z :=
  match x with
  | S754_zero _ => Some 0
  | S754_finite s m e => Some (cond_Zopp s (trunc_mag m e))
  | S754_infinity _ | S754_nan => None
  end.

(** What [round(x)] does on a float: nearest integer, ties to even. *)
Definition round (x : spec_float) : option Z :=
  match x with
  | S754_zero _ => Some 0
  | S754_finite s m e => Some (cond_Zopp s (round_mag m e))
  | S754_infinity _ | S754_nan => None
  end.

(** [f"{x:.1f}"]: the decimal expansion of [x] with one digit after the
    point, correctly rounded (ties to even on the exact binary value). *)
Definition format_1f (x : spec_float) : string :=
  match x with
  | S754_nan => "nan"
  | S754_infinity s => if s then "-inf" else "inf"
  | S754_zero s => if s then "-0.0" else "0.0"
  | S754_finite s m e =>
      let n := round_mag (m * 10) e in
      (if s then "-" else "") +:+ pretty (n / 10) +:+ "." +:+ pretty (n mod 10)
  end.

End F64.

(** ** JSON values, as [response.json()] returns them *)

Inductive json : Type :=
| JNull
| JBool (b : bool)
| JInt (n : Z)
| JFloat (x : spec_float)
| JStr (s : string)
| JArr (l : list json)
| JObj (fields : list (string * json)).

(** [d.get(k)] for a dict in insertion order; [None] when the key is absent. *)
Fixpoint assoc {A : Type} (k : string) (d : list (string * A)) : option A :=
  match d with
  | [] => None
  | (k', v) :: d' => if String.eqb k k' then Some v else assoc k d'
  end.

(** ** Exceptions

    The classes the clients raise.  [JSONDecodeError] is a subclass of
    [ValueError], [RateLimitError] of [APIError]; all are subclasses of
    [Exception]. *)

Inductive exn : Type :=
| ValueError (msg : string)
| JSONDecodeError (msg : string)
| OverflowError (msg : string)
| TypeError (msg : string)
| AttributeError (msg : string)
| KeyError (msg : string)
| APIError (msg : string) (status_code : option Z) (response : option json)
| RateLimitError (msg : string) (status_code : option Z) (response : option json).

(** [str(e)] *)
Definition exn_str (e : exn) : string :=
  match e with
  | ValueError m | JSONDecodeError m | OverflowError m => m
  | TypeError m | AttributeError m | KeyError m => m
  | APIError m _ _ | RateLimitError m _ _ => m
  end.

Definition is_ValueError (e : exn) : bool :=
  match e with ValueError _ | JSONDecodeError _ => true | _ => false end.

Definition is_APIError (e : exn) : bool :=
  match e with APIError _ _ _ | RateLimitError _ _ _ => true | _ => false end.

Definition is_RateLimitError (e : exn) : bool :=
  match e with RateLimitError _ _ _ => true | _ => false end.

Definition result (A : Type) : Type := exn + A.

Definition raise {A : Type} (e : exn) : result A := inl e.

#[global] Instance result_ret : MRet result := λ A x, inr x.
#[global] Instance result_bind : MBind result := λ A B f m,
  match m with
  | inl e => inl e
  | inr x => f x
  end.

(** ** models.py *)

Inductive RiskLevel : Type := SAFE | LOW | MEDIUM | HIGH | CRITICAL.

(** [RiskLevel.value] *)
Definition RiskLevel_value (l : RiskLevel) : string :=
  match l with
  | SAFE => "safe"
  | LOW => "low"
  | MEDIUM => "medium"
  | HIGH => "high"
  | CRITICAL => "critical"
  end.

Record TokenSecurity : Type := {
  address : string;
  chain : string;
  name : json;
  symbol : json;
  is_honeypot : bool;
  buy_tax : spec_float;
  sell_tax : spec_float;
  is_mintable : bool;
  can_take_back_ownership : bool;
  owner_change_balance : bool;
  hidden_owner : bool;
  is_blacklisted : bool;
  transfer_pausable : bool;
  is_proxy : bool;
  is_open_source : bool;
  total_supply : json;
  holder_count : option Z;
  lp_holder_count : option Z;
  dex_info : json;
  is_in_cex : bool;
  cex_list : json;
  risk_score : Z;
  risk_level : RiskLevel;
  risk_factors : list string;
}.

(** Assignment to the three derived attributes at the end of
    [calculate_risk]. *)
Definition set_risk (self : TokenSecurity) (score : Z) (level : RiskLevel)
    (factors : list string) : TokenSecurity :=
  {| address := address self; chain := chain self; name := name self;
     symbol := symbol self; is_honeypot := is_honeypot self;
     buy_tax := buy_tax self; sell_tax := sell_tax self;
     is_mintable := is_mintable self;
     can_take_back_ownership := can_take_back_ownership self;
     owner_change_balance := owner_change_balance self;
     hidden_owner := hidden_owner self; is_blacklisted := is_blacklisted self;
     transfer_pausable := transfer_pausable self; is_proxy := is_proxy self;
     is_open_source := is_open_source self; total_supply := total_supply self;
     holder_count := holder_count self; lp_holder_count := lp_holder_count self;
     dex_info := dex_info self; is_in_cex := is_in_cex self;
     cex_list := cex_list self;
     risk_score := score; risk_level := level; risk_factors := factors |}.

(** [int(x)] on a float, with the exception it raises. *)
Definition py_int (x : spec_float) : result Z :=
  match F64.to_int x with
  | Some n => mret n
  | None =>
      match x with
      | S754_nan => raise (ValueError "cannot convert float NaN to integer")
      | _ => raise (OverflowError "cannot convert float infinity to integer")
      end
  end.

(** The local variables [score] and [factors] of [calculate_risk]. *)
Definition acc : Type := Z * list string.

(** [if flag: score += points; factors.append(text)] *)
Definition flag_rule (flag : bool) (points : Z) (text : string) (a : acc) : acc :=
  if flag then (a.1 + points, a.2 ++ [text]) else a.

(** [if tax > 0.1: score += min(30, int(tax * 100)); factors.append(f"{label}{tax * 100:.1f}%")] *)
Definition tax_rule (tax : spec_float) (label : string) (a : acc) : result acc :=
  if F64.ltb F64.lit_0_1 tax then
    n ← py_int (F64.mul tax F64.lit_100);
    mret (a.1 + Z.min 30 n,
          a.2 ++ [label +:+ F64.format_1f (F64.mul tax F64.lit_100) +:+ "%"])
  else mret a.

Definition level_of (score : Z) : RiskLevel :=
  if 80 <=? score then CRITICAL
  else if 50 <=? score then HIGH
  else if 25 <=? score then MEDIUM
  else if 0 <? score then LOW
  else SAFE.

(** The body of [calculate_risk] up to the assignments: the final values
    of [score] and [factors]. *)
Definition risk_acc (self : TokenSecurity) : result acc :=
  let a : acc := (0, []) in
  let a := flag_rule (is_honeypot self) 100 "🚨 蜜罐合约 - 无法卖出!" a in
  a ← tax_rule (buy_tax self) "⚠️ 买入税: " a;
  a ← tax_rule (sell_tax self) "⚠️ 卖出税: " a;
  let a := flag_rule (is_mintable self) 20 "⚠️ 可增发" a in
  let a := flag_rule (can_take_back_ownership self) 25 "🚨 可收回所有权" a in
  let a := flag_rule (owner_change_balance self) 30 "🚨 Owner可修改余额" a in
  let a := flag_rule (hidden_owner self) 15 "⚠️ 隐藏的Owner" a in
  let a := flag_rule (is_blacklisted self) 10 "⚠️ 有黑名单功能" a in
  let a := flag_rule (transfer_pausable self) 15 "⚠️ 可暂停转账" a in
  let a := flag_rule (negb (is_open_source self)) 20 "⚠️ 代码未开源" a in
  let a := flag_rule (is_proxy self) 10 "ℹ️ 代理合约" a in
  mret a.

(** [TokenSecurity.calculate_risk]; the method mutates [self], here it
    returns the updated record. *)
Definition calculate_risk (self : TokenSecurity) : result TokenSecurity :=
  a ← risk_acc self;
  let '(score, factors) := a in
  mret (set_risk self (Z.min 100 score) (level_of score) factors).

(** The dataclasses below hold what the clients put into them; an
    attribute that receives a value of the response unchanged is a
    [json]. *)

Record TokenPrice : Type := {
  tp_address : string;
  tp_chain : string;
  price_usd : json;
  change_24h : json;
  market_cap : json;
  volume_24h : json;
}.

Record DefiPool : Type := {
  pool_id : json;
  dp_chain : json;
  project : json;
  dp_symbol : json;
  tvl_usd : Q;
  apy : Q;
  apy_base : json;
  apy_reward : json;
  reward_tokens : json;
  stablecoin : json;
  il_risk : json;
  underlying_tokens : json;
}.

Record BridgeQuote : Type := {
  from_chain : string;
  to_chain : string;
  from_token : string;
  to_token : string;
  from_amount : json;
  to_amount : json;
  to_amount_usd : option spec_float;
  gas_cost_usd : option spec_float;
  execution_time_seconds : json;
  bridge_name : json;
  steps : json;
}.

(** ** Strings *)

(** [str.lower] on ASCII text. *)
Definition lower_ascii (c : ascii) : ascii :=
  let n := N_of_ascii c in
  if ((65 <=? n) && (n <=? 90))%N then ascii_of_N (n + 32) else c.

Fixpoint str_lower (s : string) : string :=
  match s with
  | EmptyString => EmptyString
  | String c s' => String (lower_ascii c) (str_lower s')
  end.

(** [str.upper] on ASCII text. *)
Definition upper_ascii (c : ascii) : ascii :=
  let n := N_of_ascii c in
  if ((97 <=? n) && (n <=? 122))%N then ascii_of_N (n - 32) else c.

Fixpoint str_upper (s : string) : string :=
  match s with
  | EmptyString => EmptyString
  | String c s' => String (upper_ascii c) (str_upper s')
  end.

(** The characters [str.strip] removes: space, tab, line feed, vertical
    tab, form feed, carriage return and the separators 0x1c to 0x1f. *)
Definition is_space (c : ascii) : bool :=
  let n := N_of_ascii c in
  ((n =? 32) || ((9 <=? n) && (n <=? 13)) || ((28 <=? n) && (n <=? 31)))%N.

Fixpoint lstrip (s : string) : string :=
  match s with
  | EmptyString => EmptyString
  | String c s' => if is_space c then lstrip s' else s
  end.

Fixpoint rstrip (s : string) : string :=
  match s with
  | EmptyString => EmptyString
  | String c s' =>
      match rstrip s' with
      | EmptyString => if is_space c then EmptyString else String c EmptyString
      | r => String c r
      end
  end.

(** [str.strip] *)
Definition str_strip (s : string) : string := rstrip (lstrip s).

(** [needle in s] for strings. *)
Fixpoint str_contains (needle s : string) : bool :=
  String.prefix needle s ||
  match s with
  | EmptyString => false
  | String _ s' => str_contains needle s'
  end.

(** Truthiness of a string: non-empty. *)
Definition str_truthy (s : string) : bool :=
  match s with EmptyString => false | _ => true end.

(** ** chains.py *)

Definition GOPLUS_CHAINS : list (string * string) :=
  [ ("ethereum", "1"); ("eth", "1"); ("bsc", "56"); ("binance", "56");
    ("polygon", "137"); ("matic", "137"); ("arbitrum", "42161");
    ("arb", "42161"); ("base", "8453"); ("optimism", "10"); ("op", "10");
    ("avalanche", "43114"); ("avax", "43114"); ("solana", "solana");
    ("sol", "solana"); ("linea", "59144"); ("zksync", "324");
    ("scroll", "534352"); ("blast", "81457"); ("mantle", "5000") ].

Definition COINGECKO_PLATFORMS : list (string * string) :=
  [ ("ethereum", "ethereum"); ("eth", "ethereum");
    ("bsc", "binance-smart-chain"); ("binance", "binance-smart-chain");
    ("polygon", "polygon-pos"); ("matic", "polygon-pos");
    ("arbitrum", "arbitrum-one"); ("arb", "arbitrum-one"); ("base", "base");
    ("optimism", "optimistic-ethereum"); ("op", "optimistic-ethereum");
    ("avalanche", "avalanche"); ("avax", "avalanche"); ("solana", "solana");
    ("sol", "solana") ].

Definition LIFI_CHAINS : list (string * Z) :=
  [ ("ethereum", 1); ("eth", 1); ("arbitrum", 42161); ("arb", 42161);
    ("base", 8453); ("polygon", 137); ("matic", 137); ("optimism", 10);
    ("op", 10); ("bsc", 56); ("binance", 56); ("avalanche", 43114);
    ("avax", 43114) ].

Definition DEFILLAMA_CHAINS : list (string * string) :=
  [ ("ethereum", "Ethereum"); ("eth", "Ethereum"); ("bsc", "BSC");
    ("binance", "BSC"); ("polygon", "Polygon"); ("matic", "Polygon");
    ("arbitrum", "Arbitrum"); ("arb", "Arbitrum"); ("base", "Base");
    ("optimism", "Optimism"); ("op", "Optimism"); ("avalanche", "Avalanche");
    ("avax", "Avalanche"); ("solana", "Solana"); ("sol", "Solana") ].

Definition get_goplus_chain_id (chain : string) : option string :=
  assoc (str_lower chain) GOPLUS_CHAINS.

Definition get_coingecko_platform (chain : string) : option string :=
  assoc (str_lower chain) COINGECKO_PLATFORMS.

Definition get_lifi_chain_id (chain : string) : option Z :=
  assoc (str_lower chain) LIFI_CHAINS.

Definition get_defillama_chain (chain : string) : option string :=
  assoc (str_lower chain) DEFILLAMA_CHAINS.

(** ** [json.dumps(..., sort_keys=True)] *)

Definition dquote : ascii := ascii_of_N 34.
Definition backslash : ascii := ascii_of_N 92.

Definition hex_digit (n : N) : ascii :=
  ascii_of_N (if (n <? 10)%N then 48 + n else 87 + n).

(** A backslash escape. *)
Definition esc (s : string) : string := String backslash s.

(** One character inside a JSON string literal, [ensure_ascii] being on:
    the quote, the backslash and every character outside [' '..'~'] are
    escaped. *)
Definition escape_char (c : ascii) : string :=
  let n := N_of_ascii c in
  if (n =? 34)%N then esc (String dquote EmptyString)
  else if (n =? 92)%N then esc (String backslash EmptyString)
  else if (n =? 10)%N then esc "n"
  else if (n =? 13)%N then esc "r"
  else if (n =? 9)%N then esc "t"
  else if (n =? 8)%N then esc "b"
  else if (n =? 12)%N then esc "f"
  else if ((32 <=? n) && (n <=? 126))%N then String c EmptyString
  else esc ("u00" +:+ String (hex_digit (n / 16))
                        (String (hex_digit (n mod 16)) EmptyString)).

Fixpoint escape (s : string) : string :=
  match s with
  | EmptyString => EmptyString
  | String c s' => escape_char c +:+ escape s'
  end.

Definition quote (s : string) : string :=
  String dquote (escape s) +:+ String dquote EmptyString.

Fixpoint join (sep : string) (l : list string) : string :=
  match l with
  | [] => EmptyString
  | [x] => x
  | x :: l' => x +:+ sep +:+ join sep l'
  end.

(** [sorted] on the items of a dict: a stable insertion sort on the keys,
    compared as Python compares strings. *)
Fixpoint insert_item {A : Type} (x : string * A) (l : list (string * A))
    : list (string * A) :=
  match l with
  | [] => [x]
  | y :: l' => if String.leb x.1 y.1 then x :: y :: l' else y :: insert_item x l'
  end.

Fixpoint sort_items {A : Type} (l : list (string * A)) : list (string * A) :=
  match l with
  | [] => []
  | x :: l' => insert_item x (sort_items l')
  end.

(** ** Python values read from a response *)

(** Truthiness. *)
Definition truthy (j : json) : bool :=
  match j with
  | JNull => false
  | JBool b => b
  | JInt n => negb (n =? 0)
  | JFloat x => match x with S754_zero _ => false | _ => true end
  | JStr s => str_truthy s
  | JArr l => match l with [] => false | _ => true end
  | JObj d => match d with [] => false | _ => true end
  end.

(** [a or b] *)
Definition py_or (a b : json) : json := if truthy a then a else b.

(** [x.get(k, default)]; a value that is not a dict has no [get]. *)
Definition get_or (k : string) (default : json) (x : json) : result json :=
  match x with
  | JObj d => mret (match assoc k d with Some v => v | None => default end)
  | _ => raise (AttributeError "object has no attribute 'get'")
  end.

(** [x.get(k)]; Python's [None] is [JNull]. *)
Definition get (k : string) (x : json) : result json := get_or k JNull x.

(** [x == s] for a string literal [s]. *)
Definition eq_str (x : json) (s : string) : bool :=
  match x with
  | JStr t => String.eqb t s
  | _ => false
  end.

(** [x == n] for an integer literal [n] that a float represents exactly. *)
Definition eq_int (x : json) (n : Z) : bool :=
  match x with
  | JInt m => m =? n
  | JBool b => (if b then 1 else 0) =? n
  | JFloat f => SFeqb f (F64.of_Z n)
  | _ => false
  end.

(** The exact value of a finite float. *)
Definition Q_of_float (x : spec_float) : option Q :=
  match x with
  | S754_zero _ => Some 0%Q
  | S754_finite s m e =>
      let mag := if 0 <=? e then inject_Z (Z.pos m * 2 ^ e)
                 else Qmake (Z.pos m) (Z.to_pos (2 ^ (- e))) in
      Some (if s then Qopp mag else mag)
  | S754_infinity _ | S754_nan => None
  end.

(** A value used as a number in a comparison: ints, bools and finite
    floats compare as the rationals they denote; any other type raises
    TypeError.  NaN and the infinities are not JSON (RFC 8259) and are
    left out of the model: it raises ValueError on them. *)
Definition number (x : json) : result Q :=
  match x with
  | JInt n => mret (inject_Z n)
  | JBool b => mret (if b then 1%Q else 0%Q)
  | JFloat f =>
      match Q_of_float f with
      | Some q => mret q
      | None => raise (ValueError "non-finite number in a JSON document")
      end
  | _ => raise (TypeError "'<' not supported between instances")
  end.

Definition Qltb (x y : Q) : bool := negb (Qle_bool y x).

(** [x.lower()] on a value: only a string has the method. *)
Definition lower (x : json) : result string :=
  match x with
  | JStr s => mret (str_lower s)
  | _ => raise (AttributeError "object has no attribute 'lower'")
  end.

(** The elements [for v in x] visits. *)
Definition py_iter (x : json) : result (list json) :=
  match x with
  | JArr l => mret l
  | JObj d => mret (map (λ kv, JStr kv.1) d)
  | JStr s => mret (map (λ c, JStr (String c EmptyString)) (String.list_ascii_of_string s))
  | _ => raise (TypeError "object is not iterable")
  end.

(** [len(x)] *)
Definition py_len (x : json) : result Z :=
  match x with
  | JArr l => mret (Z.of_nat (length l))
  | JObj d => mret (Z.of_nat (length d))
  | JStr s => mret (Z.of_nat (String.length s))
  | _ => raise (TypeError "object has no len()")
  end.

(** [k in x] for a string [k]. *)
Definition py_in (k : string) (x : json) : result bool :=
  match x with
  | JObj d => mret (match assoc k d with Some _ => true | None => false end)
  | JArr l => mret (existsb (λ v, eq_str v k) l)
  | JStr s => mret (str_contains k s)
  | _ => raise (TypeError "argument is not iterable")
  end.

(** Fixed-point formatting of an exact value: [f"{q:.{d}f}"], correctly
    rounded, ties to even. *)
Definition round_half_even (q : Q) : Z :=
  let n := Qnum q in
  let d := Z.pos (Qden q) in
  let fl := n / d in
  let r := n mod d in
  match 2 * r ?= d with
  | Lt => fl
  | Gt => fl + 1
  | Eq => if Z.even fl then fl else fl + 1
  end.

Fixpoint zeros (k : nat) : string :=
  match k with
  | O => EmptyString
  | S k' => String "0" (zeros k')
  end.

(** Zero padding on the left up to [width] characters. *)
Definition pad_left (width : nat) (s : string) : string :=
  zeros (width - String.length s) +:+ s.

Definition format_fixed (digits : nat) (q : Q) : string :=
  let scale := 10 ^ Z.of_nat digits in
  let n := round_half_even (Qmult q (inject_Z scale)) in
  let a := Z.abs n in
  (if Qnum q <? 0 then "-" else "") +:+ pretty (a / scale) +:+
  match digits with
  | O => ""
  | _ => "." +:+ pad_left digits (pretty (a mod scale))
  end.

(** ** The world outside the process *)

(** An outgoing GET request. *)
Record Request : Type := {
  req_url : string;
  req_params : option (list (string * json));
  req_headers : list (string * string);
}.

(** The body of a response: empty, a JSON text (given by its value), or a
    text that is not JSON. *)
Inductive Body : Type :=
| NoContent
| JsonContent (j : json)
| TextContent (raw : string).

Record Response : Type := {
  status : Z;
  content : Body;
}.

(** What the transport yields for a request: a response, or no response
    within the configured timeout. *)
Inductive Outcome : Type :=
| Responded (r : Response)
| TimedOut.

(** [CacheEntry] *)
Record CacheEntry : Type := {
  data : json;
  expires_at : spec_float;
}.

(** The state a tool invocation runs against: the module-level [cache] of
    base.py, the clock (the successive readings [time.time()] returns and
    how many were taken), the upstream services and the requests sent so
    far, oldest first. *)
Record World : Type := {
  cache : gmap string CacheEntry;
  clock : nat → spec_float;
  ticks : nat;
  upstream : Request → Outcome;
  sent : list Request;
}.

(** Computations over the world that may raise an exception of type [E]. *)
Definition ME (E A : Type) : Type := World → (E + A) * World.

#[global] Instance ME_ret {E} : MRet (ME E) := λ A x w, (inr x, w).
#[global] Instance ME_bind {E} : MBind (ME E) := λ A B f m w,
  match m w with
  | (inl e, w') => (inl e, w')
  | (inr x, w') => f x w'
  end.

Definition throw {E A : Type} (e : E) : ME E A := λ w, (inl e, w).

(** The exceptions that leave a client are those of [exn]. *)
Abbreviation M := (ME exn).

(** Running a pure function that may raise. *)
Definition lift {A : Type} (r : result A) : M A :=
  match r with
  | inl e => throw e
  | inr x => mret x
  end.

(** Inside [BaseClient.get] two exceptions of httpx occur as well; both
    are handled there. *)
Inductive failure : Type :=
| Raised (e : exn)
| TimeoutException
| HTTPStatusError (r : Response).

Abbreviation MH := (ME failure).

(** A statement of the [try] block that raises exceptions of [exn] only. *)
Definition within {A : Type} (m : M A) : MH A := λ w,
  match m w with
  | (inl e, w') => (inl (Raised e), w')
  | (inr x, w') => (inr x, w')
  end.

(** [try: body / except httpx.TimeoutException: on_timeout / except
    httpx.HTTPStatusError as e: on_status e.response]; any other
    exception propagates. *)
Definition try_except {A : Type} (body : MH A) (on_timeout : M A)
    (on_status : Response → M A) : M A := λ w,
  match body w with
  | (inr x, w') => (inr x, w')
  | (inl (Raised e), w') => (inl e, w')
  | (inl TimeoutException, w') => on_timeout w'
  | (inl (HTTPStatusError r), w') => on_status r w'
  end.

(** [time.time()] *)
Definition time_time : M spec_float := λ w,
  (inr (clock w (ticks w)),
   {| cache := cache w; clock := clock w; ticks := S (ticks w);
      upstream := upstream w; sent := sent w |}).

Definition read_cache : M (gmap string CacheEntry) := λ w, (inr (cache w), w).

Definition write_cache (c : gmap string CacheEntry) : M unit := λ w,
  (inr tt,
   {| cache := c; clock := clock w; ticks := ticks w;
      upstream := upstream w; sent := sent w |}).

(** [await client.get(url, params=params)] of httpx: the request goes out,
    and either a response comes back or [httpx.TimeoutException] is
    raised. *)
Definition client_get (rq : Request) : MH Response := λ w,
  let w' := {| cache := cache w; clock := clock w; ticks := ticks w;
               upstream := upstream w; sent := sent w ++ [rq] |} in
  match upstream w rq with
  | Responded r => (inr r, w')
  | TimedOut => (inl TimeoutException, w')
  end.

(** ** clients/base.py *)

(** [CacheEntry.__init__] *)
Definition CacheEntry_init (d : json) (ttl_seconds : Z) : M CacheEntry :=
  now ← time_time;
  mret {| data := d; expires_at := F64.add now (F64.of_Z ttl_seconds) |}.

(** [SimpleCache.get]; the result [JNull] is Python's [None]. *)
Definition SimpleCache_get (key : string) : M json :=
  c ← read_cache;
  match c !! key with
  | Some entry =>
      now ← time_time;
      if F64.ltb now (expires_at entry) then mret (data entry)
      else
        _ ← write_cache (delete key c);
        mret JNull
  | None => mret JNull
  end.

(** [SimpleCache.set] *)
Definition SimpleCache_set (key : string) (d : json) (ttl_seconds : Z) : M unit :=
  entry ← CacheEntry_init d ttl_seconds;
  c ← read_cache;
  write_cache (<[key := entry]> c).

(** [SimpleCache.clear] *)
Definition SimpleCache_clear : M unit := write_cache ∅.

(** [str.rstrip("/")] *)
Fixpoint rstrip_slash (s : string) : string :=
  match s with
  | EmptyString => EmptyString
  | String c s' =>
      match rstrip_slash s' with
      | EmptyString => if Ascii.eqb c "/" then EmptyString else String c EmptyString
      | r => String c r
      end
  end.

(** The attributes of a client; [headers] is what its
    [_get_default_headers] returns. *)
Record BaseClient : Type := {
  base_url : string;
  api_key : option string;
  cache_ttl : Z;
  headers : list (string * string);
}.

(** [BaseClient._get_default_headers] *)
Definition default_headers : list (string * string) :=
  [("User-Agent", "ToolFi/0.1.0"); ("Accept", "application/json")].

(** [BaseClient.__init__], for the base class itself. *)
Definition BaseClient_init (url : string) (key : option string) (ttl : Z) : BaseClient :=
  {| base_url := rstrip_slash url; api_key := key; cache_ttl := ttl;
     headers := default_headers |}.

(** [response.json()] *)
Definition response_json (r : Response) : M json :=
  match content r with
  | JsonContent j => mret j
  | NoContent | TextContent _ =>
      throw (JSONDecodeError "Expecting value: line 1 column 1 (char 0)")
  end.

(** Truthiness of [response.content]. *)
Definition has_content (r : Response) : bool :=
  match content r with
  | NoContent => false
  | JsonContent _ => true
  | TextContent raw => str_truthy raw
  end.

(** [response.raise_for_status()] of httpx: raises for every status
    outside 200..299. *)
Definition raise_for_status (r : Response) : MH unit :=
  if (200 <=? status r) && (status r <=? 299) then mret tt
  else throw (HTTPStatusError r).

(** The Python runtime and [hashlib], which the repository calls and does
    not define: shortest round-trip printing of a float, [float(s)] and
    [int(s)] on a string ([None] when they raise ValueError), [str(v)] as
    an f-string interpolates a value, and the MD5 digest in hexadecimal. *)
Class Runtime : Type := {
  float_repr : spec_float → string;
  float_of_str : string → option spec_float;
  int_of_str : string → option Z;
  py_str : json → string;
  md5_hexdigest : string → string;
}.

Section Embedding.

Context {RT : Runtime}.

(** [json.dumps(j, sort_keys=True)] with the default separators. *)
Fixpoint dumps (j : json) : string :=
  match j with
  | JNull => "null"
  | JBool b => if b then "true" else "false"
  | JInt n => pretty n
  | JFloat x => float_repr x
  | JStr s => quote s
  | JArr l => "[" +:+ join ", " (map dumps l) +:+ "]"
  | JObj fields =>
      let rendered := map (λ kv, let (k, v) := kv : string * json in (k, dumps v)) fields in
      "{" +:+ join ", " (map (λ kv : string * string, quote kv.1 +:+ ": " +:+ kv.2)
                            (sort_items rendered)) +:+ "}"
  end.

(** A [params] argument: [None] or a dict. *)
Definition params_json (params : option (list (string * json))) : json :=
  match params with
  | None => JNull
  | Some d => JObj d
  end.

(** [SimpleCache.make_key(url, params)], as [BaseClient.get] calls it:
    two positional arguments and no keyword argument. *)
Definition make_key (url : string) (params : option (list (string * json))) : string :=
  let data := dumps (JObj [("args", JArr [JStr url; params_json params]);
                           ("kwargs", JObj [])]) in
  md5_hexdigest data.

(** [float(v)] *)
Definition py_float (v : json) : result spec_float :=
  match v with
  | JStr s =>
      match float_of_str s with
      | Some x => mret x
      | None => raise (ValueError "could not convert string to float")
      end
  | JInt n =>
      match F64.of_Z n with
      | S754_infinity _ => raise (OverflowError "int too large to convert to float")
      | x => mret x
      end
  | JFloat x => mret x
  | JBool b => mret (F64.of_Z (if b then 1 else 0))
  | _ => raise (TypeError "float() argument must be a string or a real number")
  end.

(** [int(v)] *)
Definition py_int_of (v : json) : result Z :=
  match v with
  | JStr s =>
      match int_of_str s with
      | Some n => mret n
      | None => raise (ValueError "invalid literal for int() with base 10")
      end
  | JInt n => mret n
  | JFloat x => py_int x
  | JBool b => mret (if b then 1 else 0)
  | _ => raise (TypeError "int() argument must be a string or a real number")
  end.

(** The [try] statement of [BaseClient.get]: the request, the mapping of
    the response and the two [except] clauses.  The httpx client that
    [_get_client] creates on first use carries the timeout and the
    headers of the client. *)
Definition BaseClient_request (self : BaseClient) (url : string)
    (params : option (list (string * json))) (use_cache : bool)
    (cache_key : string) : M json :=
  try_except
    (response ← client_get {| req_url := url; req_params := params;
                              req_headers := headers self |};
     if status response =? 429 then
       throw (Raised (RateLimitError "Rate limit exceeded" (Some 429)
                        (Some (JObj [("error", JStr "rate_limit")]))))
     else
       _ ← raise_for_status response;
       d ← within (response_json response);
       _ ← within (if use_cache
                   then SimpleCache_set cache_key d (cache_ttl self)
                   else mret tt);
       mret d)
    (throw (APIError "Request timeout" None None))
    (λ r,
       resp ← (if has_content r then j ← response_json r; mret (Some j)
               else mret None);
       throw (APIError ("HTTP error: " +:+ pretty (status r))
                (Some (status r)) resp)).

(** [BaseClient.get] *)
Definition BaseClient_get (self : BaseClient) (path : string)
    (params : option (list (string * json))) (use_cache : bool) : M json :=
  let url := base_url self +:+ path in
  let cache_key := make_key url params in
  cached ← (if use_cache then SimpleCache_get cache_key else mret JNull);
  match cached with
  | JNull => BaseClient_request self url params use_cache cache_key
  | j => mret j
  end.

(** Truthiness of an optional string ([None] or [""] is false). *)
Definition opt_truthy (o : option string) : bool :=
  match o with
  | Some s => str_truthy s
  | None => false
  end.

(** ** clients/goplus.py *)

Definition GoPlus_BASE_URL : string := "https://api.gopluslabs.io/api/v1".

(** [GoPlusClient.__init__] with [GoPlusClient._get_default_headers] *)
Definition GoPlusClient_init (key : option string) (ttl : Z) : BaseClient :=
  {| base_url := rstrip_slash GoPlus_BASE_URL; api_key := key; cache_ttl := ttl;
     headers := default_headers ++
                match key with
                | Some k => if str_truthy k then [("Authorization", "Bearer " +:+ k)] else []
                | None => []
                end |}.

(** [GoPlusClient.check_token_security] *)
Definition check_token_security (self : BaseClient) (chain contract_address : string)
    : M TokenSecurity :=
  let chain_id := get_goplus_chain_id chain in
  if negb (opt_truthy chain_id) then
    throw (ValueError ("Unsupported chain: " +:+ chain +:+
             ". Supported: ethereum, bsc, base, arbitrum, polygon, solana, etc."))
  else
    let chain_id := default "" chain_id in
    let address := str_strip (str_lower contract_address) in
    d ← BaseClient_get self ("/token_security/" +:+ chain_id)
          (Some [("contract_addresses", JStr address)]) true;
    code ← lift (get "code" d);
    if negb (eq_int code 1) then
      msg ← lift (get "message" d);
      throw (APIError ("GoPlus API error: " +:+ py_str msg) None None)
    else
      res ← lift (get_or "result" (JObj []) d);
      token_data ← lift (get_or address (JObj []) res);
      if negb (truthy token_data) then
        throw (APIError ("Token not found: " +:+ address +:+ " on " +:+ chain) None None)
      else
        security ← lift (
          token_name ← get "token_name" token_data;
          token_symbol ← get "token_symbol" token_data;
          honeypot ← get "is_honeypot" token_data;
          bt ← get "buy_tax" token_data;
          bt ← py_float (py_or bt (JInt 0));
          st ← get "sell_tax" token_data;
          st ← py_float (py_or st (JInt 0));
          mintable ← get "is_mintable" token_data;
          take_back ← get "can_take_back_ownership" token_data;
          change_balance ← get "owner_change_balance" token_data;
          hidden ← get "hidden_owner" token_data;
          blacklisted ← get "is_blacklisted" token_data;
          pausable ← get "transfer_pausable" token_data;
          proxy ← get "is_proxy" token_data;
          open_source ← get "is_open_source" token_data;
          supply ← get "total_supply" token_data;
          holders ← get "holder_count" token_data;
          holders ← py_int_of (py_or holders (JInt 0));
          lp_holders ← get "lp_holder_count" token_data;
          lp_holders ← py_int_of (py_or lp_holders (JInt 0));
          dex ← get_or "dex" (JArr []) token_data;
          cex ← get_or "is_in_cex" (JObj []) token_data;
          listed ← get "listed" cex;
          cex' ← get_or "is_in_cex" (JObj []) token_data;
          cexs ← get_or "cex_list" (JArr []) cex';
          mret {| address := address; chain := chain;
                  name := token_name; symbol := token_symbol;
                  is_honeypot := eq_str honeypot "1";
                  buy_tax := bt; sell_tax := st;
                  is_mintable := eq_str mintable "1";
                  can_take_back_ownership := eq_str take_back "1";
                  owner_change_balance := eq_str change_balance "1";
                  hidden_owner := eq_str hidden "1";
                  is_blacklisted := eq_str blacklisted "1";
                  transfer_pausable := eq_str pausable "1";
                  is_proxy := eq_str proxy "1";
                  is_open_source := eq_str open_source "1";
                  total_supply := supply;
                  holder_count := Some holders;
                  lp_holder_count := Some lp_holders;
                  dex_info := dex;
                  is_in_cex := eq_str listed "1";
                  cex_list := cexs;
                  risk_score := 0; risk_level := SAFE; risk_factors := [] |});
        lift (calculate_risk security).

(** ** clients/coingecko.py *)

Definition CoinGecko_BASE_URL : string := "https://api.coingecko.com/api/v3".
Definition CoinGecko_PRO_BASE_URL : string := "https://pro-api.coingecko.com/api/v3".

(** [CoinGeckoClient.__init__] with [CoinGeckoClient._get_default_headers] *)
Definition CoinGeckoClient_init (key : option string) (ttl : Z) : BaseClient :=
  {| base_url := rstrip_slash (if opt_truthy key then CoinGecko_PRO_BASE_URL
                               else CoinGecko_BASE_URL);
     api_key := key; cache_ttl := ttl;
     headers := default_headers ++
                match key with
                | Some k => if str_truthy k then [("x-cg-pro-api-key", k)] else []
                | None => []
                end |}.

(** [CoinGeckoClient.get_token_price] *)
Definition get_token_price (self : BaseClient) (chain contract_address : string)
    (include_24h_change include_market_cap include_volume : bool) : M TokenPrice :=
  let platform := get_coingecko_platform chain in
  if negb (opt_truthy platform) then
    throw (ValueError ("Unsupported chain: " +:+ chain +:+
             ". Supported: ethereum, bsc, base, arbitrum, polygon, solana, etc."))
  else
    let platform := default "" platform in
    let address := str_strip (str_lower contract_address) in
    let params :=
      [("contract_addresses", JStr address); ("vs_currencies", JStr "usd")]
      ++ (if include_24h_change then [("include_24hr_change", JStr "true")] else [])
      ++ (if include_market_cap then [("include_market_cap", JStr "true")] else [])
      ++ (if include_volume then [("include_24hr_vol", JStr "true")] else []) in
    d ← BaseClient_get self ("/simple/token_price/" +:+ platform) (Some params) true;
    if negb (truthy d) then
      throw (APIError ("Token not found: " +:+ address +:+ " on " +:+ chain) None None)
    else
      token_data ← lift (get_or address (JObj []) d);
      if negb (truthy token_data) then
        throw (APIError ("Token not found: " +:+ address +:+ " on " +:+ chain) None None)
      else
        lift (
          usd ← get_or "usd" (JInt 0) token_data;
          change ← get "usd_24h_change" token_data;
          cap ← get "usd_market_cap" token_data;
          vol ← get "usd_24h_vol" token_data;
          mret {| tp_address := address; tp_chain := chain; price_usd := usd;
                  change_24h := change; market_cap := cap; volume_24h := vol |}).

(** [CoinGeckoClient.get_price_by_id] *)
Definition get_price_by_id (self : BaseClient) (coin_id : string)
    (include_24h_change include_market_cap : bool) : M json :=
  let params :=
    [("ids", JStr coin_id); ("vs_currencies", JStr "usd")]
    ++ (if include_24h_change then [("include_24hr_change", JStr "true")] else [])
    ++ (if include_market_cap then [("include_market_cap", JStr "true")] else []) in
  d ← BaseClient_get self "/simple/price" (Some params) true;
  lift (get_or coin_id (JObj []) d).

(** [CoinGeckoClient.get_trending] *)
Definition get_trending (self : BaseClient) : M json :=
  d ← BaseClient_get self "/search/trending" None true;
  lift (get_or "coins" (JArr []) d).

(** [GoPlusClient.get_supported_chains] *)
Definition get_supported_chains (self : BaseClient) : M json :=
  d ← BaseClient_get self "/supported_chains" None true;
  code ← lift (get "code" d);
  if negb (eq_int code 1) then
    msg ← lift (get "message" d);
    throw (APIError ("GoPlus API error: " +:+ py_str msg) None None)
  else lift (get_or "result" (JArr []) d).

(** ** clients/defillama.py *)

Definition DefiLlama_BASE_URL : string := "https://yields.llama.fi".

(** [DefiLlamaClient.__init__] *)
Definition DefiLlamaClient_init (ttl : Z) : BaseClient :=
  {| base_url := rstrip_slash DefiLlama_BASE_URL; api_key := None;
     cache_ttl := ttl; headers := default_headers |}.

(** [DefiLlamaClient.get_all_pools] *)
Definition get_all_pools (self : BaseClient) : M json :=
  d ← BaseClient_get self "/pools" None true;
  lift (get_or "data" (JArr []) d).

(** The keyword arguments of [get_pools]. *)
Record PoolQuery : Type := {
  q_chain : option string;
  q_project : option string;
  min_tvl : Q;
  min_apy : Q;
  max_apy : Q;
  stablecoin_only : bool;
  single_exposure : bool;
  limit : Z;
}.

(** The defaults of [get_pools]. *)
Definition default_query : PoolQuery :=
  {| q_chain := None; q_project := None; min_tvl := 0; min_apy := 0;
     max_apy := 10000; stablecoin_only := false; single_exposure := false;
     limit := 50 |}.

(** One pass of the loop body of [get_pools] up to [result.append]:
    [None] when a [continue] is taken, the pool to append otherwise. *)
Definition pool_step (chain_filter : option string) (q : PoolQuery) (pool : json)
    : result (option DefiPool) :=
  skip ← (if opt_truthy chain_filter then
            c ← get "chain" pool;
            mret (negb (eq_str c (default "" chain_filter)))
          else mret false);
  if skip : bool then mret None else
  skip ← (if opt_truthy (q_project q) then
            p ← get_or "project" (JStr "") pool;
            l ← lower p;
            mret (negb (String.eqb l (str_lower (default "" (q_project q)))))
          else mret false);
  if skip : bool then mret None else
  tvl ← get_or "tvlUsd" (JInt 0) pool;
  tvl ← number (py_or tvl (JInt 0));
  if Qltb tvl (min_tvl q) then mret None else
  a ← get_or "apy" (JInt 0) pool;
  a ← number (py_or a (JInt 0));
  if Qltb a (min_apy q) || Qltb (max_apy q) a then mret None else
  skip ← (if stablecoin_only q then
            s ← get "stablecoin" pool;
            mret (negb (truthy s))
          else mret false);
  if skip : bool then mret None else
  skip ← (if single_exposure q then
            e ← get "exposure" pool;
            mret (negb (eq_str e "single"))
          else mret false);
  if skip : bool then mret None else
  id ← get_or "pool" (JStr "") pool;
  c ← get_or "chain" (JStr "") pool;
  p ← get_or "project" (JStr "") pool;
  sym ← get_or "symbol" (JStr "") pool;
  base ← get "apyBase" pool;
  reward ← get "apyReward" pool;
  tokens ← get "rewardTokens" pool;
  stable ← get_or "stablecoin" (JBool false) pool;
  il ← get_or "ilRisk" (JStr "unknown") pool;
  underlying ← get "underlyingTokens" pool;
  mret (Some {| pool_id := id; dp_chain := c; project := p; dp_symbol := sym;
                tvl_usd := tvl; apy := a; apy_base := base; apy_reward := reward;
                reward_tokens := py_or tokens (JArr []); stablecoin := stable;
                il_risk := il; underlying_tokens := py_or underlying (JArr []) |}).

(** The [for pool in all_pools] loop of [get_pools], [acc] being the list
    [result] built so far. *)
Fixpoint pools_loop (chain_filter : option string) (q : PoolQuery)
    (all_pools : list json) (acc : list DefiPool) : result (list DefiPool) :=
  match all_pools with
  | [] => mret acc
  | pool :: rest =>
      r ← pool_step chain_filter q pool;
      match r with
      | None => pools_loop chain_filter q rest acc
      | Some p =>
          let acc := acc ++ [p] in
          if limit q <=? Z.of_nat (length acc) then mret acc
          else pools_loop chain_filter q rest acc
      end
  end.

(** [result.sort(key=lambda x: x.apy, reverse=True)]: a stable sort,
    descending. *)
Fixpoint insert_pool (p : DefiPool) (l : list DefiPool) : list DefiPool :=
  match l with
  | [] => [p]
  | y :: l' => if Qle_bool (apy y) (apy p) then p :: y :: l' else y :: insert_pool p l'
  end.

Fixpoint sort_pools (l : list DefiPool) : list DefiPool :=
  match l with
  | [] => []
  | p :: l' => insert_pool p (sort_pools l')
  end.

(** The value of [chain_filter] in [get_pools]. *)
Definition chain_filter_of (chain : option string) : option string :=
  if opt_truthy chain then get_defillama_chain (default "" chain) else None.

(** [get_pools] after the pools were fetched. *)
Definition filter_pools (q : PoolQuery) (all_pools : json) : result (list DefiPool) :=
  let chain_filter := chain_filter_of (q_chain q) in
  pools ← py_iter all_pools;
  res ← pools_loop chain_filter q pools [];
  mret (sort_pools res).

(** [DefiLlamaClient.get_pools] *)
Definition get_pools (self : BaseClient) (q : PoolQuery) : M (list DefiPool) :=
  all_pools ← get_all_pools self;
  lift (filter_pools q all_pools).

(** [DefiLlamaClient.get_top_yields] *)
Definition get_top_yields (self : BaseClient) (chain : option string) (lim : Z)
    : M (list DefiPool) :=
  get_pools self {| q_chain := chain; q_project := None; min_tvl := 1000000;
                    min_apy := 1; max_apy := 100; stablecoin_only := false;
                    single_exposure := false; limit := lim |}.

(** ** clients/lifi.py *)

Definition LiFi_BASE_URL : string := "https://li.quest/v1".
Definition NATIVE_TOKEN : string := "0x0000000000000000000000000000000000000000".

Definition USDC_ADDRESSES : list (Z * string) :=
  [ (1, "0xA0b86991c6218b36c1d19D4a2e9Eb0cE3606eB48");
    (42161, "0xaf88d065e77c8cC2239327C5EDb3A432268e5831");
    (8453, "0x833589fCD6eDb6E08f4c7C32D4f71b54bdA02913");
    (137, "0x3c499c542cef5e3811e1192ce70d8cc03d5c3359");
    (10, "0x0b2C639c533813f4Aa9D7837CAf62653d097Ff85") ].

Fixpoint assocZ (k : Z) (d : list (Z * string)) : option string :=
  match d with
  | [] => None
  | (k', v) :: d' => if k =? k' then Some v else assocZ k d'
  end.

(** [LiFiClient.__init__] *)
Definition LiFiClient_init (ttl : Z) : BaseClient :=
  {| base_url := rstrip_slash LiFi_BASE_URL; api_key := None;
     cache_ttl := ttl; headers := default_headers |}.

(** [LiFiClient._resolve_token] *)
Definition resolve_token (token : string) (chain_id : Z) : string :=
  let token_upper := str_upper token in
  if existsb (String.eqb token_upper) ["ETH"; "NATIVE"; "MATIC"; "BNB"; "AVAX"] then
    NATIVE_TOKEN
  else if String.eqb token_upper "USDC" then
    default token (assocZ chain_id USDC_ADDRESSES)
  else if String.prefix "0x" token && (String.length token =? 42)%nat then
    str_lower token
  else token.

(** Truthiness of an optional int ([None] or [0] is false). *)
Definition optZ_truthy (o : option Z) : bool :=
  match o with
  | Some n => negb (n =? 0)
  | None => false
  end.

(** [sum(float(g.get("amountUSD", 0)) for g in gas_costs)] *)
Fixpoint sum_gas (gas_costs : list json) (total : spec_float) : result spec_float :=
  match gas_costs with
  | [] => mret total
  | g :: rest =>
      v ← get_or "amountUSD" (JInt 0) g;
      x ← py_float v;
      sum_gas rest (F64.add total x)
  end.

(** [LiFiClient.get_quote] *)
Definition get_quote (self : BaseClient)
    (from_chain_ to_chain_ from_token_ to_token_ amount from_address : string)
    (slippage : spec_float) : M BridgeQuote :=
  let from_chain_id := get_lifi_chain_id from_chain_ in
  let to_chain_id := get_lifi_chain_id to_chain_ in
  if negb (optZ_truthy from_chain_id) then
    throw (ValueError ("Unsupported source chain: " +:+ from_chain_))
  else if negb (optZ_truthy to_chain_id) then
    throw (ValueError ("Unsupported destination chain: " +:+ to_chain_))
  else
    let from_chain_id := default 0 from_chain_id in
    let to_chain_id := default 0 to_chain_id in
    let from_token_addr := resolve_token from_token_ from_chain_id in
    let to_token_addr := resolve_token to_token_ to_chain_id in
    let params :=
      [ ("fromChain", JInt from_chain_id); ("toChain", JInt to_chain_id);
        ("fromToken", JStr from_token_addr); ("toToken", JStr to_token_addr);
        ("fromAmount", JStr amount); ("fromAddress", JStr from_address);
        ("slippage", JFloat slippage) ] in
    d ← BaseClient_get self "/quote" (Some params) false;
    has_error ← lift (py_in "error" d);
    if has_error : bool then
      err ← lift (get "error" d);
      msg ← lift (get_or "message" err d);
      throw (APIError ("Li.Fi error: " +:+ py_str msg) None None)
    else
      lift (
        estimate ← get_or "estimate" (JObj []) d;
        action ← get_or "action" (JObj []) d;
        gas_costs ← get_or "gasCosts" (JArr []) estimate;
        gas_list ← py_iter gas_costs;
        total_gas_usd ← sum_gas gas_list F64.zero;
        from_amt ← get_or "fromAmount" (JStr amount) estimate;
        to_amt ← get_or "toAmount" (JStr "0") estimate;
        usd ← get "toAmountUSD" estimate;
        to_usd ← (if truthy usd then
                    v ← get_or "toAmountUSD" (JInt 0) estimate;
                    x ← py_float v;
                    mret (Some x)
                  else mret None);
        duration ← get "executionDuration" estimate;
        tool ← get_or "tool" (JStr "") d;
        included ← get_or "includedSteps" (JArr []) d;
        mret {| from_chain := from_chain_; to_chain := to_chain_;
                from_token := from_token_addr; to_token := to_token_addr;
                from_amount := from_amt; to_amount := to_amt;
                to_amount_usd := to_usd;
                gas_cost_usd := if F64.ltb F64.zero total_gas_usd
                                then Some total_gas_usd else None;
                execution_time_seconds := duration;
                bridge_name := tool; steps := included |}).

(** ** server.py *)

(** [f"{v:.2f}"] on a value of a response. *)
Definition format_2f (v : json) : result string :=
  match v with
  | JInt n => mret (format_fixed 2 (inject_Z n))
  | JBool b => mret (format_fixed 2 (if b then 1%Q else 0%Q))
  | JFloat x =>
      match Q_of_float x with
      | Some q => mret (format_fixed 2 q)
      | None =>
          mret (match x with
                | S754_infinity true => "-inf"
                | S754_infinity false => "inf"
                | _ => "nan"
                end)
      end
  | JStr _ => raise (ValueError "Unknown format code 'f' for object of type 'str'")
  | _ => raise (TypeError "unsupported format string passed to __format__")
  end.

(** [f"{x:.2f}"] on a float. *)
Definition format_2f_float (x : spec_float) : string :=
  match Q_of_float x with
  | Some q => format_fixed 2 q
  | None =>
      match x with
      | S754_infinity true => "-inf"
      | S754_infinity false => "inf"
      | _ => "nan"
      end
  end.

(** Digits in groups of three, separated by commas. *)
Fixpoint group_thousands (fuel : nat) (n : Z) : string :=
  match fuel with
  | O => pretty n
  | S fuel' =>
      if n <? 1000 then pretty n
      else group_thousands fuel' (n / 1000) +:+ "," +:+ pad_left 3 (pretty (n mod 1000))
  end.

(** [f"{q:,.0f}"] *)
Definition format_comma_0f (q : Q) : string :=
  let n := round_half_even q in
  let a := Z.abs n in
  (if Qnum q <? 0 then "-" else "") +:+ group_thousands (Z.to_nat (Z.log2 a)) a.

(** The process environment read at start-up. *)
Record Env : Type := {
  GOPLUS_API_KEY : option string;
  COINGECKO_API_KEY : option string;
}.

(** The module-level client singletons. *)
Definition goplus (env : Env) : BaseClient := GoPlusClient_init (GOPLUS_API_KEY env) 300.
Definition coingecko (env : Env) : BaseClient := CoinGeckoClient_init (COINGECKO_API_KEY env) 60.
Definition defillama : BaseClient := DefiLlamaClient_init 300.
Definition lifi : BaseClient := LiFiClient_init 30.

(** The document every tool returns on failure; the tool returns its
    [json.dumps] text. *)
Definition error_doc (msg : string) : json := JObj [("error", JStr msg)].

(** [try: body / except C1 as e: h1 e / except C2 as e: h2 e / ...]: the
    first clause whose class matches handles the exception; with no
    match it propagates. *)
Fixpoint select_handler {A : Type} (clauses : list ((exn → bool) * (exn → A)))
    (e : exn) : option A :=
  match clauses with
  | [] => None
  | (matches, handler) :: rest =>
      if matches e then Some (handler e) else select_handler rest e
  end.

Definition try_clauses (body : M json) (clauses : list ((exn → bool) * (exn → json)))
    : M json := λ w,
  match body w with
  | (inr doc, w') => (inr doc, w')
  | (inl e, w') =>
      match select_handler clauses e with
      | Some doc => (inr doc, w')
      | None => (inl e, w')
      end
  end.

(** Every class of [exn] derives from [Exception]. *)
Definition is_Exception (e : exn) : bool := true.

(** [token_security] *)
Definition token_security (env : Env) (chain_ address_ : string) : M json :=
  try_clauses
    (r ← check_token_security (goplus env) chain_ address_;
     dex_count ← lift (py_len (dex_info r));
     mret (JObj [
       ("token", JObj [("name", name r); ("symbol", symbol r);
                       ("address", JStr (address r)); ("chain", JStr (chain r))]);
       ("risk", JObj [("level", JStr (RiskLevel_value (risk_level r)));
                      ("score", JInt (risk_score r));
                      ("factors", JArr (map JStr (risk_factors r)))]);
       ("details", JObj [
          ("is_honeypot", JBool (is_honeypot r));
          ("buy_tax", JStr (F64.format_1f (F64.mul (buy_tax r) F64.lit_100) +:+ "%"));
          ("sell_tax", JStr (F64.format_1f (F64.mul (sell_tax r) F64.lit_100) +:+ "%"));
          ("is_mintable", JBool (is_mintable r));
          ("can_take_back_ownership", JBool (can_take_back_ownership r));
          ("owner_change_balance", JBool (owner_change_balance r));
          ("hidden_owner", JBool (hidden_owner r));
          ("is_blacklisted", JBool (is_blacklisted r));
          ("transfer_pausable", JBool (transfer_pausable r));
          ("is_open_source", JBool (is_open_source r));
          ("is_proxy", JBool (is_proxy r))]);
       ("market", JObj [
          ("holder_count", match holder_count r with Some n => JInt n | None => JNull end);
          ("lp_holder_count", match lp_holder_count r with Some n => JInt n | None => JNull end);
          ("is_in_cex", JBool (is_in_cex r));
          ("cex_list", cex_list r);
          ("dex_count", JInt dex_count)])]))
    [ (is_ValueError, λ e, error_doc (exn_str e));
      (is_Exception, λ e, error_doc ("API error: " +:+ exn_str e)) ].

(** [token_price] *)
Definition token_price (env : Env) (chain_ address_ : string)
    (include_market_cap : bool) : M json :=
  try_clauses
    (r ← get_token_price (coingecko env) chain_ address_ true include_market_cap false;
     change ← lift (if truthy (change_24h r) then
                      s ← format_2f (change_24h r); mret (JStr (s +:+ "%"))
                    else mret JNull);
     mret (JObj ([
       ("token", JObj [("address", JStr (tp_address r)); ("chain", JStr (tp_chain r))]);
       ("price", JObj [("usd", price_usd r); ("change_24h", change)])]
       ++ (if include_market_cap && truthy (market_cap r)
           then [("market_cap_usd", market_cap r)] else []))))
    [ (is_ValueError, λ e, error_doc (exn_str e));
      (is_Exception, λ e, error_doc ("API error: " +:+ exn_str e)) ].

(** [crypto_price] *)
Definition crypto_price (env : Env) (coin : string) : M json :=
  try_clauses
    (r ← get_price_by_id (coingecko env) coin true false;
     if negb (truthy r) then mret (error_doc ("Coin not found: " +:+ coin))
     else
       lift (
         usd ← get "usd" r;
         change ← get_or "usd_24h_change" (JInt 0) r;
         s ← format_2f change;
         mret (JObj [("coin", JStr coin); ("price_usd", usd);
                     ("change_24h", JStr (s +:+ "%"))])))
    [ (is_Exception, λ e, error_doc (exn_str e)) ].

(** One entry of the [pools] list of [defi_yields]. *)
Definition pool_doc (pool : DefiPool) : result json :=
  base ← (if truthy (apy_base pool) then
            s ← format_2f (apy_base pool); mret (JStr (s +:+ "%"))
          else mret JNull);
  reward ← (if truthy (apy_reward pool) then
              s ← format_2f (apy_reward pool); mret (JStr (s +:+ "%"))
            else mret JNull);
  mret (JObj [
    ("pool_id", pool_id pool); ("chain", dp_chain pool);
    ("project", project pool); ("symbol", dp_symbol pool);
    ("tvl_usd", JStr ("$" +:+ format_comma_0f (tvl_usd pool)));
    ("apy", JStr (format_fixed 2 (apy pool) +:+ "%"));
    ("apy_base", base); ("apy_reward", reward);
    ("stablecoin", stablecoin pool); ("il_risk", il_risk pool)]).

Fixpoint pool_docs (pools : list DefiPool) : result (list json) :=
  match pools with
  | [] => mret []
  | pool :: rest =>
      d ← pool_doc pool;
      ds ← pool_docs rest;
      mret (d :: ds)
  end.

(** [defi_yields]; the tool leaves [single_exposure] at its default. *)
Definition defi_yields (chain_ project_ : option string) (min_tvl_ min_apy_ max_apy_ : Q)
    (stablecoin_only_ : bool) (limit_ : Z) : M json :=
  try_clauses
    (pools ← get_pools defillama
               {| q_chain := chain_; q_project := project_; min_tvl := min_tvl_;
                  min_apy := min_apy_; max_apy := max_apy_;
                  stablecoin_only := stablecoin_only_; single_exposure := false;
                  limit := limit_ |};
     docs ← lift (pool_docs pools);
     mret (JObj [("count", JInt (Z.of_nat (length docs))); ("pools", JArr docs)]))
    [ (is_Exception, λ e, error_doc (exn_str e)) ].

(** [bridge_quote]; the tool leaves [slippage] at its default, 0.03. *)
Definition bridge_quote (from_chain_ to_chain_ from_token_ to_token_ amount
    from_address : string) : M json :=
  try_clauses
    (quote_ ← get_quote lifi from_chain_ to_chain_ from_token_ to_token_ amount
                from_address F64.lit_0_03;
     mret (JObj [
       ("route", JObj [("from_chain", JStr (from_chain quote_));
                       ("to_chain", JStr (to_chain quote_));
                       ("from_token", JStr (from_token quote_));
                       ("to_token", JStr (to_token quote_))]);
       ("amounts", JObj [
          ("from_amount", from_amount quote_);
          ("to_amount", to_amount quote_);
          ("to_amount_usd",
           match to_amount_usd quote_ with
           | Some x => if truthy (JFloat x) then JStr ("$" +:+ format_2f_float x) else JNull
           | None => JNull
           end)]);
       ("costs", JObj [
          ("gas_usd",
           match gas_cost_usd quote_ with
           | Some x => if truthy (JFloat x) then JStr ("$" +:+ format_2f_float x) else JNull
           | None => JNull
           end)]);
       ("execution", JObj [("time_seconds", execution_time_seconds quote_);
                           ("bridge", bridge_name quote_)])]))
    [ (is_ValueError, λ e, error_doc (exn_str e));
      (is_Exception, λ e, error_doc ("API error: " +:+ exn_str e)) ].

(** [c["name"]] *)
Definition subscript (k : string) (x : json) : result json :=
  match x with
  | JObj d =>
      match assoc k d with
      | Some v => mret v
      | None => raise (KeyError k)
      end
  | _ => raise (TypeError "indices must be integers")
  end.

Fixpoint chain_names (chains : list json) : result (list json) :=
  match chains with
  | [] => mret []
  | c :: rest =>
      n ← subscript "name" c;
      ns ← chain_names rest;
      mret (n :: ns)
  end.

(** [supported_chains] *)
Definition supported_chains (env : Env) : M json :=
  try_clauses
    (goplus_chains ← get_supported_chains (goplus env);
     cs ← lift (py_iter goplus_chains);
     names ← lift (chain_names cs);
     mret (JObj [
       ("goplus", JArr names);
       ("coingecko", JArr (map JStr ["ethereum"; "bsc"; "polygon"; "arbitrum";
                                     "base"; "optimism"; "avalanche"; "solana"]));
       ("defillama", JArr (map JStr ["Ethereum"; "BSC"; "Polygon"; "Arbitrum";
                                     "Base"; "Optimism"; "Avalanche"; "Solana"]));
       ("lifi", JArr (map JStr ["ethereum"; "arbitrum"; "base"; "polygon";
                                "optimism"; "bsc"; "avalanche"]))]))
    [ (is_Exception, λ e, error_doc (exn_str e)) ].

(** [trending[:10]] *)
Definition first_ten (x : json) : result (list json) :=
  match x with
  | JArr l => mret (take 10 l)
  | JStr s => mret (map (λ c, JStr (String c EmptyString))
                        (take 10 (String.list_ascii_of_string s)))
  | _ => raise (TypeError "object is not subscriptable")
  end.

Fixpoint trending_docs (items : list json) : result (list json) :=
  match items with
  | [] => mret []
  | item :: rest =>
      coin ← get_or "item" (JObj []) item;
      n ← get "name" coin;
      s ← get "symbol" coin;
      rank ← get "market_cap_rank" coin;
      btc ← get "price_btc" coin;
      ds ← trending_docs rest;
      mret (JObj [("name", n); ("symbol", s); ("market_cap_rank", rank);
                  ("price_btc", btc)] :: ds)
  end.

(** [trending_coins] *)
Definition trending_coins (env : Env) : M json :=
  try_clauses
    (trending ← get_trending (coingecko env);
     items ← lift (first_ten trending);
     docs ← lift (trending_docs items);
     mret (JObj [("trending", JArr docs)]))
    [ (is_Exception, λ e, error_doc (exn_str e)) ].

End Embedding.

(** ** More operations of the clients *)

Section Operations.

Context {RT : Runtime}.

(** [GoPlusClient.check_address_security] *)
Definition check_address_security (self : BaseClient) (chain_ address_ : string)
    : M json :=
  let chain_id := get_goplus_chain_id chain_ in
  if negb (opt_truthy chain_id) then
    throw (ValueError ("Unsupported chain: " +:+ chain_))
  else
    let chain_id := default "" chain_id in
    d ← BaseClient_get self ("/address_security/" +:+ chain_id)
          (Some [("address", JStr (str_lower address_))]) true;
    code ← lift (get "code" d);
    if negb (eq_int code 1) then
      msg ← lift (get "message" d);
      throw (APIError ("GoPlus API error: " +:+ py_str msg) None None)
    else lift (get_or "result" (JObj []) d).

(** [GoPlusClient.check_approval_security] *)
Definition check_approval_security (self : BaseClient)
    (chain_ contract_address : string) : M json :=
  let chain_id := get_goplus_chain_id chain_ in
  if negb (opt_truthy chain_id) then
    throw (ValueError ("Unsupported chain: " +:+ chain_))
  else
    let chain_id := default "" chain_id in
    d ← BaseClient_get self ("/approval_security/" +:+ chain_id)
          (Some [("contract_addresses", JStr (str_lower contract_address))]) true;
    code ← lift (get "code" d);
    if negb (eq_int code 1) then
      msg ← lift (get "message" d);
      throw (APIError ("GoPlus API error: " +:+ py_str msg) None None)
    else lift (get_or "result" (JObj []) d).

(** The [for addr in addresses] loop of [get_multiple_token_prices],
    [res] being the dict [result] built so far. *)
Fixpoint collect_prices (chain_ : string) (d : json) (addresses : list string)
    (res : gmap string TokenPrice) : result (gmap string TokenPrice) :=
  match addresses with
  | [] => mret res
  | addr :: rest =>
      token_data ← get_or addr (JObj []) d;
      if truthy token_data then
        usd ← get_or "usd" (JInt 0) token_data;
        change ← get "usd_24h_change" token_data;
        collect_prices chain_ d rest
          (<[addr := {| tp_address := addr; tp_chain := chain_; price_usd := usd;
                        change_24h := change; market_cap := JNull;
                        volume_24h := JNull |}]> res)
      else collect_prices chain_ d rest res
  end.

(** [addr.lower().strip() for addr in contract_addresses[:100]] *)
Definition batch_addresses (contract_addresses : list string) : list string :=
  map (λ addr, str_strip (str_lower addr)) (take 100 contract_addresses).

(** [CoinGeckoClient.get_multiple_token_prices] *)
Definition get_multiple_token_prices (self : BaseClient) (chain_ : string)
    (contract_addresses : list string) : M (gmap string TokenPrice) :=
  let platform := get_coingecko_platform chain_ in
  if negb (opt_truthy platform) then
    throw (ValueError ("Unsupported chain: " +:+ chain_))
  else
    let platform := default "" platform in
    let addresses := batch_addresses contract_addresses in
    d ← BaseClient_get self ("/simple/token_price/" +:+ platform)
          (Some [("contract_addresses", JStr (join "," addresses));
                 ("vs_currencies", JStr "usd");
                 ("include_24hr_change", JStr "true")]) true;
    lift (collect_prices chain_ d addresses ∅).



Definition DefiLlama_TVL_BASE_URL : string := "https://api.llama.fi".

(** [DefiLlamaClient.get_protocol_tvl]: a client of the base class for
    the TVL host, with the cache lifetime of [self]; the [finally] clause
    closes its connection, which the world does not record. *)
Definition get_protocol_tvl (self : BaseClient) (protocol : string) : M json :=
  let client := BaseClient_init DefiLlama_TVL_BASE_URL None (cache_ttl self) in
  BaseClient_get client ("/protocol/" +:+ protocol) None true.

(** [DefiLlamaClient.get_chains_tvl] *)
Definition get_chains_tvl (self : BaseClient) : M json :=
  let client := BaseClient_init DefiLlama_TVL_BASE_URL None (cache_ttl self) in
  BaseClient_get client "/v2/chains" None true.

(** [LiFiClient.get_chains] *)
Definition get_chains (self : BaseClient) : M json :=
  d ← BaseClient_get self "/chains" None true;
  lift (get_or "chains" (JArr []) d).

(** [LiFiClient.get_tokens] *)
Definition get_tokens (self : BaseClient) (chain_id : option Z) : M json :=
  let params :=
    if optZ_truthy chain_id then [("chains", JStr (pretty (default 0 chain_id)))]
    else [] in
  BaseClient_get self "/tokens" (Some params) true.

(** [LiFiClient.get_routes] *)
Definition get_routes (self : BaseClient)
    (from_chain_ to_chain_ from_token_ to_token_ amount : string) : M json :=
  let from_chain_id := get_lifi_chain_id from_chain_ in
  let to_chain_id := get_lifi_chain_id to_chain_ in
  if negb (optZ_truthy from_chain_id) || negb (optZ_truthy to_chain_id) then
    throw (ValueError "Unsupported chain")
  else
    let from_chain_id := default 0 from_chain_id in
    let to_chain_id := default 0 to_chain_id in
    let from_token_addr := resolve_token from_token_ from_chain_id in
    let to_token_addr := resolve_token to_token_ to_chain_id in
    d ← BaseClient_get self "/routes"
          (Some [("fromChainId", JInt from_chain_id); ("toChainId", JInt to_chain_id);
                 ("fromTokenAddress", JStr from_token_addr);
                 ("toTokenAddress", JStr to_token_addr);
                 ("fromAmount", JStr amount)]) false;
    lift (get_or "routes" (JArr []) d).

(** [LiFiClient.get_status] *)
Definition get_status (self : BaseClient) (tx_hash bridge : string) : M json :=
  BaseClient_get self "/status"
    (Some [("txHash", JStr tx_hash); ("bridge", JStr bridge)]) false.

End Operations.

(** ** Definitions used to state the properties *)

(** A [TokenSecurity] built with the defaults of the dataclass. *)
Definition TokenSecurity_new (address_ chain_ : string) : TokenSecurity :=
  {| address := address_; chain := chain_; name := JNull; symbol := JNull;
     is_honeypot := false; buy_tax := F64.zero; sell_tax := F64.zero;
     is_mintable := false; can_take_back_ownership := false;
     owner_change_balance := false; hidden_owner := false;
     is_blacklisted := false; transfer_pausable := false; is_proxy := false;
     is_open_source := true; total_supply := JNull; holder_count := None;
     lp_holder_count := None; dex_info := JArr []; is_in_cex := false;
     cex_list := JArr []; risk_score := 0; risk_level := SAFE;
     risk_factors := [] |}.

(** The record with other taxes. *)
Definition with_taxes (self : TokenSecurity) (buy sell : spec_float) : TokenSecurity :=
  {| address := address self; chain := chain self; name := name self;
     symbol := symbol self; is_honeypot := is_honeypot self;
     buy_tax := buy; sell_tax := sell;
     is_mintable := is_mintable self;
     can_take_back_ownership := can_take_back_ownership self;
     owner_change_balance := owner_change_balance self;
     hidden_owner := hidden_owner self; is_blacklisted := is_blacklisted self;
     transfer_pausable := transfer_pausable self; is_proxy := is_proxy self;
     is_open_source := is_open_source self; total_supply := total_supply self;
     holder_count := holder_count self; lp_holder_count := lp_holder_count self;
     dex_info := dex_info self; is_in_cex := is_in_cex self;
     cex_list := cex_list self; risk_score := risk_score self;
     risk_level := risk_level self; risk_factors := risk_factors self |}.

Definition without_buy_tax (self : TokenSecurity) : TokenSecurity :=
  with_taxes self F64.zero (sell_tax self).

Definition without_sell_tax (self : TokenSecurity) : TokenSecurity :=
  with_taxes self (buy_tax self) F64.zero.

(** [int(tax * 100)] does not raise where [calculate_risk] evaluates it. *)
Definition tax_scorable (tax : spec_float) : bool :=
  if F64.ltb F64.lit_0_1 tax then
    match F64.to_int (F64.mul tax F64.lit_100) with
    | Some _ => true
    | None => false
    end
  else true.

Definition scorable (self : TokenSecurity) : bool :=
  tax_scorable (buy_tax self) && tax_scorable (sell_tax self).

(** The floats [0.15], [0.157] and [0.2], as the nearest binary64 values
    [0x1.3333333333333p-3], [0x1.4189374bc6a7fp-3] and
    [0x1.999999999999ap-3]. *)
Definition lit_0_15 : spec_float := S754_finite false 5404319552844595 (-55).
Definition lit_0_157 : spec_float := S754_finite false 5656521131977343 (-55).
Definition lit_0_2 : spec_float := S754_finite false 7205759403792794 (-55).

(** What one flag rule contributes. *)
Definition flag_part (flag : bool) (points : Z) (text : string) : acc :=
  if flag then (points, [text]) else (0, []).

(** What one tax rule contributes. *)
Definition tax_part (tax : spec_float) (label : string) : result acc :=
  tax_rule tax label (0, []).

(** The sum of two contributions. *)
Definition acc_add (a b : acc) : acc := (a.1 + b.1, a.2 ++ b.2).

(** What the eight rules after the taxes contribute. *)
Definition rest_part (self : TokenSecurity) : acc :=
  acc_add (flag_part (is_mintable self) 20 "⚠️ 可增发")
  (acc_add (flag_part (can_take_back_ownership self) 25 "🚨 可收回所有权")
  (acc_add (flag_part (owner_change_balance self) 30 "🚨 Owner可修改余额")
  (acc_add (flag_part (hidden_owner self) 15 "⚠️ 隐藏的Owner")
  (acc_add (flag_part (is_blacklisted self) 10 "⚠️ 有黑名单功能")
  (acc_add (flag_part (transfer_pausable self) 15 "⚠️ 可暂停转账")
  (acc_add (flag_part (negb (is_open_source self)) 20 "⚠️ 代码未开源")
           (flag_part (is_proxy self) 10 "ℹ️ 代理合约"))))))).

(** The world once [time.time()] was read. *)
Definition tick (w : World) : World :=
  {| cache := cache w; clock := clock w; ticks := S (ticks w);
     upstream := upstream w; sent := sent w |}.

(** The world with another cache. *)
Definition with_cache (w : World) (c : gmap string CacheEntry) : World :=
  {| cache := c; clock := clock w; ticks := ticks w;
     upstream := upstream w; sent := sent w |}.

(** The world once a request was sent. *)
Definition with_sent (w : World) (rq : Request) : World :=
  {| cache := cache w; clock := clock w; ticks := ticks w;
     upstream := upstream w; sent := sent w ++ [rq] |}.

(** Items of a dict in the order of their keys: [x] goes before every
    item of [l]; a list where each item goes before the later ones. *)
Definition key_le_all {A : Type} (x : string * A) (l : list (string * A)) : Prop :=
  Forall (λ y, String.leb x.1 y.1 = true) l.

Inductive sorted_items {A : Type} : list (string * A) → Prop :=
| sorted_nil : sorted_items []
| sorted_cons x l : key_le_all x l → sorted_items l → sorted_items (x :: l).

(** A fresh process: nothing cached, nothing sent, and a clock that
    advances by one second per reading. *)
Definition fresh_world (up : Request → Outcome) : World :=
  {| cache := ∅; clock := λ n, F64.of_Z (1700000000 + Z.of_nat n);
     ticks := 0; upstream := up; sent := [] |}.

(** A runtime that stands in for Python's where a closed example needs
    one: it prints every float as [0.03], parses no number, interpolates
    strings only, and takes the text itself as its digest. *)
Definition stub_runtime : Runtime :=
  {| float_repr := λ _, "0.03";
     float_of_str := λ _, None;
     int_of_str := λ _, None;
     py_str := λ j, match j with JStr t => t | _ => "None" end;
     md5_hexdigest := λ t, t |}.

Fixpoint count_true (l : list bool) : nat :=
  match l with
  | [] => 0
  | b :: l' => (if b then 1 else 0) + count_true l'
  end.

(** The number of rules of the scoring table whose condition holds. *)
Definition triggered (self : TokenSecurity) : nat :=
  count_true
    [ is_honeypot self; F64.ltb F64.lit_0_1 (buy_tax self);
      F64.ltb F64.lit_0_1 (sell_tax self); is_mintable self;
      can_take_back_ownership self; owner_change_balance self;
      hidden_owner self; is_blacklisted self; transfer_pausable self;
      negb (is_open_source self); is_proxy self ].

Definition rest_triggered (self : TokenSecurity) : nat :=
  count_true
    [ is_mintable self;
      can_take_back_ownership self; owner_change_balance self;
      hidden_owner self; is_blacklisted self; transfer_pausable self;
      negb (is_open_source self); is_proxy self ].

(** A contribution made of [k] factors, each with at least one point. *)
Definition acc_good (k : nat) (a : acc) : Prop :=
  length a.2 = k ∧ Z.of_nat k ≤ a.1 ∧ (k = 0%nat → a.1 = 0).

(** What a tax rule does, [a0] being the outcome for the record without
    that tax and [a] the outcome for the record itself: above 10% the
    score grows by [min(30, int(tax * 100))] and one flag is inserted at
    the place of the rule; at or below 10% nothing changes. *)
Definition tax_rule_adds (tax : spec_float) (label : string) (a a0 : acc) : Prop :=
  (F64.ltb F64.lit_0_1 tax = true →
     ∃ n pre post,
       F64.to_int (F64.mul tax F64.lit_100) = Some n ∧
       a.1 = a0.1 + Z.min 30 n ∧
       a0.2 = pre ++ post ∧
       a.2 = pre ++ [label +:+ F64.format_1f (F64.mul tax F64.lit_100) +:+ "%"] ++ post)
  ∧ (F64.leb tax F64.lit_0_1 = true → a = a0).

(** Records with a single risk: a buy tax of 15%, of 15.7%. *)
Definition token_015 : TokenSecurity :=
  with_taxes (TokenSecurity_new "0xabc" "ethereum") lit_0_15 F64.zero.
Definition token_0157 : TokenSecurity :=
  with_taxes (TokenSecurity_new "0xabc" "ethereum") lit_0_157 F64.zero.

(** The two pools of the spec's filtering example, as DefiLlama lists
    them. *)
Definition pool_a_fields : list (string * json) :=
  [("tvlUsd", JInt 2000000); ("apy", JInt 8); ("chain", JStr "Base");
   ("stablecoin", JBool true)].
Definition pool_b_fields : list (string * json) :=
  [("tvlUsd", JInt 500); ("apy", JInt 50); ("chain", JStr "Base");
   ("stablecoin", JBool false)].
Definition pool_a : json := JObj pool_a_fields.
Definition pool_b : json := JObj pool_b_fields.

(** A DefiLlama that lists these two pools. *)
Definition two_pools_upstream (rq : Request) : Outcome :=
  Responded {| status := 200;
               content := JsonContent (JObj [("data", JArr [pool_a; pool_b])]) |}.

(** The records [get_pools] builds for them. *)
Definition record_a : DefiPool :=
  {| pool_id := JStr ""; dp_chain := JStr "Base"; project := JStr "";
     dp_symbol := JStr ""; tvl_usd := 2000000; apy := 8; apy_base := JNull;
     apy_reward := JNull; reward_tokens := JArr []; stablecoin := JBool true;
     il_risk := JStr "unknown"; underlying_tokens := JArr [] |}.
Definition record_b : DefiPool :=
  {| pool_id := JStr ""; dp_chain := JStr "Base"; project := JStr "";
     dp_symbol := JStr ""; tvl_usd := 500; apy := 50; apy_base := JNull;
     apy_reward := JNull; reward_tokens := JArr []; stablecoin := JBool false;
     il_risk := JStr "unknown"; underlying_tokens := JArr [] |}.

(** The request [get_all_pools] sends. *)
Definition pools_request : Request :=
  {| req_url := "https://yields.llama.fi/pools"; req_params := None;
     req_headers := default_headers |}.

Definition with_chain (q : PoolQuery) (c : option string) : PoolQuery :=
  {| q_chain := c; q_project := q_project q; min_tvl := min_tvl q;
     min_apy := min_apy q; max_apy := max_apy q;
     stablecoin_only := stablecoin_only q; single_exposure := single_exposure q;
     limit := limit q |}.

Definition with_limit (q : PoolQuery) (n : Z) : PoolQuery :=
  {| q_chain := q_chain q; q_project := q_project q; min_tvl := min_tvl q;
     min_apy := min_apy q; max_apy := max_apy q;
     stablecoin_only := stablecoin_only q; single_exposure := single_exposure q;
     limit := n |}.


(** The records of the pools whose loop body reaches [result.append], in
    the order of the source list. *)
Definition matching (chain_filter : option string) (q : PoolQuery)
    (pools : list json) : list DefiPool :=
  omap (λ pool, match pool_step chain_filter q pool with
                | inr (Some p) => Some p
                | _ => None
                end) pools.

(** The loop body raises on none of the pools. *)
Definition steps_ok (chain_filter : option string) (q : PoolQuery)
    (pools : list json) : Prop :=
  Forall (λ pool, ∃ r, pool_step chain_filter q pool = inr r) pools.

(** Descending by APY. *)
Definition sorted_by_apy (l : list DefiPool) : Prop :=
  StronglySorted (λ a b, (apy b <= apy a)%Q) l.

(** The fields of a pool as the spec reads them: the number under a key,
    zero when the key is missing or null; the text under a key; the flag
    under a key. *)
Definition field_number (k : string) (d : list (string * json)) : Q :=
  match assoc k d with
  | Some (JInt n) => inject_Z n
  | Some (JBool b) => if b then 1%Q else 0%Q
  | Some (JFloat x) => match Q_of_float x with Some v => v | None => 0%Q end
  | _ => 0%Q
  end.



Definition field_or (k : string) (default : json) (d : list (string * json)) : json :=
  match assoc k d with
  | Some v => v
  | None => default
  end.




(** The record built for a pool. *)
Definition record_of (d : list (string * json)) : DefiPool :=
  {| pool_id := field_or "pool" (JStr "") d;
     dp_chain := field_or "chain" (JStr "") d;
     project := field_or "project" (JStr "") d;
     dp_symbol := field_or "symbol" (JStr "") d;
     tvl_usd := field_number "tvlUsd" d;
     apy := field_number "apy" d;
     apy_base := field_or "apyBase" JNull d;
     apy_reward := field_or "apyReward" JNull d;
     reward_tokens := py_or (field_or "rewardTokens" JNull d) (JArr []);
     stablecoin := field_or "stablecoin" (JBool false) d;
     il_risk := field_or "ilRisk" (JStr "unknown") d;
     underlying_tokens := py_or (field_or "underlyingTokens" JNull d) (JArr []) |}.



(** An upstream behind a gateway that is down: status 502 and an HTML
    page. *)
Definition bad_gateway_upstream (rq : Request) : Outcome :=
  Responded {| status := 502;
               content := TextContent "<html><body><h1>502 Bad Gateway</h1></body></html>" |}.

(** A tool converts the failures of its client operation: it always
    returns a document, and when the operation raises [e] the document is
    the error document with [str(e)], possibly after "API error: ". *)
Definition converts_failures {A : Type} (tool : M json) (op : M A) : Prop :=
  ∀ w, (∃ doc, (tool w).1 = inr doc) ∧
       (∀ e w', op w = (inl e, w') →
          ∃ msg, tool w = (inr (error_doc msg), w') ∧
                 (msg = exn_str e ∨ msg = "API error: " +:+ exn_str e)).

(** ** Definitions used to state the further properties *)

(** A computation that leaves the world as it finds it. *)
Definition quiet {A : Type} (m : M A) : Prop := ∀ w, (m w).2 = w.

(** A request of a client: it carries the headers of the client and goes
    to a URL under its base URL. *)
Definition request_of (self : BaseClient) (rq : Request) : Prop :=
  req_headers rq = headers self ∧ String.prefix (base_url self) (req_url rq) = true.

(** A computation that sends at most one request, a request of [self],
    and leaves the upstream services and the clock as they are. *)
Definition at_most_one_request {A : Type} (self : BaseClient) (m : M A) : Prop :=
  ∀ w, upstream (m w).2 = upstream w ∧ clock (m w).2 = clock w ∧
       (sent (m w).2 = sent w
        ∨ ∃ rq, sent (m w).2 = sent w ++ [rq] ∧ request_of self rq).

(** A computation that neither reads nor writes the cache, and does not
    read the clock. *)
Definition bypasses_cache {A : Type} (m : M A) : Prop :=
  ∀ w, cache (m w).2 = cache w ∧ ticks (m w).2 = ticks w.

(** The record with the honeypot flag set. *)
Definition as_honeypot (self : TokenSecurity) : TokenSecurity :=
  {| address := address self; chain := chain self; name := name self;
     symbol := symbol self; is_honeypot := true;
     buy_tax := buy_tax self; sell_tax := sell_tax self;
     is_mintable := is_mintable self;
     can_take_back_ownership := can_take_back_ownership self;
     owner_change_balance := owner_change_balance self;
     hidden_owner := hidden_owner self; is_blacklisted := is_blacklisted self;
     transfer_pausable := transfer_pausable self; is_proxy := is_proxy self;
     is_open_source := is_open_source self; total_supply := total_supply self;
     holder_count := holder_count self; lp_holder_count := lp_holder_count self;
     dex_info := dex_info self; is_in_cex := is_in_cex self;
     cex_list := cex_list self; risk_score := risk_score self;
     risk_level := risk_level self; risk_factors := risk_factors self |}.

(** The bounds a query puts on a pool. *)
Definition within_bounds (q : PoolQuery) (p : DefiPool) : Prop :=
  (min_tvl q <= tvl_usd p)%Q ∧ (min_apy q <= apy p)%Q ∧ (apy p <= max_apy q)%Q.

(** The strings of a JSON list. *)
Definition strings_of (l : list json) : list string :=
  omap (λ v, match v with JStr s => Some s | _ => None end) l.

(** A process started without API keys. *)
Definition no_keys : Env := {| GOPLUS_API_KEY := None; COINGECKO_API_KEY := None |}.

(** Upstream services with small well-formed answers: a GoPlus that
    knows one token, a honeypot; a GoPlus that lists one chain; a
    CoinGecko that quotes one token; a CoinGecko with one trending
    coin. *)
Definition scan_upstream (rq : Request) : Outcome :=
  Responded {| status := 200;
               content := JsonContent (JObj [
                 ("code", JInt 1);
                 ("result", JObj [("0xabc", JObj [("is_honeypot", JStr "1")])])]) |}.

Definition chains_upstream (rq : Request) : Outcome :=
  Responded {| status := 200;
               content := JsonContent (JObj [
                 ("code", JInt 1);
                 ("result", JArr [JObj [("name", JStr "Ethereum"); ("id", JStr "1")]])]) |}.

Definition prices_upstream (rq : Request) : Outcome :=
  Responded {| status := 200;
               content := JsonContent (JObj [("0xabc", JObj [("usd", JInt 2)])]) |}.

Definition trending_upstream (rq : Request) : Outcome :=
  Responded {| status := 200;
               content := JsonContent (JObj [
                 ("coins", JArr [JObj [("item", JObj [
                    ("name", JStr "Bitcoin"); ("symbol", JStr "BTC");
                    ("market_cap_rank", JInt 1); ("price_btc", JInt 1)])]])]) |}.

(** The price record of the token [prices_upstream] quotes. *)
Definition price_abc : TokenPrice :=
  {| tp_address := "0xabc"; tp_chain := "ethereum"; price_usd := JInt 2;
     change_24h := JNull; market_cap := JNull; volume_24h := JNull |}.

(** A cache with a stored [None] under the key of the pool listing. *)
Definition null_cached : gmap string CacheEntry :=
  {[ make_key (RT := stub_runtime) "https://yields.llama.fi/pools" None
     := {| data := JNull; expires_at := F64.of_Z 2000000000 |} ]}.

(** What the security scan returns for the token of [scan_upstream]. *)
Definition scanned_abc : TokenSecurity :=
  {| address := "0xabc"; chain := "ETH"; name := JNull; symbol := JNull;
     is_honeypot := true; buy_tax := F64.zero; sell_tax := F64.zero;
     is_mintable := false; can_take_back_ownership := false;
     owner_change_balance := false; hidden_owner := false;
     is_blacklisted := false; transfer_pausable := false; is_proxy := false;
     is_open_source := false; total_supply := JNull; holder_count := Some 0;
     lp_holder_count := Some 0; dex_info := JArr []; is_in_cex := false;
     cex_list := JArr []; risk_score := 100; risk_level := CRITICAL;
     risk_factors := ["🚨 蜜罐合约 - 无法卖出!"; "⚠️ 代码未开源"] |}.

(** The documents the tools return over these upstreams. *)
Definition yields_doc : json :=
  JObj [("count", JInt 1);
        ("pools", JArr [JObj [
           ("pool_id", JStr ""); ("chain", JStr "Base"); ("project", JStr "");
           ("symbol", JStr ""); ("tvl_usd", JStr "$2,000,000");
           ("apy", JStr "8.00%"); ("apy_base", JNull); ("apy_reward", JNull);
           ("stablecoin", JBool true); ("il_risk", JStr "unknown")]])].

Definition trending_doc : json :=
  JObj [("trending", JArr [JObj [
     ("name", JStr "Bitcoin"); ("symbol", JStr "BTC");
     ("market_cap_rank", JInt 1); ("price_btc", JInt 1)]])].

Definition chains_doc : json :=
  JObj [("goplus", JArr [JStr "Ethereum"]);
        ("coingecko", JArr (map JStr ["ethereum"; "bsc"; "polygon"; "arbitrum";
                                      "base"; "optimism"; "avalanche"; "solana"]));
        ("defillama", JArr (map JStr ["Ethereum"; "BSC"; "Polygon"; "Arbitrum";
                                      "Base"; "Optimism"; "Avalanche"; "Solana"]));
        ("lifi", JArr (map JStr ["ethereum"; "arbitrum"; "base"; "polygon";
                                 "optimism"; "bsc"; "avalanche"]))].

(** A Li.Fi that quotes every transfer through one bridge, with a gas
    cost of two dollars. *)
Definition quote_upstream (rq : Request) : Outcome :=
  Responded {| status := 200;
               content := JsonContent (JObj [
                 ("estimate", JObj [("toAmount", JStr "990");
                                    ("gasCosts", JArr [JObj [("amountUSD", JInt 2)]])]);
                 ("tool", JStr "across")]) |}.

(** The quote it gives for USDC from Ethereum to Base. *)
Definition quote_usdc : BridgeQuote :=
  {| from_chain := "ethereum"; to_chain := "base";
     from_token := "0xA0b86991c6218b36c1d19D4a2e9Eb0cE3606eB48";
     to_token := "0x833589fCD6eDb6E08f4c7C32D4f71b54bdA02913";
     from_amount := JStr "1000"; to_amount := JStr "990";
     to_amount_usd := None; gas_cost_usd := Some (F64.of_Z 2);
     execution_time_seconds := JNull; bridge_name := JStr "across";
     steps := JArr [] |}.

(* ===================================================================== *)
(** * Part II: properties                                                *)
(* ===================================================================== *)

(** ** Floats: rounding after a multiplication *)

Lemma shr_1_m (mrs : shr_record) :
  0 ≤ shr_m mrs → shr_m (shr_1 mrs) = shr_m mrs / 2 ∧ 0 ≤ shr_m (shr_1 mrs).
Proof.
  destruct mrs as [m r s]; simpl. intros Hm.
  destruct m as [|p|p]; [done| |lia].
  destruct p as [p|p|]; simpl.
  - split; [|lia]. apply Z.div_unique with (r := 1); lia.
  - split; [|lia]. apply Z.div_unique with (r := 0); lia.
  - done.
Qed.

Lemma iter_pos_shr_m (p : positive) : ∀ mrs : shr_record,
  0 ≤ shr_m mrs →
  shr_m (iter_pos shr_1 p mrs) = shr_m mrs / 2 ^ Z.pos p
  ∧ 0 ≤ shr_m (iter_pos shr_1 p mrs).
Proof.
  induction p as [p IH|p IH|]; intros mrs Hm; simpl.
  - destruct (shr_1_m mrs Hm) as [E1 P1].
    destruct (IH _ P1) as [E2 P2].
    destruct (IH _ P2) as [E3 P3].
    split; [|done]. rewrite E3, E2, E1.
    rewrite !Z.div_div by lia.
    f_equal. change 2 with (2 ^ 1) at 1. rewrite <- !Z.pow_add_r by lia. f_equal. lia.
  - destruct (IH _ Hm) as [E2 P2].
    destruct (IH _ P2) as [E3 P3].
    split; [|done]. rewrite E3, E2.
    rewrite !Z.div_div by lia.
    f_equal. rewrite <- Z.pow_add_r by lia. f_equal. lia.
  - apply shr_1_m; done.
Qed.

(** [shr] divides the mantissa by the power of two it adds to the
    exponent. *)
Lemma shr_m_div (mrs : shr_record) (e n : Z) :
  0 ≤ shr_m mrs →
  let r := shr mrs e n in
  e ≤ r.2 ∧ shr_m r.1 = shr_m mrs / 2 ^ (r.2 - e) ∧ 0 ≤ shr_m r.1.
Proof.
  intros Hm. destruct n as [|p|p]; simpl.
  - rewrite Z.sub_diag, Z.div_1_r. lia.
  - destruct (iter_pos_shr_m p mrs Hm) as [E P].
    replace (e + Z.pos p - e) with (Z.pos p) by lia. lia.
  - rewrite Z.sub_diag, Z.div_1_r. lia.
Qed.

Lemma shr_record_of_loc_m m l : shr_m (shr_record_of_loc m l) = m.
Proof. destruct l as [|[]]; done. Qed.

Lemma shr_fexp_div (m e : Z) (l : location) :
  0 ≤ m →
  let r := shr_fexp F64.prec F64.emax m e l in
  e ≤ r.2 ∧ shr_m r.1 = m / 2 ^ (r.2 - e) ∧ 0 ≤ shr_m r.1.
Proof.
  intros Hm. unfold shr_fexp.
  pose proof (shr_m_div (shr_record_of_loc m l) e
    (fexp F64.prec F64.emax (Zdigits2 m + e) - e)) as Hs.
  rewrite shr_record_of_loc_m in Hs. apply Hs, Hm.
Qed.

Lemma round_nearest_even_ge (m : Z) (l : location) : m ≤ round_nearest_even m l.
Proof. destruct l as [|[]]; simpl; try lia. destruct (Z.even m); lia. Qed.

(** The result of rounding a positive [mx * 2^ex]: the exponent does not
    decrease and the mantissa is at least the shifted one. *)
Lemma binary_round_aux_finite (mx : positive) (ex : Z) (l : location) s m e :
  binary_round_aux F64.prec F64.emax false (Z.pos mx) ex l = S754_finite s m e →
  s = false ∧ ex ≤ e ∧ Z.pos mx / 2 ^ (e - ex) ≤ Z.pos m.
Proof.
  unfold binary_round_aux.
  pose proof (shr_fexp_div (Z.pos mx) ex l ltac:(lia)) as H1.
  destruct (shr_fexp F64.prec F64.emax (Z.pos mx) ex l) as [mrs1 e1].
  simpl in H1. destruct H1 as (Le1 & M1 & P1).
  pose proof (round_nearest_even_ge (shr_m mrs1) (loc_of_shr_record mrs1)) as Hr.
  set (m1 := round_nearest_even (shr_m mrs1) (loc_of_shr_record mrs1)) in *.
  pose proof (shr_fexp_div m1 e1 loc_Exact ltac:(lia)) as H2.
  destruct (shr_fexp F64.prec F64.emax m1 e1 loc_Exact) as [mrs2 e2].
  simpl in H2. destruct H2 as (Le2 & M2 & P2).
  destruct (shr_m mrs2) as [|p|p] eqn:Em; [done| |done].
  destruct (e2 <=? F64.emax - F64.prec); [|done].
  intros [= <- <- <-]. split; [done|]. split; [lia|].
  rewrite M2.
  replace (e2 - ex) with ((e1 - ex) + (e2 - e1)) by lia.
  rewrite Z.pow_add_r by lia. rewrite <- Z.div_div by lia.
  rewrite <- M1. apply Z.div_le_mono; lia.
Qed.

Lemma binary_round_aux_sign (mx : positive) (ex : Z) (l : location) :
  match binary_round_aux F64.prec F64.emax false (Z.pos mx) ex l with
  | S754_zero s | S754_infinity s | S754_finite s _ _ => s = false
  | S754_nan => True
  end.
Proof.
  unfold binary_round_aux.
  destruct (shr_fexp F64.prec F64.emax (Z.pos mx) ex l) as [mrs1 e1].
  destruct (shr_fexp _ _ _ e1 loc_Exact) as [mrs2 e2].
  destruct (shr_m mrs2); [done| |done].
  destruct (e2 <=? F64.emax - F64.prec); done.
Qed.

Lemma digits2_pos_lower (p : positive) : 2 ^ (Z.pos (digits2_pos p) - 1) ≤ Z.pos p.
Proof.
  induction p as [p IH|p IH|]; simpl; [| |done].
  - rewrite Pos2Z.inj_succ. replace (Z.succ (Z.pos (digits2_pos p)) - 1) with (1 + (Z.pos (digits2_pos p) - 1)) by lia.
    rewrite Z.pow_add_r by lia. lia.
  - rewrite Pos2Z.inj_succ. replace (Z.succ (Z.pos (digits2_pos p)) - 1) with (1 + (Z.pos (digits2_pos p) - 1)) by lia.
    rewrite Z.pow_add_r by lia. lia.
Qed.

(** A float above [0.1] is [+inf] or a positive finite number; a valid
    one has a 53-bit mantissa and an exponent of at least -56. *)
Lemma above_0_1 (x : spec_float) :
  F64.ltb F64.lit_0_1 x = true →
  x = S754_infinity false ∨
  ∃ m e, x = S754_finite false m e ∧
    (F64.valid x → -56 ≤ e ∧ 2 ^ 52 ≤ Z.pos m).
Proof.
  unfold F64.ltb, SFltb, F64.lit_0_1, SFcompare.
  destruct x as [s|s| |s m e]; cbv beta iota; try done.
  - destruct s; [done|]. by left.
  - destruct s; [done|]. intros Hc. right. exists m, e. split; [done|].
    unfold F64.valid, valid_binary, bounded, canonical_mantissa, fexp, emin,
      F64.prec, F64.emax.
    intros Hv. apply andb_prop in Hv as [Hcanon _].
    apply Z.eqb_eq in Hcanon.
    assert (-56 ≤ e) as He.
    { destruct (Z.compare_spec (-56) e); [lia|lia|done]. }
    split; [done|].
    pose proof (digits2_pos_lower m) as Hd.
    assert (Z.pos (digits2_pos m) = 53) as Hd53 by lia.
    rewrite Hd53 in Hd. exact Hd.
Qed.

Lemma shr_fexp_pos (p : positive) (e : Z) (l : location) :
  -1074 ≤ e → 0 < shr_m (shr_fexp F64.prec F64.emax (Z.pos p) e l).1.
Proof.
  intros He. unfold shr_fexp. simpl Zdigits2.
  pose proof (digits2_pos_lower p) as Hd.
  assert (fexp F64.prec F64.emax (Z.pos (digits2_pos p) + e) - e
          = (Z.pos (digits2_pos p) - 53) `max` (-1074 - e)) as ->.
  { unfold fexp, emin, F64.prec, F64.emax. lia. }
  set (d := Z.pos (digits2_pos p)) in *.
  destruct ((d - 53) `max` (-1074 - e)) as [|n|n] eqn:En; simpl.
  - rewrite shr_record_of_loc_m. lia.
  - destruct (iter_pos_shr_m n (shr_record_of_loc (Z.pos p) l)) as [-> _].
    { rewrite shr_record_of_loc_m. lia. }
    rewrite shr_record_of_loc_m.
    apply Z.div_str_pos. split; [apply Z.pow_pos_nonneg; lia|].
    etrans; [|exact Hd]. apply Z.pow_le_mono_r; lia.
  - rewrite shr_record_of_loc_m. lia.
Qed.

(** Rounding a positive [mx * 2^ex] with [ex] above the least exponent
    never gives a zero. *)
Lemma binary_round_aux_nonzero (mx : positive) (ex : Z) (l : location) s :
  -1074 ≤ ex →
  binary_round_aux F64.prec F64.emax false (Z.pos mx) ex l ≠ S754_zero s.
Proof.
  intros He. unfold binary_round_aux.
  pose proof (shr_fexp_pos mx ex l He) as P1.
  pose proof (shr_fexp_div (Z.pos mx) ex l ltac:(lia)) as (Le1 & _ & _).
  destruct (shr_fexp F64.prec F64.emax (Z.pos mx) ex l) as [mrs1 e1].
  simpl in P1, Le1.
  pose proof (round_nearest_even_ge (shr_m mrs1) (loc_of_shr_record mrs1)) as Hr.
  destruct (round_nearest_even (shr_m mrs1) (loc_of_shr_record mrs1)) as [|m1|m1] eqn:Em1;
    [lia| |lia].
  pose proof (shr_fexp_pos m1 e1 loc_Exact ltac:(lia)) as P2.
  destruct (shr_fexp F64.prec F64.emax (Z.pos m1) e1 loc_Exact) as [mrs2 e2].
  simpl in P2.
  destruct (shr_m mrs2) as [|p|p]; [lia| |done].
  destruct (e2 <=? F64.emax - F64.prec); done.
Qed.

(** The integer part of [x * 100] is at least 1 for a float [x > 0.1]. *)
Lemma tax_points_positive (x : spec_float) (n : Z) :
  F64.valid x →
  F64.ltb F64.lit_0_1 x = true →
  F64.to_int (F64.mul x F64.lit_100) = Some n →
  1 ≤ n.
Proof.
  intros Hv Hlt Hn.
  destruct (above_0_1 x Hlt) as [->|(m & e & -> & Hb)]; [done|].
  destruct (Hb Hv) as [He Hm]. clear Hb.
  unfold F64.mul, F64.lit_100, SFmul in Hn. cbv beta iota in Hn.
  change (xorb false false) with false in Hn.
  pose proof (binary_round_aux_finite (m * 7036874417766400) (e + -46) loc_Exact) as Hf.
  pose proof (binary_round_aux_nonzero (m * 7036874417766400) (e + -46) loc_Exact) as Hz.
  destruct (binary_round_aux _ _ _ _ _ _) as [s|s| |s m2 e2]; simpl in Hn; try done.
  - exfalso. apply (Hz s); [lia|done].
  - destruct (Hf s m2 e2 eq_refl) as (-> & Le & Hdiv).
    injection Hn as <-. simpl. unfold F64.trunc_mag.
    destruct (Z.leb_spec 0 e2).
    + assert (0 < 2 ^ e2) by (apply Z.pow_pos_nonneg; lia). nia.
    + assert (0 < Z.pos m2 / 2 ^ (- e2)); [|lia].
      eapply Z.lt_le_trans; [|apply Z.div_le_mono; [apply Z.pow_pos_nonneg; lia|exact Hdiv]].
      rewrite Z.div_div by (try apply Z.pow_pos_nonneg; lia).
      rewrite <- Z.pow_add_r by lia.
      replace (e2 - (e + -46) + - e2) with (46 - e) by lia.
      apply Z.div_str_pos. split; [apply Z.pow_pos_nonneg; lia|].
      rewrite Pos2Z.inj_mul.
      trans (2 ^ 102).
      * apply Z.pow_le_mono_r; lia.
      * change (2 ^ 102) with (2 ^ 52 * 2 ^ 50). 
        apply Z.mul_le_mono_nonneg; try lia. 
Qed.

(** The integer part of [x * 100] is never negative for [x > 0.1]. *)
Lemma tax_points_nonneg (x : spec_float) (n : Z) :
  F64.ltb F64.lit_0_1 x = true →
  F64.to_int (F64.mul x F64.lit_100) = Some n →
  0 ≤ n.
Proof.
  intros Hlt Hn.
  destruct (above_0_1 x Hlt) as [->|(m & e & -> & _)]; [done|].
  unfold F64.mul, F64.lit_100, SFmul in Hn. cbv beta iota in Hn.
  change (xorb false false) with false in Hn.
  pose proof (binary_round_aux_sign (m * 7036874417766400) (e + -46) loc_Exact) as Hs.
  destruct (binary_round_aux _ _ _ _ _ _) as [s|s| |s m2 e2]; simpl in Hn; try done.
  - injection Hn as <-. done.
  - subst s. injection Hn as <-. simpl. unfold F64.trunc_mag.
    destruct (Z.leb_spec 0 e2).
    + assert (0 < 2 ^ e2) by (apply Z.pow_pos_nonneg; lia). nia.
    + apply Z.div_pos; [lia|]. apply Z.pow_pos_nonneg; lia.
Qed.

Lemma SFcompare_antisym (x y : spec_float) :
  SFcompare y x = CompOpp <$> SFcompare x y.
Proof.
  destruct x as [[]|[]| |[] m e], y as [[]|[]| |[] m' e']; try done;
    unfold SFcompare; simpl fmap; f_equal;
    rewrite (Z.compare_antisym e e'); destruct (e ?= e'); simpl; try done.
  - by rewrite (Pos.compare_cont_antisym m' m Eq), CompOpp_involutive.
  - by rewrite (Pos.compare_cont_antisym m m' Eq).
Qed.

(** [x <= y] excludes [y < x]. *)
Lemma leb_not_ltb (x y : spec_float) : F64.leb x y = true → F64.ltb y x = false.
Proof.
  unfold F64.leb, F64.ltb, SFleb, SFltb. rewrite (SFcompare_antisym x y).
  destruct (SFcompare x y) as [[]|]; done.
Qed.

(** ** Risk scorer *)

Lemma flag_rule_part (flag : bool) (points : Z) (text : string) (a : acc) :
  flag_rule flag points text a = acc_add a (flag_part flag points text).
Proof.
  destruct a as [sc fs]. unfold flag_rule, flag_part, acc_add.
  destruct flag; simpl; [done|]. by rewrite Z.add_0_r, app_nil_r.
Qed.

Lemma tax_rule_part (tax : spec_float) (label : string) (a : acc) :
  tax_rule tax label a = (p ← tax_part tax label; mret (acc_add a p)).
Proof.
  destruct a as [sc fs]. unfold tax_part, tax_rule, acc_add.
  destruct (F64.ltb F64.lit_0_1 tax); simpl.
  - destruct (py_int _) as [e|n]; simpl; done.
  - by rewrite Z.add_0_r, app_nil_r.
Qed.

Lemma acc_add_assoc (a b c : acc) : acc_add (acc_add a b) c = acc_add a (acc_add b c).
Proof. unfold acc_add; simpl. by rewrite Z.add_assoc, app_assoc. Qed.

Lemma acc_add_zero_l (a : acc) : acc_add (0, []) a = a.
Proof. by destruct a. Qed.

(** The score and the factors are the sums of the contributions of the
    rules, in the order of the source. *)
Lemma risk_acc_closed (self : TokenSecurity) :
  risk_acc self =
    (b ← tax_part (buy_tax self) "⚠️ 买入税: ";
     s ← tax_part (sell_tax self) "⚠️ 卖出税: ";
     mret (acc_add (flag_part (is_honeypot self) 100 "🚨 蜜罐合约 - 无法卖出!")
             (acc_add b (acc_add s (rest_part self))))).
Proof.
  unfold risk_acc. rewrite flag_rule_part, acc_add_zero_l.
  rewrite tax_rule_part. destruct (tax_part (buy_tax self) _) as [e|b]; simpl; [done|].
  rewrite tax_rule_part. destruct (tax_part (sell_tax self) _) as [e|s]; simpl; [done|].
  rewrite !flag_rule_part. unfold rest_part. by rewrite !acc_add_assoc.
Qed.

(** The three ways a tax rule can go. *)
Lemma tax_part_cases (tax : spec_float) (label : string) :
  (F64.ltb F64.lit_0_1 tax = false ∧ tax_part tax label = inr (0, []))
  ∨ (F64.ltb F64.lit_0_1 tax = true ∧
     ∃ n, F64.to_int (F64.mul tax F64.lit_100) = Some n ∧
          tax_part tax label =
            inr (Z.min 30 n,
                 [label +:+ F64.format_1f (F64.mul tax F64.lit_100) +:+ "%"]))
  ∨ (F64.ltb F64.lit_0_1 tax = true ∧
     F64.to_int (F64.mul tax F64.lit_100) = None ∧
     ∃ e, tax_part tax label = inl e).
Proof.
  unfold tax_part, tax_rule, py_int.
  destruct (F64.ltb F64.lit_0_1 tax); [|by left].
  right. destruct (F64.to_int _) as [n|].
  - left. split; [done|]. by exists n.
  - right. do 2 (split; [done|]).
    destruct (F64.mul tax F64.lit_100); simpl; eauto.
Qed.

Lemma tax_scorable_part (tax : spec_float) (label : string) :
  tax_scorable tax = true → ∃ p, tax_part tax label = inr p.
Proof.
  unfold tax_scorable.
  destruct (tax_part_cases tax label) as [[-> ->]|[(-> & n & -> & ->)|(-> & -> & _)]];
    [eauto|eauto|done].
Qed.

(** The number of rules of the table whose condition holds. *)
Lemma flag_part_good (flag : bool) (points : Z) (text : string) :
  0 < points →
  acc_good (if flag then 1 else 0) (flag_part flag points text).
Proof. unfold acc_good, flag_part. destruct flag; simpl; lia. Qed.

Lemma acc_add_good (j k : nat) (a b : acc) :
  acc_good j a → acc_good k b → acc_good (j + k) (acc_add a b).
Proof.
  unfold acc_good, acc_add; simpl. rewrite length_app. lia.
Qed.

Lemma tax_part_good (tax : spec_float) (label : string) (p : acc) :
  F64.valid tax →
  tax_part tax label = inr p →
  acc_good (if F64.ltb F64.lit_0_1 tax then 1 else 0) p.
Proof.
  intros Hv.
  destruct (tax_part_cases tax label) as [[Hlt ->]|[(Hlt & n & Hn & ->)|(_ & _ & e & ->)]];
    [| |done]; intros [= <-]; rewrite Hlt; unfold acc_good; simpl.
  - lia.
  - pose proof (tax_points_positive tax n Hv Hlt Hn). lia.
Qed.

Lemma tax_part_nonneg (tax : spec_float) (label : string) (p : acc) :
  tax_part tax label = inr p → 0 ≤ p.1 ≤ 30.
Proof.
  destruct (tax_part_cases tax label) as [[Hlt ->]|[(Hlt & n & Hn & ->)|(_ & _ & e & ->)]];
    [| |done]; intros [= <-]; simpl.
  - lia.
  - pose proof (tax_points_nonneg tax n Hlt Hn). lia.
Qed.

Lemma rest_part_good (self : TokenSecurity) :
  acc_good (rest_triggered self) (rest_part self).
Proof.
  unfold rest_part, rest_triggered. cbn [count_true]. rewrite Nat.add_0_r.
  repeat (apply acc_add_good; [apply flag_part_good; lia|]).
  apply flag_part_good. lia.
Qed.

Lemma level_of_spec (score : Z) :
  0 ≤ score →
  let s := Z.min 100 score in
  (80 ≤ s → level_of score = CRITICAL) ∧
  (50 ≤ s < 80 → level_of score = HIGH) ∧
  (25 ≤ s < 50 → level_of score = MEDIUM) ∧
  (0 < s < 25 → level_of score = LOW) ∧
  (s = 0 → level_of score = SAFE).
Proof.
  intros Hs. unfold level_of.
  destruct (Z.leb_spec 80 score), (Z.leb_spec 50 score), (Z.leb_spec 25 score),
    (Z.ltb_spec 0 score); repeat split; intros; try done; lia.
Qed.

Lemma risk_fields_set_risk self sc lv fs :
  risk_score (set_risk self sc lv fs) = sc ∧
  risk_level (set_risk self sc lv fs) = lv ∧
  risk_factors (set_risk self sc lv fs) = fs.
Proof. done. Qed.

(** Claim C4.  For every record on which [calculate_risk] returns (that
    is, unless [int(tax * 100)] raises on an infinite product, see
    [calculate_risk_raises]), the stored score lies in [0,100] and the
    level follows the fixed thresholds: at least 80 critical, at least 50
    high, at least 25 medium, above 0 low, and 0 safe. *)
Theorem C4_score_clamped_level_thresholds (self : TokenSecurity) :
  scorable self = true →
  ∃ r, calculate_risk self = inr r ∧
    0 ≤ risk_score r ≤ 100 ∧
    (80 ≤ risk_score r → risk_level r = CRITICAL) ∧
    (50 ≤ risk_score r < 80 → risk_level r = HIGH) ∧
    (25 ≤ risk_score r < 50 → risk_level r = MEDIUM) ∧
    (0 < risk_score r < 25 → risk_level r = LOW) ∧
    (risk_score r = 0 → risk_level r = SAFE).
Proof.
  unfold scorable. intros [Hb Hs]%andb_prop.
  destruct (tax_scorable_part _ "⚠️ 买入税: " Hb) as [b Eb].
  destruct (tax_scorable_part _ "⚠️ 卖出税: " Hs) as [s Es].
  unfold calculate_risk. rewrite risk_acc_closed, Eb, Es.
  pose proof (tax_part_nonneg _ _ _ Eb) as Nb.
  pose proof (tax_part_nonneg _ _ _ Es) as Ns.
  pose proof (rest_part_good self) as (_ & Nr & _).
  pose proof (flag_part_good (is_honeypot self) 100 "🚨 蜜罐合约 - 无法卖出!" ltac:(lia))
    as (_ & Nh & _).
  set (hp := flag_part (is_honeypot self) 100 _) in *. clearbody hp.
  set (rp := rest_part self) in *. clearbody rp.
  simpl. eexists. split; [reflexivity|]. simpl.
  set (score := hp.1 + _) in *.
  assert (0 ≤ score) as Hsc by (unfold score; lia).
  split; [lia|]. by apply level_of_spec.
Qed.

(** The spec's literal cases of the scoring table. *)
Example honeypot_only :
  let self := {| address := "0xabc"; chain := "ethereum"; name := JNull;
     symbol := JNull; is_honeypot := true; buy_tax := F64.zero;
     sell_tax := F64.zero; is_mintable := false;
     can_take_back_ownership := false; owner_change_balance := false;
     hidden_owner := false; is_blacklisted := false;
     transfer_pausable := false; is_proxy := false; is_open_source := true;
     total_supply := JNull; holder_count := None; lp_holder_count := None;
     dex_info := JArr []; is_in_cex := false; cex_list := JArr [];
     risk_score := 0; risk_level := SAFE; risk_factors := [] |} in
  calculate_risk self
  = inr (set_risk self 100 CRITICAL ["🚨 蜜罐合约 - 无法卖出!"]).
Proof. reflexivity. Qed.

Example buy_tax_15_percent :
  calculate_risk token_015 = inr (set_risk token_015 15 LOW ["⚠️ 买入税: 15.0%"]).
Proof. reflexivity. Qed.

Example sell_tax_20_percent_mintable :
  let self := {| address := "0xabc"; chain := "ethereum"; name := JNull;
     symbol := JNull; is_honeypot := false; buy_tax := F64.zero;
     sell_tax := lit_0_2; is_mintable := true;
     can_take_back_ownership := false; owner_change_balance := false;
     hidden_owner := false; is_blacklisted := false;
     transfer_pausable := false; is_proxy := false; is_open_source := true;
     total_supply := JNull; holder_count := None; lp_holder_count := None;
     dex_info := JArr []; is_in_cex := false; cex_list := JArr [];
     risk_score := 0; risk_level := SAFE; risk_factors := [] |} in
  calculate_risk self
  = inr (set_risk self 40 MEDIUM ["⚠️ 卖出税: 20.0%"; "⚠️ 可增发"]).
Proof. reflexivity. Qed.

(** [calculate_risk] raises exactly on the records that are not
    [scorable]: a tax above 10% whose hundredfold is infinite. *)
Lemma calculate_risk_raises (self : TokenSecurity) :
  scorable self = false → ∃ e, calculate_risk self = inl e.
Proof.
  unfold scorable, tax_scorable, calculate_risk. rewrite risk_acc_closed.
  destruct (tax_part_cases (buy_tax self) "⚠️ 买入税: ")
    as [[-> ->]|[(-> & n & -> & ->)|(-> & -> & e & ->)]]; simpl; eauto.
  all: destruct (tax_part_cases (sell_tax self) "⚠️ 卖出税: ")
    as [[-> ->]|[(-> & n' & -> & ->)|(-> & -> & e & ->)]]; simpl; eauto; done.
Qed.

Lemma C4_witness :
  scorable token_015 = true ∧
  ∃ r, calculate_risk token_015 = inr r ∧
    0 ≤ risk_score r ≤ 100 ∧
    (80 ≤ risk_score r → risk_level r = CRITICAL) ∧
    (50 ≤ risk_score r < 80 → risk_level r = HIGH) ∧
    (25 ≤ risk_score r < 50 → risk_level r = MEDIUM) ∧
    (0 < risk_score r < 25 → risk_level r = LOW) ∧
    (risk_score r = 0 → risk_level r = SAFE).
Proof.
  split; [reflexivity|].
  apply (C4_score_clamped_level_thresholds token_015). reflexivity.
Defined.

(** Claim C10.  For every record whose taxes are binary64 values and on
    which [calculate_risk] returns, the stored score lies in [0,100], and
    a score of 0, an empty list of factors and the level safe are
    equivalent: each rule whose condition holds appends exactly one
    factor and adds at least one point. *)
Theorem C10_risk_fields_invariant (self : TokenSecurity) :
  F64.valid (buy_tax self) → F64.valid (sell_tax self) →
  scorable self = true →
  ∃ r, calculate_risk self = inr r ∧
    0 ≤ risk_score r ≤ 100 ∧
    (risk_score r = 0 ↔ risk_factors r = []) ∧
    (risk_factors r = [] ↔ risk_level r = SAFE) ∧
    length (risk_factors r) = triggered self ∧
    Z.min 100 (Z.of_nat (triggered self)) ≤ risk_score r.
Proof.
  intros Vb Vs. unfold scorable. intros [Hb Hs]%andb_prop.
  destruct (tax_scorable_part _ "⚠️ 买入税: " Hb) as [b Eb].
  destruct (tax_scorable_part _ "⚠️ 卖出税: " Hs) as [s Es].
  unfold calculate_risk. rewrite risk_acc_closed, Eb, Es.
  unfold mbind, result_bind, mret, result_ret. cbv beta iota.
  pose proof (acc_add_good _ _ _ _
    (flag_part_good (is_honeypot self) 100 "🚨 蜜罐合约 - 无法卖出!" ltac:(lia))
    (acc_add_good _ _ _ _ (tax_part_good _ _ _ Vb Eb)
      (acc_add_good _ _ _ _ (tax_part_good _ _ _ Vs Es) (rest_part_good self))))
    as (Hlen & Hge & Hz).
  set (k := ((if is_honeypot self then 1 else 0) + _)%nat) in *.
  assert (k = triggered self) as Hk.
  { done. }
  set (a := acc_add (flag_part (is_honeypot self) 100 _) _) in *. clearbody a.
  destruct a as [score factors]. simpl in Hlen, Hge, Hz.
  simpl. eexists. split; [reflexivity|]. simpl.
  assert (0 ≤ score) as Hsc by lia.
  destruct (level_of_spec score Hsc) as (L1 & L2 & L3 & L4 & L5).
  assert (factors = [] ↔ k = 0%nat) as Hf.
  { rewrite <- Hlen. destruct factors; simpl; split; intros; (done || lia). }
  split; [lia|]. split; [|split; [|split]].
  - rewrite Hf. lia.
  - rewrite Hf. split.
    + intros Hk0. apply L5. rewrite Hz by done. done.
    + intros Hl. destruct (Z.eq_dec (Z.min 100 score) 0) as [|Hne]; [lia|].
      exfalso.
      assert (80 ≤ Z.min 100 score ∨ 50 ≤ Z.min 100 score < 80
              ∨ 25 ≤ Z.min 100 score < 50 ∨ 0 < Z.min 100 score < 25) as Hc by lia.
      destruct Hc as [Hc|[Hc|[Hc|Hc]]];
        [rewrite L1 in Hl|rewrite L2 in Hl|rewrite L3 in Hl|rewrite L4 in Hl]; done.
  - by rewrite Hlen.
  - rewrite <- Hk. lia.
Qed.

Lemma C10_witness :
  F64.valid (buy_tax token_0157) ∧ F64.valid (sell_tax token_0157) ∧
  scorable token_0157 = true ∧
  ∃ r, calculate_risk token_0157 = inr r ∧
    0 ≤ risk_score r ≤ 100 ∧
    (risk_score r = 0 ↔ risk_factors r = []) ∧
    (risk_factors r = [] ↔ risk_level r = SAFE) ∧
    length (risk_factors r) = triggered token_0157 ∧
    Z.min 100 (Z.of_nat (triggered token_0157)) ≤ risk_score r.
Proof.
  split; [reflexivity|]. split; [reflexivity|]. split; [reflexivity|].
  apply (C10_risk_fields_invariant token_0157); reflexivity.
Defined.

(** Claim C1, counterexample: with a buy tax of 0.157 the product
    [0.157 * 100] is 15.700000000000001, which rounds to 16, but the
    scorer adds [int(15.700000000000001)], that is 15. *)
Lemma C1_counterexample :
  F64.ltb F64.lit_0_1 (buy_tax token_0157) = true ∧
  F64.round (F64.mul (buy_tax token_0157) F64.lit_100) = Some 16 ∧
  risk_acc (without_buy_tax token_0157) = inr (0, []) ∧
  risk_acc token_0157 = inr (15, ["⚠️ 买入税: 15.7%"]) ∧
  15 ≠ 0 + Z.min 30 16.
Proof. repeat split; try reflexivity. lia. Qed.

Lemma tax_part_zero (label : string) : tax_part F64.zero label = inr (0, []).
Proof. reflexivity. Qed.

(** Claim C1, amended.  For every record, a buy tax above 10% adds
    [min(30, int(tax * 100))] to the score, [int] truncating toward zero,
    and emits one tax flag; a buy tax at or below 10% adds nothing and
    emits nothing; and the same holds for the sell tax.  The comparison
    is made with the record that has the tax set to zero. *)
Theorem C1_tax_rules_truncate (self : TokenSecurity) (a : acc) :
  risk_acc self = inr a →
  (∃ a0, risk_acc (without_buy_tax self) = inr a0 ∧
         tax_rule_adds (buy_tax self) "⚠️ 买入税: " a a0) ∧
  (∃ a0, risk_acc (without_sell_tax self) = inr a0 ∧
         tax_rule_adds (sell_tax self) "⚠️ 卖出税: " a a0).
Proof.
  rewrite !risk_acc_closed. unfold without_buy_tax, without_sell_tax.
  cbn [with_taxes buy_tax sell_tax is_honeypot].
  change (rest_part (with_taxes self F64.zero (sell_tax self))) with (rest_part self).
  change (rest_part (with_taxes self (buy_tax self) F64.zero)) with (rest_part self).
  rewrite !tax_part_zero.
  set (hp := flag_part (is_honeypot self) 100 _).
  set (rp := rest_part self).
  destruct (tax_part_cases (buy_tax self) "⚠️ 买入税: ")
    as [[Hb ->]|[(Hb & nb & Hnb & ->)|(_ & _ & e & ->)]]; [| |done];
  destruct (tax_part_cases (sell_tax self) "⚠️ 卖出税: ")
    as [[Hs ->]|[(Hs & ns & Hns & ->)|(_ & _ & e & ->)]]; try done;
  simpl; intros [= <-]; (split; eexists; (split; [reflexivity|]));
  unfold tax_rule_adds; rewrite ?Hb, ?Hs; (split; [intros Ht|intros Hle]);
  try done; try (apply leb_not_ltb in Hle; congruence).
  - exists ns, hp.2, rp.2. simpl. split; [done|]. split; [lia|]. done.
  - exists nb, hp.2, rp.2. simpl. split; [done|]. split; [lia|]. done.
  - exists nb, hp.2, (["⚠️ 卖出税: " +:+ F64.format_1f (F64.mul (sell_tax self) F64.lit_100) +:+ "%"] ++ rp.2).
    simpl. split; [done|]. split; [lia|]. done.
  - exists ns, (hp.2 ++ ["⚠️ 买入税: " +:+ F64.format_1f (F64.mul (buy_tax self) F64.lit_100) +:+ "%"]), rp.2.
    simpl. split; [done|]. split; [lia|]. rewrite <- !app_assoc. done.
Qed.

Lemma C1_witness :
  risk_acc token_0157 = inr (15, ["⚠️ 买入税: 15.7%"]) ∧
  (∃ a0, risk_acc (without_buy_tax token_0157) = inr a0 ∧
         tax_rule_adds (buy_tax token_0157) "⚠️ 买入税: " (15, ["⚠️ 买入税: 15.7%"]) a0) ∧
  (∃ a0, risk_acc (without_sell_tax token_0157) = inr a0 ∧
         tax_rule_adds (sell_tax token_0157) "⚠️ 卖出税: " (15, ["⚠️ 买入税: 15.7%"]) a0).
Proof.
  split; [reflexivity|].
  apply (C1_tax_rules_truncate token_0157). reflexivity.
Defined.

(** ** Cache *)

Lemma SimpleCache_set_spec (k : string) (v : json) (ttl : Z) (w : World) :
  SimpleCache_set k v ttl w
  = (inr tt,
     with_cache (tick w)
       (<[k := {| data := v;
                  expires_at := F64.add (clock w (ticks w)) (F64.of_Z ttl) |}]>
          (cache w))).
Proof. reflexivity. Qed.

Lemma SimpleCache_get_hit (k : string) (entry : CacheEntry) (w : World) :
  cache w !! k = Some entry →
  F64.ltb (clock w (ticks w)) (expires_at entry) = true →
  SimpleCache_get k w = (inr (data entry), tick w).
Proof.
  intros Hk Hlt. unfold SimpleCache_get, mbind, ME_bind, read_cache. simpl.
  rewrite Hk. simpl. by rewrite Hlt.
Qed.

Lemma SimpleCache_get_expired (k : string) (entry : CacheEntry) (w : World) :
  cache w !! k = Some entry →
  F64.ltb (clock w (ticks w)) (expires_at entry) = false →
  SimpleCache_get k w = (inr JNull, with_cache (tick w) (delete k (cache w))).
Proof.
  intros Hk Hlt. unfold SimpleCache_get, mbind, ME_bind, read_cache. simpl.
  rewrite Hk. simpl. by rewrite Hlt.
Qed.

Lemma SimpleCache_get_absent (k : string) (w : World) :
  cache w !! k = None →
  SimpleCache_get k w = (inr JNull, w).
Proof.
  intros Hk. unfold SimpleCache_get, mbind, ME_bind, read_cache. simpl.
  by rewrite Hk.
Qed.



(** ** Cache keys *)

Lemma ascii_compare_refl (c : ascii) : Ascii.compare c c = Eq.
Proof. apply N.compare_refl. Qed.

Lemma string_compare_trans (c : comparison) (s1 : string) : ∀ s2 s3,
  String.compare s1 s2 = c → String.compare s2 s3 = c → String.compare s1 s3 = c.
Proof.
  induction s1 as [|c1 s1 IH]; intros [|c2 s2] [|c3 s3]; simpl; try congruence.
  unfold Ascii.compare.
  set (n1 := N_of_ascii c1). set (n2 := N_of_ascii c2). set (n3 := N_of_ascii c3).
  clearbody n1 n2 n3.
  destruct (N.compare_spec n1 n2), (N.compare_spec n2 n3), (N.compare_spec n1 n3);
    try (exfalso; lia); try congruence.
  apply IH.
Qed.

Lemma string_leb_trans (s1 s2 s3 : string) :
  String.leb s1 s2 = true → String.leb s2 s3 = true → String.leb s1 s3 = true.
Proof.
  unfold String.leb.
  destruct (String.compare s1 s2) eqn:E12; [| |done];
  destruct (String.compare s2 s3) eqn:E23; try done; intros _ _.
  - by rewrite (string_compare_trans Eq _ _ _ E12 E23).
  - apply String.compare_eq_iff in E12 as ->. by rewrite E23.
  - apply String.compare_eq_iff in E23 as ->. by rewrite E12.
  - by rewrite (string_compare_trans Lt _ _ _ E12 E23).
Qed.

Section Items.

Context {A : Type}.

Implicit Types (x y : string * A) (l : list (string * A)).

Lemma insert_item_perm x l : Permutation (insert_item x l) (x :: l).
Proof.
  induction l as [|y l IH]; simpl; [done|].
  destruct (String.leb x.1 y.1); [done|].
  rewrite IH. apply perm_swap.
Qed.

Lemma sort_items_perm l : Permutation (sort_items l) l.
Proof.
  induction l as [|x l IH]; simpl; [done|].
  by rewrite insert_item_perm, IH.
Qed.

Lemma insert_item_sorted x l : sorted_items l → sorted_items (insert_item x l).
Proof.
  induction 1 as [|y l Hy Hl IH]; simpl.
  - by repeat constructor.
  - destruct (String.leb x.1 y.1) eqn:Hxy.
    + constructor; [|by constructor].
      constructor; [done|].
      eapply Forall_impl; [exact Hy|]. simpl. intros z Hz.
      by eapply string_leb_trans.
    + constructor; [|done].
      unfold key_le_all. rewrite insert_item_perm.
      constructor; [|done].
      destruct (String.leb_total x.1 y.1) as [H|H]; [congruence|done].
Qed.

Lemma sort_items_sorted l : sorted_items (sort_items l).
Proof.
  induction l as [|x l IH]; simpl; [constructor|]. by apply insert_item_sorted.
Qed.

(** Two sorted arrangements of the same items with distinct keys are
    equal. *)
Lemma sorted_items_unique l1 : ∀ l2,
  NoDup l1.*1 → sorted_items l1 → sorted_items l2 → Permutation l1 l2 → l1 = l2.
Proof.
  induction l1 as [|x l1 IH]; intros l2 Hnd S1 S2 Hp.
  - by apply Permutation_nil in Hp.
  - destruct l2 as [|y l2]; [by apply Permutation_sym, Permutation_nil in Hp|].
    inversion S1 as [|? ? Hx S1']; subst. inversion S2 as [|? ? Hy S2']; subst.
    assert (x = y) as ->.
    { assert (x ∈ y :: l2) as Hin by (rewrite <- Hp; left).
      assert (y ∈ x :: l1) as Hin' by (rewrite Hp; left).
      apply elem_of_cons in Hin as [->|Hin]; [done|].
      apply elem_of_cons in Hin' as [->|Hin']; [done|].
      unfold key_le_all in *. rewrite Forall_forall in Hx, Hy.
      assert (x.1 = y.1) as Hk.
      { apply String.leb_antisym; [apply Hx|apply Hy]; done. }
      exfalso. apply NoDup_cons in Hnd as [Hnot _]. apply Hnot.
      rewrite Hk. apply list_elem_of_fmap. by exists y. }
    f_equal. apply IH; [|done|done|].
    + simpl in Hnd. by apply NoDup_cons in Hnd as [_ ?].
    + by apply Permutation_cons_inv in Hp.
Qed.

(** Sorting forgets the insertion order of a dict. *)
Lemma sort_items_order_independent l1 l2 :
  NoDup l1.*1 → Permutation l1 l2 → sort_items l1 = sort_items l2.
Proof.
  intros Hnd Hp. apply sorted_items_unique.
  - by rewrite (sort_items_perm l1).
  - apply sort_items_sorted.
  - apply sort_items_sorted.
  - by rewrite !sort_items_perm.
Qed.

End Items.

Section Keys.

Context {RT : Runtime}.

(** The text of a dict does not depend on its insertion order. *)
Lemma dumps_order_independent (d1 d2 : list (string * json)) :
  NoDup d1.*1 → Permutation d1 d2 → dumps (JObj d1) = dumps (JObj d2).
Proof.
  intros Hnd Hp. simpl.
  rewrite (sort_items_order_independent
             (map (λ kv : string * json, let (k, v) := kv in (k, dumps v)) d1)
             (map (λ kv : string * json, let (k, v) := kv in (k, dumps v)) d2));
    [done| |by apply Permutation_map].
  rewrite <- list_fmap_compose.
  erewrite list_fmap_ext; [exact Hnd|]. by intros ? [].
Qed.

Lemma dumps_args_congr (url : string) (x y : json) :
  dumps x = dumps y →
  dumps (JObj [("args", JArr [JStr url; x]); ("kwargs", JObj [])])
  = dumps (JObj [("args", JArr [JStr url; y]); ("kwargs", JObj [])]).
Proof. simpl. by intros ->. Qed.

(** Claim C7.  [make_key] is a function of the URL and of the parameter
    mapping: two dicts with the same items (distinct keys, any insertion
    order) give the same key. *)
Theorem C7_make_key_order_independent (url : string) (p1 p2 : list (string * json)) :
  NoDup p1.*1 → Permutation p1 p2 →
  make_key url (Some p1) = make_key url (Some p2).
Proof.
  intros Hnd Hp. unfold make_key. f_equal.
  apply dumps_args_congr. by apply dumps_order_independent.
Qed.

End Keys.

Lemma C7_witness :
  let p1 := [("vs_currencies", JStr "usd"); ("contract_addresses", JStr "0xabc")] in
  let p2 := [("contract_addresses", JStr "0xabc"); ("vs_currencies", JStr "usd")] in
  NoDup p1.*1 ∧ Permutation p1 p2 ∧
  make_key (RT := stub_runtime) "https://api.coingecko.com/api/v3/simple/token_price/ethereum" (Some p1)
  = make_key (RT := stub_runtime) "https://api.coingecko.com/api/v3/simple/token_price/ethereum" (Some p2).
Proof.
  assert (NoDup ["vs_currencies"; "contract_addresses"]) as Hnd.
  { apply NoDup_cons. split; [|apply NoDup_singleton].
    intros Hin%list_elem_of_singleton. discriminate Hin. }
  split; [exact Hnd|]. split; [apply perm_swap|].
  apply (C7_make_key_order_independent (RT := stub_runtime)); [exact Hnd|apply perm_swap].
Defined.

(** ** HTTP client base *)

Section Request.

Context {RT : Runtime}.

Variables (self : BaseClient) (url : string)
  (params : option (list (string * json))) (use_cache : bool)
  (cache_key : string) (w : World).

Let rq : Request :=
  {| req_url := url; req_params := params; req_headers := headers self |}.

(** No response within the timeout: the generic API error. *)
Lemma request_timeout :
  upstream w rq = TimedOut →
  BaseClient_request self url params use_cache cache_key w
  = (inl (APIError "Request timeout" None None), with_sent w rq).
Proof.
  intros Hup. unfold BaseClient_request, try_except, mbind, ME_bind, client_get.
  fold rq. by rewrite Hup.
Qed.

(** Status 429: the rate limit error. *)
Lemma request_429 (r : Response) :
  upstream w rq = Responded r → status r = 429 →
  BaseClient_request self url params use_cache cache_key w
  = (inl (RateLimitError "Rate limit exceeded" (Some 429)
            (Some (JObj [("error", JStr "rate_limit")]))), with_sent w rq).
Proof.
  intros Hup Hst. unfold BaseClient_request, try_except, mbind, ME_bind, client_get.
  fold rq. rewrite Hup, Hst. done.
Qed.

(** Another status outside 200..299: the API error with the status in
    its message, provided the body is empty or is JSON; with any other
    body [e.response.json()] raises inside the [except] clause and its
    JSONDecodeError is what leaves [get]. *)
Lemma request_error_status (r : Response) :
  upstream w rq = Responded r → status r ≠ 429 →
  ¬ (200 ≤ status r ≤ 299) →
  BaseClient_request self url params use_cache cache_key w
  = (inl (match content r with
          | NoContent =>
              APIError ("HTTP error: " +:+ pretty (status r)) (Some (status r)) None
          | JsonContent j =>
              APIError ("HTTP error: " +:+ pretty (status r)) (Some (status r)) (Some j)
          | TextContent raw =>
              if str_truthy raw
              then JSONDecodeError "Expecting value: line 1 column 1 (char 0)"
              else APIError ("HTTP error: " +:+ pretty (status r)) (Some (status r)) None
          end), with_sent w rq).
Proof.
  intros Hup H429 H2xx.
  unfold BaseClient_request, try_except, mbind, ME_bind, client_get.
  fold rq. rewrite Hup.
  destruct (Z.eqb_spec (status r) 429) as [|_]; [done|].
  unfold raise_for_status.
  destruct (Z.leb_spec 200 (status r)), (Z.leb_spec (status r) 299);
    try lia; simpl; unfold has_content, response_json;
    destruct (content r) as [|j|raw]; simpl; try done;
    destruct (str_truthy raw); done.
Qed.

(** A status in 200..299 with a JSON body: the value is returned, and
    stored in the cache when caching is on. *)
Lemma request_success (r : Response) (j : json) :
  upstream w rq = Responded r → 200 ≤ status r ≤ 299 →
  content r = JsonContent j →
  BaseClient_request self url params use_cache cache_key w
  = (inr j,
     if use_cache
     then (SimpleCache_set cache_key j (cache_ttl self) (with_sent w rq)).2
     else with_sent w rq).
Proof.
  intros Hup H2xx Hj.
  unfold BaseClient_request, try_except, mbind, ME_bind, client_get.
  fold rq. rewrite Hup.
  destruct (Z.eqb_spec (status r) 429) as [|_]; [lia|].
  unfold raise_for_status.
  destruct (Z.leb_spec 200 (status r)), (Z.leb_spec (status r) 299); try lia.
  simpl. unfold within, response_json. rewrite Hj. simpl.
  destruct use_cache; done.
Qed.

(** A status in 200..299 whose body is not JSON. *)
Lemma request_success_not_json (r : Response) :
  upstream w rq = Responded r → 200 ≤ status r ≤ 299 →
  (∀ j, content r ≠ JsonContent j) →
  BaseClient_request self url params use_cache cache_key w
  = (inl (JSONDecodeError "Expecting value: line 1 column 1 (char 0)"),
     with_sent w rq).
Proof.
  intros Hup H2xx Hj.
  unfold BaseClient_request, try_except, mbind, ME_bind, client_get.
  fold rq. rewrite Hup.
  destruct (Z.eqb_spec (status r) 429) as [|_]; [lia|].
  unfold raise_for_status.
  destruct (Z.leb_spec 200 (status r)), (Z.leb_spec (status r) 299); try lia.
  simpl. unfold within, response_json.
  destruct (content r) as [|j|raw]; [done| |done]. by destruct (Hj j).
Qed.

(** What the request statement raises, by what came back: the rate limit
    error exactly for status 429. *)
Lemma request_rate_limited_iff (e : exn) :
  (BaseClient_request self url params use_cache cache_key w).1 = inl e →
  is_RateLimitError e = true ↔ ∃ r, upstream w rq = Responded r ∧ status r = 429.
Proof.
  destruct (upstream w rq) as [r|] eqn:Hup.
  - destruct (Z.eq_dec (status r) 429) as [H429|H429].
    + rewrite (request_429 r Hup H429). intros [= <-]. split; [eauto|done].
    + assert ((∃ r0, Responded r = Responded r0 ∧ status r0 = 429) ↔ False) as ->.
      { split; [|done]. by intros (? & [= <-] & ?). }
      destruct (decide (200 ≤ status r ≤ 299)) as [H2xx|H2xx].
      * destruct (content r) as [|j|raw] eqn:Hc.
        -- rewrite (request_success_not_json r Hup H2xx) by (rewrite Hc; done).
           by intros [= <-].
        -- rewrite (request_success r j Hup H2xx Hc). done.
        -- rewrite (request_success_not_json r Hup H2xx) by (rewrite Hc; done).
           by intros [= <-].
      * rewrite (request_error_status r Hup H429 H2xx). intros [= <-].
        destruct (content r) as [|j|raw]; [done|done|]. by destruct (str_truthy raw).
  - rewrite (request_timeout Hup). intros [= <-]. split; [done|].
    by intros (? & ? & ?).
Qed.


(** Without the cache [get] is the request statement. *)
Lemma BaseClient_get_uncached (path : string) :
  BaseClient_get self path params false w
  = BaseClient_request self (base_url self +:+ path) params false
      (make_key (base_url self +:+ path) params) w.
Proof. reflexivity. Qed.

(** With nothing cached under the key, [get] is the request statement. *)
Lemma BaseClient_get_miss (path : string) :
  cache w !! make_key (base_url self +:+ path) params = None →
  BaseClient_get self path params use_cache w
  = BaseClient_request self (base_url self +:+ path) params use_cache
      (make_key (base_url self +:+ path) params) w.
Proof.
  intros Hk. unfold BaseClient_get. destruct use_cache; [|done].
  unfold mbind, ME_bind. by rewrite (SimpleCache_get_absent _ _ Hk).
Qed.

(** A live cache entry is returned, and no request goes out. *)
Lemma BaseClient_get_hit (path : string) (entry : CacheEntry) :
  cache w !! make_key (base_url self +:+ path) params = Some entry →
  F64.ltb (clock w (ticks w)) (expires_at entry) = true →
  data entry ≠ JNull →
  BaseClient_get self path params true w = (inr (data entry), tick w).
Proof.
  intros Hk Hlt Hd. unfold BaseClient_get, mbind, ME_bind.
  rewrite (SimpleCache_get_hit _ _ _ Hk Hlt).
  by destruct (data entry).
Qed.

End Request.

(** ** Provider clients: chain aliases *)

Section Clients.

Context {RT : Runtime}.

(** The security scan of an alias outside the GoPlus table raises
    ValueError and leaves the world as it was: no request was sent. *)
Lemma check_token_security_unsupported (self : BaseClient)
    (chain_ address_ : string) (w : World) :
  get_goplus_chain_id chain_ = None →
  check_token_security self chain_ address_ w
  = (inl (ValueError ("Unsupported chain: " +:+ chain_ +:+
            ". Supported: ethereum, bsc, base, arbitrum, polygon, solana, etc.")), w).
Proof. intros Hc. unfold check_token_security. by rewrite Hc. Qed.

(** The price lookup of an alias outside the CoinGecko table. *)
Lemma get_token_price_unsupported (self : BaseClient)
    (chain_ address_ : string) (c24 cap vol : bool) (w : World) :
  get_coingecko_platform chain_ = None →
  get_token_price self chain_ address_ c24 cap vol w
  = (inl (ValueError ("Unsupported chain: " +:+ chain_ +:+
            ". Supported: ethereum, bsc, base, arbitrum, polygon, solana, etc.")), w).
Proof. intros Hc. unfold get_token_price. by rewrite Hc. Qed.

(** The bridge quote with a source or a destination alias outside the
    Li.Fi table. *)
Lemma get_quote_unsupported (self : BaseClient)
    (from_ to_ ft tt amount addr : string) (slippage : spec_float) (w : World) :
  get_lifi_chain_id from_ = None ∨ get_lifi_chain_id to_ = None →
  ∃ msg, get_quote self from_ to_ ft tt amount addr slippage w = (inl (ValueError msg), w)
         ∧ (msg = "Unsupported source chain: " +:+ from_
            ∨ msg = "Unsupported destination chain: " +:+ to_).
Proof.
  unfold get_quote. intros [Hc|Hc]; rewrite Hc; simpl.
  - eauto.
  - destruct (optZ_truthy (get_lifi_chain_id from_)); simpl; eauto.
Qed.

End Clients.

(** ** DeFi pool listing *)

Lemma insert_pool_perm (p : DefiPool) (l : list DefiPool) :
  Permutation (insert_pool p l) (p :: l).
Proof.
  induction l as [|y l IH]; simpl; [done|].
  destruct (Qle_bool (apy y) (apy p)); [done|].
  rewrite IH. apply perm_swap.
Qed.

Lemma sort_pools_perm (l : list DefiPool) : Permutation (sort_pools l) l.
Proof.
  induction l as [|p l IH]; simpl; [done|]. by rewrite insert_pool_perm, IH.
Qed.

Lemma insert_pool_sorted (p : DefiPool) (l : list DefiPool) :
  sorted_by_apy l → sorted_by_apy (insert_pool p l).
Proof.
  unfold sorted_by_apy. induction 1 as [|y l Hl IH Hy]; simpl.
  - by repeat constructor.
  - destruct (Qle_bool (apy y) (apy p)) eqn:Hyp.
    + apply Qle_bool_iff in Hyp. constructor; [by constructor|].
      constructor; [done|].
      eapply Forall_impl; [exact Hy|]. simpl. intros z Hz. by eapply Qle_trans.
    + constructor; [done|]. rewrite insert_pool_perm. constructor; [|done].
      destruct (Qlt_le_dec (apy p) (apy y)) as [Hlt|Hle].
      * by apply Qlt_le_weak.
      * apply Qle_bool_iff in Hle. congruence.
Qed.

(** The returned list is sorted descending by APY. *)
Lemma sort_pools_sorted (l : list DefiPool) : sorted_by_apy (sort_pools l).
Proof.
  induction l as [|p l IH]; simpl; [constructor|]. by apply insert_pool_sorted.
Qed.

(** The loop collects the matching pools in source order and stops at the
    first moment [len(result) >= limit] holds after an append. *)
Lemma pools_loop_spec (cf : option string) (q : PoolQuery) (pools : list json) :
  ∀ acc : list DefiPool,
  steps_ok cf q pools →
  acc = [] ∨ Z.of_nat (length acc) < limit q →
  pools_loop cf q pools acc
  = inr (acc ++ take (Z.to_nat (Z.max 1 (limit q - Z.of_nat (length acc))))
                     (matching cf q pools)).
Proof.
  induction pools as [|pool rest IH]; intros acc Hok Hacc; simpl.
  - by rewrite take_nil, app_nil_r.
  - apply Forall_cons in Hok as [[r Hr] Hok]. unfold matching. simpl.
    rewrite Hr. simpl. destruct r as [p|]; [|by apply IH].
    fold (matching cf q rest).
    destruct (Z.leb_spec (limit q) (Z.of_nat (length (acc ++ [p])))) as [Hstop|Hgo];
      rewrite length_app in *; simpl in *.
    + replace (Z.to_nat (Z.max 1 (limit q - Z.of_nat (length acc)))) with 1%nat.
      { done. }
      destruct Hacc as [->|Hacc]; simpl in *; lia.
    + rewrite IH; [|done|right; rewrite length_app; simpl; lia].
      rewrite length_app. simpl. rewrite <- app_assoc. simpl.
      replace (Z.to_nat (Z.max 1 (limit q - Z.of_nat (length acc))))
        with (S (Z.to_nat (Z.max 1 (limit q - Z.of_nat (length acc + 1))))) by lia.
      done.
Qed.

(** With a limit of at least one, the listing is the first [limit]
    matching pools in source order, then sorted. *)
Lemma filter_pools_spec (q : PoolQuery) (pools : list json) :
  1 ≤ limit q →
  steps_ok (chain_filter_of (q_chain q)) q pools →
  filter_pools q (JArr pools)
  = inr (sort_pools (take (Z.to_nat (limit q))
                          (matching (chain_filter_of (q_chain q)) q pools))).
Proof.
  intros Hl Hok. unfold filter_pools. simpl.
  rewrite pools_loop_spec by (done || by left). simpl.
  replace (Z.to_nat (Z.max 1 (limit q - Z.of_nat 0))) with (Z.to_nat (limit q)) by lia.
  done.
Qed.

(** *** The filter *)











Lemma opt_truthy_spec (o : option string) :
  opt_truthy o = true ↔ ∃ t, o = Some t ∧ t ≠ "".
Proof.
  destruct o as [[|c t]|]; simpl; split; try done.
  - by intros (? & [= <-] & ?).
  - intros _. by eexists.
  - by intros (? & ? & ?).
Qed.


(** A missing or null TVL or APY counts as zero. *)
Lemma field_number_missing (k : string) (d : list (string * json)) :
  assoc k d = None ∨ assoc k d = Some JNull → field_number k d = 0%Q.
Proof. unfold field_number. by intros [->| ->]. Qed.






(** The spec's filtering example: with [min_tvl = 1_000_000] and
    [stablecoin_only] the listing of the two pools is the first one. *)
Example yield_filtering_example :
  filter_pools
    {| q_chain := None; q_project := None; min_tvl := 1000000; min_apy := 0;
       max_apy := 10000; stablecoin_only := true; single_exposure := false;
       limit := 50 |}
    (JArr [pool_a; pool_b])
  = inr [record_a].
Proof. reflexivity. Qed.

(** With a limit of at least one: the listing is a rearrangement of the
    first [limit] matching pools in source order, sorted descending by
    APY. *)
Lemma filter_pools_limit_then_sort (q : PoolQuery) (pools : list json) :
  1 ≤ limit q →
  steps_ok (chain_filter_of (q_chain q)) q pools →
  ∃ res, filter_pools q (JArr pools) = inr res ∧
    Permutation res (take (Z.to_nat (limit q))
                          (matching (chain_filter_of (q_chain q)) q pools)) ∧
    sorted_by_apy res.
Proof.
  intros Hl Hok. rewrite (filter_pools_spec q pools Hl Hok).
  eexists. split; [reflexivity|]. split; [apply sort_pools_perm|apply sort_pools_sorted].
Qed.

(** Truncation comes before the sort: of three matching pools with APY
    1, 2 and 3 and a limit of two, the first two are kept and sorted, and
    the pool with the highest APY is not returned. *)
Example limit_then_sort_is_not_top_n :
  let pool_apy (n : Z) := [("tvlUsd", JInt 10); ("apy", JInt n)] in
  filter_pools (with_limit default_query 2)
    (JArr [JObj (pool_apy 1); JObj (pool_apy 2); JObj (pool_apy 3)])
  = inr [record_of (pool_apy 2); record_of (pool_apy 1)].
Proof. reflexivity. Qed.

(** *** The listing in a fresh process *)

Section Pools.

Context {RT : Runtime}.

(** In a fresh process [get_pools] sends one request and filters what
    comes back. *)
Lemma get_pools_fresh (q : PoolQuery) (up : Request → Outcome) (d : json) (st : Z) :
  up pools_request = Responded {| status := st; content := JsonContent d |} →
  200 ≤ st ≤ 299 →
  ∃ w', get_pools defillama q (fresh_world up)
        = (all_pools ← get_or "data" (JArr []) d; filter_pools q all_pools, w')
        ∧ sent w' = [pools_request].
Proof.
  intros Hup Hst. unfold get_pools, get_all_pools.
  unfold mbind at 1 2, ME_bind.
  rewrite BaseClient_get_miss by apply lookup_empty.
  change (base_url defillama +:+ "/pools") with "https://yields.llama.fi/pools".
  rewrite (request_success defillama _ None true _ (fresh_world up)
             {| status := st; content := JsonContent d |} d Hup Hst eq_refl).
  rewrite SimpleCache_set_spec. cbn [snd].
  unfold lift. destruct (get_or "data" (JArr []) d) as [e|all_pools]; simpl.
  - eexists. split; reflexivity.
  - destruct (filter_pools q all_pools); eexists; split; reflexivity.
Qed.

(** Claim C2, at the input where the code departs from it.  The three
    other operations raise before any request (see
    [check_token_security_unsupported], [get_token_price_unsupported] and
    [get_quote_unsupported]).  The pool listing does not: with the alias
    "fantom", absent from the DefiLlama table, it first sends the request
    for the pools, then takes the failed resolution for "no chain filter"
    and returns the pools of every chain. *)
Theorem C2_defillama_unknown_alias :
  let q := with_chain default_query (Some "fantom") in
  let w := fresh_world two_pools_upstream in
  get_defillama_chain "fantom" = None ∧
  (get_pools defillama q w).1 = inr [record_b; record_a] ∧
  sent (get_pools defillama q w).2 = [pools_request].
Proof.
  intros q w. split; [reflexivity|].
  destruct (get_pools_fresh q two_pools_upstream
              (JObj [("data", JArr [pool_a; pool_b])]) 200 eq_refl ltac:(lia))
    as (w' & Hrun & Hsent).
  unfold w. rewrite Hrun. cbn [fst snd]. split; [reflexivity|exact Hsent].
Qed.

(** Claim C3, at the input where the code departs from it.  The test
    [len(result) >= limit] comes after [result.append], so with a limit
    of zero one pool is collected before the loop stops.  From a limit of
    one on the claim holds: see [filter_pools_limit_then_sort] and
    [limit_then_sort_is_not_top_n]. *)
Theorem C3_limit_zero_returns_a_pool :
  let q := with_limit default_query 0 in
  (get_pools defillama q (fresh_world two_pools_upstream)).1 = inr [record_a].
Proof.
  intros q.
  destruct (get_pools_fresh q two_pools_upstream
              (JObj [("data", JArr [pool_a; pool_b])]) 200 eq_refl ltac:(lia))
    as (w' & -> & _).
  reflexivity.
Qed.

End Pools.

(** ** The error mapping of [get], at a response that is not JSON *)

Section Boundary.

Context {RT : Runtime}.

(** Claim C8, at the input where the code departs from it.  An upstream
    answers 502 with an HTML page.  The [except httpx.HTTPStatusError]
    clause evaluates [e.response.json()] because the body is not empty;
    that call raises, and what leaves [get] is its JSONDecodeError, a
    ValueError: not an API error, and without the status 502.  For the
    other responses the claim holds: see [request_timeout],
    [request_429], [request_rate_limited_iff] and
    [request_error_status]. *)
Theorem C8_non_json_error_body :
  let self := BaseClient_init "https://api.example.com/" None 60 in
  let w := fresh_world bad_gateway_upstream in
  (BaseClient_get self "/status" None true w).1
  = inl (JSONDecodeError "Expecting value: line 1 column 1 (char 0)")
  ∧ is_APIError (JSONDecodeError "Expecting value: line 1 column 1 (char 0)") = false
  ∧ sent (BaseClient_get self "/status" None true w).2
    = [{| req_url := "https://api.example.com/status"; req_params := None;
          req_headers := default_headers |}].
Proof.
  intros self w.
  rewrite BaseClient_get_miss by apply lookup_empty.
  rewrite (request_error_status self _ None true _ w
             {| status := 502;
                content := TextContent "<html><body><h1>502 Bad Gateway</h1></body></html>" |}
             eq_refl ltac:(simpl; lia) ltac:(simpl; lia)).
  done.
Qed.

(** ** Tool facade *)

Lemma tool_boundary {A : Type} (op : M A) (k : A → M json)
    (clauses : list ((exn → bool) * (exn → json))) :
  (∀ e, ∃ msg, select_handler clauses e = Some (error_doc msg)
               ∧ (msg = exn_str e ∨ msg = "API error: " +:+ exn_str e)) →
  converts_failures (try_clauses (op ≫= k) clauses) op.
Proof.
  intros Hc w. unfold try_clauses, mbind, ME_bind. split.
  - destruct (op w) as [[e|x] w1].
    + destruct (Hc e) as (msg & -> & _). eauto.
    + destruct (k x w1) as [[e|doc] w2]; simpl; [|eauto].
      destruct (Hc e) as (msg & -> & _). eauto.
  - intros e w' ->. destruct (Hc e) as (msg & -> & Hmsg). eauto.
Qed.

Lemma clauses_value_then_any (e : exn) :
  ∃ msg,
    select_handler
      [ (is_ValueError, λ e, error_doc (exn_str e));
        (is_Exception, λ e, error_doc ("API error: " +:+ exn_str e)) ] e
    = Some (error_doc msg)
    ∧ (msg = exn_str e ∨ msg = "API error: " +:+ exn_str e).
Proof. simpl. destruct (is_ValueError e); eauto. Qed.

Lemma clauses_any (e : exn) :
  ∃ msg,
    select_handler [ (is_Exception, λ e, error_doc (exn_str e)) ] e
    = Some (error_doc msg)
    ∧ (msg = exn_str e ∨ msg = "API error: " +:+ exn_str e).
Proof. simpl. eauto. Qed.

(** Claim C9.  Each of the seven tools always returns a document, and
    when its client operation raises, the document is the error document
    carrying [str(e)]; the security scan of an alias outside the GoPlus
    table returns at once, the world untouched, an error document whose
    message contains "Unsupported chain" and that has neither a [risk]
    nor a [details] field. *)
Theorem C9_tool_boundary (env : Env) :
  (∀ chain_ address_,
     converts_failures (token_security env chain_ address_)
       (check_token_security (goplus env) chain_ address_)) ∧
  (∀ chain_ address_ cap,
     converts_failures (token_price env chain_ address_ cap)
       (get_token_price (coingecko env) chain_ address_ true cap false)) ∧
  (∀ coin,
     converts_failures (crypto_price env coin)
       (get_price_by_id (coingecko env) coin true false)) ∧
  (∀ chain_ project_ tvl lo hi stable lim,
     converts_failures (defi_yields chain_ project_ tvl lo hi stable lim)
       (get_pools defillama
          {| q_chain := chain_; q_project := project_; min_tvl := tvl;
             min_apy := lo; max_apy := hi; stablecoin_only := stable;
             single_exposure := false; limit := lim |})) ∧
  (∀ from_ to_ ft tt amount addr,
     converts_failures (bridge_quote from_ to_ ft tt amount addr)
       (get_quote lifi from_ to_ ft tt amount addr F64.lit_0_03)) ∧
  converts_failures (supported_chains env) (get_supported_chains (goplus env)) ∧
  converts_failures (trending_coins env) (get_trending (coingecko env)) ∧
  (∀ chain_ address_ w,
     get_goplus_chain_id chain_ = None →
     ∃ msg doc,
       token_security env chain_ address_ w = (inr doc, w)
       ∧ doc = JObj [("error", JStr msg)]
       ∧ str_contains "Unsupported chain" msg = true
       ∧ get "risk" doc = inr JNull
       ∧ get "details" doc = inr JNull).
Proof.
  split; [intros; apply tool_boundary, clauses_value_then_any|].
  split; [intros; apply tool_boundary, clauses_value_then_any|].
  split; [intros; apply tool_boundary, clauses_any|].
  split; [intros; apply tool_boundary, clauses_any|].
  split; [intros; apply tool_boundary, clauses_value_then_any|].
  split; [apply tool_boundary, clauses_any|].
  split; [apply tool_boundary, clauses_any|].
  intros chain_ address_ w Hc.
  unfold token_security, try_clauses, mbind, ME_bind.
  rewrite (check_token_security_unsupported _ _ _ _ Hc). simpl.
  do 2 eexists. split; [reflexivity|]. split; [reflexivity|]. done.
Qed.

(** The spec's case: the security scan of the chain "doesnotexist". *)
Example token_security_doesnotexist (env : Env) (address_ : string) (w : World) :
  token_security env "doesnotexist" address_ w
  = (inr (JObj [("error",
                 JStr "Unsupported chain: doesnotexist. Supported: ethereum, bsc, base, arbitrum, polygon, solana, etc.")]),
     w).
Proof. reflexivity. Qed.

End Boundary.

(* ===================================================================== *)
(** * Part III: further properties of the cache, the clients and the tools *)
(* ===================================================================== *)

(** ** The cache, operation by operation *)

Lemma SimpleCache_get_cases (k : string) (w : World) :
  (cache w !! k = None ∧ SimpleCache_get k w = (inr JNull, w))
  ∨ (∃ entry, cache w !! k = Some entry ∧
       F64.ltb (clock w (ticks w)) (expires_at entry) = true ∧
       SimpleCache_get k w = (inr (data entry), tick w))
  ∨ (∃ entry, cache w !! k = Some entry ∧
       F64.ltb (clock w (ticks w)) (expires_at entry) = false ∧
       SimpleCache_get k w = (inr JNull, with_cache (tick w) (delete k (cache w)))).
Proof.
  destruct (cache w !! k) as [entry|] eqn:Hk.
  - right. destruct (F64.ltb (clock w (ticks w)) (expires_at entry)) eqn:Hlt.
    + left. exists entry. by rewrite (SimpleCache_get_hit k entry w Hk Hlt).
    + right. exists entry. by rewrite (SimpleCache_get_expired k entry w Hk Hlt).
  - left. by rewrite (SimpleCache_get_absent k w Hk).
Qed.

(** Property X1. [SimpleCache.get] never raises; a value other than [None]
    is the data stored under the key, and the cache is then left as it is;
    otherwise at most the entry under the key is dropped. No request is
    sent and the upstream services are not touched. *)
Theorem SimpleCache_get_footprint (k : string) (w : World) :
  ∃ v w', SimpleCache_get k w = (inr v, w') ∧
    (v ≠ JNull → ∃ entry, cache w !! k = Some entry ∧ data entry = v ∧
                          cache w' = cache w) ∧
    (cache w' = cache w ∨ (v = JNull ∧ cache w' = delete k (cache w))) ∧
    sent w' = sent w ∧ upstream w' = upstream w ∧ clock w' = clock w.
Proof.
  destruct (SimpleCache_get_cases k w)
    as [[Hk ->]|[(entry & Hk & Hlt & ->)|(entry & Hk & Hlt & ->)]];
    eexists _, _; (split; [reflexivity|]); simpl.
  - repeat split; try done. by left.
  - repeat split; try done; [|by left]. intros _. by exists entry.
  - repeat split; try done. by right.
Qed.

Lemma add_zero_compare (x y : spec_float) :
  SFcompare y (F64.add x (F64.of_Z 0)) = SFcompare y x.
Proof.
  change (F64.of_Z 0) with (S754_zero false).
  destruct x as [s| | |s m e]; try done.
  destruct s; destruct y as [[]| | |]; done.
Qed.

(** Property X2. A value stored with a lifetime of zero seconds is never
    served, as long as the clock does not run backwards: the next [get]
    misses and drops the entry. *)
Theorem zero_ttl_never_served (k : string) (v : json) (w : World) :
  let w1 := (SimpleCache_set k v 0 w).2 in
  F64.leb (clock w (ticks w)) (clock w1 (ticks w1)) = true →
  (SimpleCache_get k w1).1 = inr JNull ∧
  cache (SimpleCache_get k w1).2 !! k = None.
Proof.
  intros w1 Hle.
  assert (cache w1 !! k
          = Some {| data := v;
                    expires_at := F64.add (clock w (ticks w)) (F64.of_Z 0) |}) as Hk.
  { unfold w1. rewrite SimpleCache_set_spec. cbn [snd with_cache cache].
    apply lookup_insert_eq. }
  apply leb_not_ltb in Hle.
  assert (F64.ltb (clock w1 (ticks w1))
            (F64.add (clock w (ticks w)) (F64.of_Z 0)) = false) as Hlt.
  { unfold F64.ltb, SFltb in *. by rewrite add_zero_compare. }
  rewrite (SimpleCache_get_expired k _ w1 Hk Hlt). cbn [fst snd with_cache cache].
  split; [done|]. apply lookup_delete_eq.
Qed.

Lemma zero_ttl_never_served_witness :
  let w := fresh_world (λ _, TimedOut) in
  let w1 := (SimpleCache_set "k" (JStr "v") 0 w).2 in
  F64.leb (clock w (ticks w)) (clock w1 (ticks w1)) = true ∧
  (SimpleCache_get "k" w1).1 = inr JNull ∧
  cache (SimpleCache_get "k" w1).2 !! "k" = None.
Proof.
  split; [reflexivity|].
  apply (zero_ttl_never_served "k" (JStr "v") (fresh_world (λ _, TimedOut))).
  reflexivity.
Defined.

(** ** Computations and the requests they send *)

Lemma prefix_app (s t : string) : String.prefix s (s +:+ t) = true.
Proof.
  induction s as [|c s IH]; simpl; [by destruct t|].
  by destruct (Ascii.ascii_dec c c).
Qed.

Lemma quiet_lift {A : Type} (r : result A) : quiet (lift r).
Proof. by destruct r. Qed.

Lemma quiet_throw {A : Type} (e : exn) : quiet (throw e : M A).
Proof. done. Qed.

Lemma quiet_ret {A : Type} (x : A) : quiet (mret x : M A).
Proof. done. Qed.

Lemma quiet_bind {A B : Type} (m : M A) (k : A → M B) :
  quiet m → (∀ x, quiet (k x)) → quiet (m ≫= k).
Proof.
  intros Hm Hk w. unfold mbind, ME_bind. specialize (Hm w).
  destruct (m w) as [[e|x] w0]; simpl in *; subst w0; [done|]. apply Hk.
Qed.

Ltac quiet_step :=
  first
    [ apply quiet_lift | apply quiet_throw | apply quiet_ret
    | apply quiet_bind; [|intros ?]
    | match goal with
      | |- quiet (if ?b then _ else _) => destruct b
      end ].

Ltac solve_quiet := cbv zeta; repeat quiet_step.

Lemma one_request_quiet {A : Type} (self : BaseClient) (m : M A) :
  quiet m → at_most_one_request self m.
Proof. intros Hm w. rewrite (Hm w). repeat split. by left. Qed.

Lemma one_request_bind {A B : Type} (self : BaseClient) (m : M A) (k : A → M B) :
  at_most_one_request self m → (∀ x, quiet (k x)) →
  at_most_one_request self (m ≫= k).
Proof.
  intros Hm Hk w. unfold mbind, ME_bind. specialize (Hm w).
  destruct (m w) as [[e|x] w0]; simpl in *; [done|]. by rewrite (Hk x w0).
Qed.

Lemma one_request_try (self : BaseClient) (body : M json)
    (clauses : list ((exn → bool) * (exn → json))) :
  at_most_one_request self body → at_most_one_request self (try_clauses body clauses).
Proof.
  intros Hm w. unfold try_clauses. specialize (Hm w).
  destruct (body w) as [[e|x] w0]; simpl in *; [|done].
  by destruct (select_handler clauses e).
Qed.

(** ** [BaseClient.get]: what a call does to the world *)

Section Get.

Context {RT : Runtime}.

Variables (self : BaseClient) (path : string)
  (params : option (list (string * json))).

Let url : string := base_url self +:+ path.
Let key : string := make_key url params.
Let rq : Request :=
  {| req_url := url; req_params := params; req_headers := headers self |}.

(** The request statement always sends its request; it either fails,
    with an API error or a JSON decoding error and the cache untouched,
    or returns the decoded body, stored when caching is on. *)
Lemma request_outcome (use_cache : bool) (w : World) :
  (∃ e, BaseClient_request self url params use_cache key w = (inl e, with_sent w rq)
        ∧ (is_APIError e = true ∨ ∃ msg, e = JSONDecodeError msg))
  ∨ (∃ j, BaseClient_request self url params use_cache key w
          = (inr j, if use_cache
                    then (SimpleCache_set key j (cache_ttl self) (with_sent w rq)).2
                    else with_sent w rq)).
Proof.
  destruct (upstream w rq) as [r|] eqn:Hup.
  - destruct (Z.eq_dec (status r) 429) as [H429|H429].
    { left. eexists. split; [exact (request_429 self url params use_cache key w r Hup H429)|by left]. }
    destruct (decide (200 ≤ status r ≤ 299)) as [H2xx|H2xx].
    + destruct (content r) as [|j|raw] eqn:Hc.
      * left. eexists. split; [|right; eauto].
        apply (request_success_not_json self url params use_cache key w r Hup H2xx).
        intros j. by rewrite Hc.
      * right. exists j.
        exact (request_success self url params use_cache key w r j Hup H2xx Hc).
      * left. eexists. split; [|right; eauto].
        apply (request_success_not_json self url params use_cache key w r Hup H2xx).
        intros j. by rewrite Hc.
    + left. eexists.
      split; [exact (request_error_status self url params use_cache key w r Hup H429 H2xx)|].
      destruct (content r) as [|j|raw]; [by left|by left|].
      destruct (str_truthy raw); [right; eauto|by left].
  - left. eexists.
    split; [exact (request_timeout self url params use_cache key w Hup)|by left].
Qed.

Lemma get_cached_unfold (w : World) :
  BaseClient_get self path params true w
  = match SimpleCache_get key w with
    | (inl e, w0) => (inl e, w0)
    | (inr JNull, w0) => BaseClient_request self url params true key w0
    | (inr j, w0) => (inr j, w0)
    end.
Proof.
  unfold BaseClient_get, mbind, ME_bind. fold url key.
  destruct (SimpleCache_get key w) as [[e|[]] w0]; done.
Qed.

(** The three ways a call of [get] goes: a live entry whose data is not
    [None] is returned; otherwise the request statement runs, in the
    world the cache lookup leaves. *)
Lemma get_cases (use_cache : bool) (w : World) :
  (use_cache = true ∧
   ∃ entry, cache w !! key = Some entry ∧ data entry ≠ JNull ∧
     F64.ltb (clock w (ticks w)) (expires_at entry) = true ∧
     BaseClient_get self path params use_cache w = (inr (data entry), tick w))
  ∨ (∃ w0, BaseClient_get self path params use_cache w
           = BaseClient_request self url params use_cache key w0 ∧
       sent w0 = sent w ∧ upstream w0 = upstream w ∧ clock w0 = clock w ∧
       (cache w0 = cache w ∨ cache w0 = delete key (cache w)) ∧
       (use_cache = false → w0 = w) ∧
       (ticks w ≤ ticks w0 ≤ S (ticks w))%nat).
Proof.
  destruct use_cache.
  - rewrite !get_cached_unfold.
    destruct (SimpleCache_get_cases key w)
      as [[Hk ->]|[(entry & Hk & Hlt & ->)|(entry & Hk & Hlt & ->)]].
    + right. exists w. repeat split; try done; try lia. by left.
    + destruct (data entry) eqn:Hd.
      1: { right. exists (tick w). repeat split; try done; simpl; try lia. by left. }
      all: left; split; [done|]; exists entry; rewrite Hd; by repeat split.
    + right. eexists. split; [reflexivity|]. repeat split; try done; simpl; try lia.
      by right.
  - right. exists w. repeat split; try done; try lia. by left.
Qed.

(** Property X3. Every call of [get] sends at most one request: the one
    for its URL, with its parameters and the headers of the client. It
    reads the clock at most twice and changes neither the upstream
    services nor the clock itself. *)
Theorem BaseClient_get_sends_at_most_one (use_cache : bool) (w : World) :
  let w' := (BaseClient_get self path params use_cache w).2 in
  (sent w' = sent w ∨ sent w' = sent w ++ [rq]) ∧
  upstream w' = upstream w ∧ clock w' = clock w ∧
  (ticks w ≤ ticks w' ≤ ticks w + 2)%nat.
Proof.
  intros w'. unfold w'.
  destruct (get_cases use_cache w)
    as [(_ & entry & _ & _ & _ & ->)
       |(w0 & -> & Hsent & Hup & Hclock & _ & _ & Hticks)].
  - simpl. repeat split; try lia. by left.
  - destruct (request_outcome use_cache w0) as [(e & -> & _)|(j & ->)].
    + simpl. rewrite Hsent, Hup, Hclock. repeat split; try lia. by right.
    + destruct use_cache; simpl; rewrite Hsent, Hup, Hclock;
        repeat split; try lia; by right.
Qed.

Lemma one_request_get (use_cache : bool) :
  at_most_one_request self (BaseClient_get self path params use_cache).
Proof.
  intros w.
  assert (request_of self rq) as Hrq by (split; [done|apply prefix_app]).
  destruct (get_cases use_cache w)
    as [(_ & entry & _ & _ & _ & ->)
       |(w0 & -> & Hsent & Hup & Hclock & _)].
  - simpl. repeat split. by left.
  - destruct (request_outcome use_cache w0) as [(e & -> & _)|(j & ->)].
    + simpl. rewrite Hsent, Hup, Hclock. repeat split. right. by exists rq.
    + destruct use_cache; simpl; rewrite Hsent, Hup, Hclock;
        repeat split; right; by exists rq.
Qed.

Lemma bypass_get : bypasses_cache (BaseClient_get self path params false).
Proof.
  intros w. rewrite BaseClient_get_uncached. fold url key.
  by destruct (request_outcome false w) as [(e & -> & _)|(j & ->)].
Qed.

(** Property X4. With [use_cache=False] the call sends exactly one
    request, whatever the cache holds, and neither reads nor writes the
    cache nor the clock. *)
Theorem BaseClient_get_without_cache (w : World) :
  let w' := (BaseClient_get self path params false w).2 in
  sent w' = sent w ++ [rq] ∧ cache w' = cache w ∧ ticks w' = ticks w.
Proof.
  intros w'. unfold w'. rewrite BaseClient_get_uncached. fold url key.
  by destruct (request_outcome false w) as [(e & -> & _)|(j & ->)].
Qed.


(** Property X6. Read-through caching: whatever a caching call returns,
    unless it is [None], is afterwards in the cache under the key of the
    request, and a second call made before the entry expires returns the
    same value without sending anything. *)
Theorem BaseClient_get_read_through (w w1 : World) (j : json) :
  BaseClient_get self path params true w = (inr j, w1) →
  j ≠ JNull →
  ∃ entry, cache w1 !! key = Some entry ∧ data entry = j ∧
    (F64.ltb (clock w1 (ticks w1)) (expires_at entry) = true →
     BaseClient_get self path params true w1 = (inr j, tick w1)).
Proof.
  intros Hget Hj.
  assert (∃ entry, cache w1 !! key = Some entry ∧ data entry = j)
    as (entry & Hk & Hd).
  { destruct (get_cases true w)
      as [(_ & entry & Hk & _ & _ & Heq)
         |(w0 & Heq & _)]; rewrite Heq in Hget.
    - injection Hget as <- <-. by exists entry.
    - destruct (request_outcome true w0) as [(e' & Hr & _)|(j' & Hr)];
        rewrite Hr in Hget; [done|].
      injection Hget as <- <-. cbn [cache].
      eexists. split; [apply lookup_insert_eq|done]. }
  exists entry. split; [done|]. split; [done|]. intros Hlt. subst j.
  by apply BaseClient_get_hit.
Qed.

(** Property X7. A cached [None] is never a hit: [get] tests [cached is
    not None], so with such an entry under its key, live or not, the call
    sends its request. *)
Theorem BaseClient_get_null_not_served (w : World) (entry : CacheEntry) :
  cache w !! key = Some entry →
  data entry = JNull →
  sent (BaseClient_get self path params true w).2 = sent w ++ [rq].
Proof.
  intros Hk Hd.
  destruct (get_cases true w)
    as [(_ & entry' & Hk' & Hd' & _)
       |(w0 & -> & Hsent & _)].
  - congruence.
  - destruct (request_outcome true w0) as [(e' & -> & _)|(j' & ->)]; simpl;
      by rewrite Hsent.
Qed.

(** Property X8. [clear] forces the next call upstream: once the cache is
    cleared every key misses, and the next caching call of [get] sends its
    request, whatever was cached before. *)
Theorem clear_forces_refetch (k : string) (w : World) :
  let w0 := (SimpleCache_clear w).2 in
  SimpleCache_get k w0 = (inr JNull, w0) ∧
  sent (BaseClient_get self path params true w0).2 = sent w ++ [rq].
Proof.
  intros w0. split; [reflexivity|].
  rewrite BaseClient_get_miss by apply lookup_empty. fold url key.
  by destruct (request_outcome true w0) as [(e & -> & _)|(j & ->)].
Qed.

End Get.

(** ** One request per operation *)

Section Traffic.

Context {RT : Runtime}.

Ltac one_request :=
  cbv zeta;
  first
    [ apply one_request_get
    | apply one_request_bind; [one_request|intros ?; solve_quiet]
    | apply one_request_quiet; solve_quiet ].

Lemma check_token_security_traffic (self : BaseClient) (c a : string) :
  at_most_one_request self (check_token_security self c a).
Proof.
  unfold check_token_security.
  destruct (negb (opt_truthy (get_goplus_chain_id c))); one_request.
Qed.

Lemma check_address_security_traffic (self : BaseClient) (c a : string) :
  at_most_one_request self (check_address_security self c a).
Proof.
  unfold check_address_security.
  destruct (negb (opt_truthy (get_goplus_chain_id c))); one_request.
Qed.

Lemma check_approval_security_traffic (self : BaseClient) (c a : string) :
  at_most_one_request self (check_approval_security self c a).
Proof.
  unfold check_approval_security.
  destruct (negb (opt_truthy (get_goplus_chain_id c))); one_request.
Qed.

Lemma get_supported_chains_traffic (self : BaseClient) :
  at_most_one_request self (get_supported_chains self).
Proof. unfold get_supported_chains. one_request. Qed.

Lemma get_token_price_traffic (self : BaseClient) (c a : string) (b1 b2 b3 : bool) :
  at_most_one_request self (get_token_price self c a b1 b2 b3).
Proof.
  unfold get_token_price.
  destruct (negb (opt_truthy (get_coingecko_platform c))); one_request.
Qed.

Lemma get_price_by_id_traffic (self : BaseClient) (coin : string) (b1 b2 : bool) :
  at_most_one_request self (get_price_by_id self coin b1 b2).
Proof. unfold get_price_by_id. one_request. Qed.



Lemma get_trending_traffic (self : BaseClient) :
  at_most_one_request self (get_trending self).
Proof. unfold get_trending. one_request. Qed.

Lemma get_all_pools_traffic (self : BaseClient) :
  at_most_one_request self (get_all_pools self).
Proof. unfold get_all_pools. one_request. Qed.

Lemma get_pools_traffic (self : BaseClient) (q : PoolQuery) :
  at_most_one_request self (get_pools self q).
Proof.
  unfold get_pools. apply one_request_bind; [apply get_all_pools_traffic|].
  intros ?. solve_quiet.
Qed.

Lemma get_chains_traffic (self : BaseClient) :
  at_most_one_request self (get_chains self).
Proof. unfold get_chains. one_request. Qed.

Lemma get_quote_traffic (self : BaseClient) (fc tc ft tt amount addr : string)
    (slippage : spec_float) :
  at_most_one_request self (get_quote self fc tc ft tt amount addr slippage).
Proof.
  unfold get_quote.
  destruct (negb (optZ_truthy (get_lifi_chain_id fc))); [one_request|].
  destruct (negb (optZ_truthy (get_lifi_chain_id tc))); one_request.
Qed.

Lemma get_routes_traffic (self : BaseClient) (fc tc ft tt amount : string) :
  at_most_one_request self (get_routes self fc tc ft tt amount).
Proof.
  unfold get_routes.
  destruct (negb (optZ_truthy (get_lifi_chain_id fc))
            || negb (optZ_truthy (get_lifi_chain_id tc))); one_request.
Qed.

(** Property X9. Every operation of the GoPlus client sends at most one
    request per call, to a URL under the base URL of the client and with
    the headers of the client. *)
Theorem goplus_operations_send_at_most_one_request (self : BaseClient) :
  (∀ c a, at_most_one_request self (check_token_security self c a)) ∧
  (∀ c a, at_most_one_request self (check_address_security self c a)) ∧
  (∀ c a, at_most_one_request self (check_approval_security self c a)) ∧
  at_most_one_request self (get_supported_chains self).
Proof.
  repeat apply conj.
  - exact (check_token_security_traffic self).
  - exact (check_address_security_traffic self).
  - exact (check_approval_security_traffic self).
  - exact (get_supported_chains_traffic self).
Qed.


(** Property X11. Every listing operation of the DefiLlama client sends at
    most one request per call, to a URL under the base URL of the client;
    the two TVL operations send theirs to the TVL host instead, through a
    client of the base class, so with the two headers of the base class. *)
Theorem defillama_operations_send_at_most_one_request (self : BaseClient) :
  at_most_one_request self (get_all_pools self) ∧
  (∀ q, at_most_one_request self (get_pools self q)) ∧
  (∀ c lim, at_most_one_request self (get_top_yields self c lim)) ∧
  (∀ protocol,
     at_most_one_request (BaseClient_init DefiLlama_TVL_BASE_URL None (cache_ttl self))
       (get_protocol_tvl self protocol)) ∧
  at_most_one_request (BaseClient_init DefiLlama_TVL_BASE_URL None (cache_ttl self))
    (get_chains_tvl self).
Proof.
  repeat apply conj.
  - exact (get_all_pools_traffic self).
  - exact (get_pools_traffic self).
  - exact (λ c lim, get_pools_traffic self _).
  - exact (λ protocol, one_request_get _ _ None true).
  - exact (one_request_get _ _ None true).
Qed.

(** Property X12. Every operation of the Li.Fi client sends at most one
    request per call, to a URL under the base URL of the client and with
    the headers of the client. *)
Theorem lifi_operations_send_at_most_one_request (self : BaseClient) :
  at_most_one_request self (get_chains self) ∧
  (∀ chain_id, at_most_one_request self (get_tokens self chain_id)) ∧
  (∀ fc tc ft tt amount addr slippage,
     at_most_one_request self (get_quote self fc tc ft tt amount addr slippage)) ∧
  (∀ fc tc ft tt amount, at_most_one_request self (get_routes self fc tc ft tt amount)) ∧
  (∀ tx bridge, at_most_one_request self (get_status self tx bridge)).
Proof.
  repeat apply conj.
  - exact (get_chains_traffic self).
  - exact (λ chain_id, one_request_get self _ _ true).
  - exact (get_quote_traffic self).
  - exact (get_routes_traffic self).
  - exact (λ tx bridge, one_request_get self _ _ false).
Qed.

(** Property X13. Every tool sends at most one request per invocation, and
    only to its own provider and with that provider's headers: the GoPlus
    client for the security scan and the chain list, the CoinGecko client
    for the prices and the trending list, the DefiLlama client for the
    yields, the Li.Fi client for the bridge quote. *)
Theorem tools_send_at_most_one_request (env : Env) :
  (∀ c a, at_most_one_request (goplus env) (token_security env c a)) ∧
  (∀ c a cap, at_most_one_request (coingecko env) (token_price env c a cap)) ∧
  (∀ coin, at_most_one_request (coingecko env) (crypto_price env coin)) ∧
  (∀ c p tvl lo hi stable lim,
     at_most_one_request defillama (defi_yields c p tvl lo hi stable lim)) ∧
  (∀ fc tc ft tt amount addr,
     at_most_one_request lifi (bridge_quote fc tc ft tt amount addr)) ∧
  at_most_one_request (goplus env) (supported_chains env) ∧
  at_most_one_request (coingecko env) (trending_coins env).
Proof.
  repeat apply conj; intros *; apply one_request_try.
  - apply one_request_bind; [apply check_token_security_traffic|intros ?; solve_quiet].
  - apply one_request_bind; [apply get_token_price_traffic|intros ?; solve_quiet].
  - apply one_request_bind; [apply get_price_by_id_traffic|intros ?; solve_quiet].
  - apply one_request_bind; [apply get_pools_traffic|intros ?; solve_quiet].
  - apply one_request_bind; [apply get_quote_traffic|intros ?; solve_quiet].
  - apply one_request_bind; [apply get_supported_chains_traffic|intros ?; solve_quiet].
  - apply one_request_bind; [apply get_trending_traffic|intros ?; solve_quiet].
Qed.

End Traffic.

(** ** Operations that go around the cache *)

Lemma bypass_quiet {A : Type} (m : M A) : quiet m → bypasses_cache m.
Proof. intros Hm w. by rewrite (Hm w). Qed.

Lemma bypass_bind {A B : Type} (m : M A) (k : A → M B) :
  bypasses_cache m → (∀ x, quiet (k x)) → bypasses_cache (m ≫= k).
Proof.
  intros Hm Hk w. unfold mbind, ME_bind. specialize (Hm w).
  destruct (m w) as [[e|x] w0]; simpl in *; [done|]. by rewrite (Hk x w0).
Qed.

Lemma bypass_try (body : M json) (clauses : list ((exn → bool) * (exn → json))) :
  bypasses_cache body → bypasses_cache (try_clauses body clauses).
Proof.
  intros Hm w. unfold try_clauses. specialize (Hm w).
  destruct (body w) as [[e|x] w0]; simpl in *; [|done].
  by destruct (select_handler clauses e).
Qed.

Section Uncached.

Context {RT : Runtime}.

Lemma get_quote_bypass (self : BaseClient) (fc tc ft tt amount addr : string)
    (slippage : spec_float) :
  bypasses_cache (get_quote self fc tc ft tt amount addr slippage).
Proof.
  unfold get_quote.
  destruct (negb (optZ_truthy (get_lifi_chain_id fc)));
    [apply bypass_quiet; solve_quiet|].
  destruct (negb (optZ_truthy (get_lifi_chain_id tc)));
    [apply bypass_quiet; solve_quiet|].
  cbv zeta. apply bypass_bind; [apply bypass_get|intros ?; solve_quiet].
Qed.

(** Property X14. Quotes, routes and transfer statuses are never cached:
    the three Li.Fi operations and the bridge quote tool neither read nor
    write the cache, whatever it holds, and do not read the clock. *)
Theorem quotes_bypass_cache (self : BaseClient) :
  (∀ fc tc ft tt amount addr slippage,
     bypasses_cache (get_quote self fc tc ft tt amount addr slippage)) ∧
  (∀ fc tc ft tt amount, bypasses_cache (get_routes self fc tc ft tt amount)) ∧
  (∀ tx bridge, bypasses_cache (get_status self tx bridge)) ∧
  (∀ fc tc ft tt amount addr,
     bypasses_cache (bridge_quote fc tc ft tt amount addr)).
Proof.
  repeat apply conj.
  - exact (get_quote_bypass self).
  - intros *. unfold get_routes.
    destruct (negb (optZ_truthy (get_lifi_chain_id fc))
              || negb (optZ_truthy (get_lifi_chain_id tc)));
      [apply bypass_quiet; solve_quiet|].
    cbv zeta. apply bypass_bind; [apply bypass_get|intros ?; solve_quiet].
  - intros *. apply bypass_get.
  - intros *. apply bypass_try.
    apply bypass_bind; [apply get_quote_bypass|intros ?; solve_quiet].
Qed.

(** ** Chain aliases, in the operations the tools do not call *)

(** Property X15. The address scan, the approval scan, the batch price
    lookup and the route listing reject an alias outside the table of
    their provider with ValueError, and leave the world as it was: nothing
    is sent. *)
Theorem unsupported_chain_sends_nothing (self : BaseClient) (w : World) :
  (∀ c a, get_goplus_chain_id c = None →
     check_address_security self c a w
     = (inl (ValueError ("Unsupported chain: " +:+ c)), w)) ∧
  (∀ c a, get_goplus_chain_id c = None →
     check_approval_security self c a w
     = (inl (ValueError ("Unsupported chain: " +:+ c)), w)) ∧
  (∀ c addrs, get_coingecko_platform c = None →
     get_multiple_token_prices self c addrs w
     = (inl (ValueError ("Unsupported chain: " +:+ c)), w)) ∧
  (∀ fc tc ft tt amount,
     get_lifi_chain_id fc = None ∨ get_lifi_chain_id tc = None →
     get_routes self fc tc ft tt amount w
     = (inl (ValueError "Unsupported chain"), w)).
Proof.
  repeat apply conj.
  - intros c a Hc. unfold check_address_security. by rewrite Hc.
  - intros c a Hc. unfold check_approval_security. by rewrite Hc.
  - intros c addrs Hc. unfold get_multiple_token_prices. by rewrite Hc.
  - intros fc tc ft tt amount Hc. unfold get_routes.
    destruct Hc as [-> | ->]; simpl; [done|].
    by destruct (negb (optZ_truthy (get_lifi_chain_id fc))).
Qed.

End Uncached.

(** ** The batch price lookup *)

Lemma collect_prices_keys (chain_ : string) (d : json) (addresses : list string) :
  ∀ (res0 res : gmap string TokenPrice),
  collect_prices chain_ d addresses res0 = inr res →
  ∀ k tp, res !! k = Some tp →
    res0 !! k = Some tp
    ∨ (k ∈ addresses ∧ tp_address tp = k ∧ tp_chain tp = chain_ ∧
       market_cap tp = JNull ∧ volume_24h tp = JNull ∧
       ∃ token_data, get_or k (JObj []) d = inr token_data ∧
                     truthy token_data = true).
Proof.
  induction addresses as [|addr rest IH]; intros res0 res; simpl.
  - intros [= <-] k tp Hk. by left.
  - destruct (get_or addr (JObj []) d) as [e|token_data] eqn:Hget; simpl; [done|].
    destruct (truthy token_data) eqn:Ht.
    + destruct (get_or "usd" (JInt 0) token_data) as [e|usd]; simpl; [done|].
      destruct (get "usd_24h_change" token_data) as [e|change]; simpl; [done|].
      intros Hres k tp Hk.
      destruct (IH _ _ Hres k tp Hk) as [Hin|(Hin & Ha & Hc & Hd)].
      * destruct (decide (k = addr)) as [->|Hne].
        -- rewrite lookup_insert_eq in Hin. injection Hin as <-. right.
           split; [by left|]. simpl. repeat split. by exists token_data.
        -- rewrite lookup_insert_ne in Hin by done. by left.
      * right. split; [by right|done].
    + intros Hres k tp Hk.
      destruct (IH _ _ Hres k tp Hk) as [Hin|(Hin & Ha)]; [by left|].
      right. split; [by right|done].
Qed.

Lemma batch_addresses_length (addrs : list string) :
  (length (batch_addresses addrs) ≤ 100)%nat.
Proof. unfold batch_addresses. rewrite length_map, length_take. lia. Qed.

Section Batch.

Context {RT : Runtime}.

(** Property X16. The batch price lookup looks at the first hundred
    addresses only: every key of the result is one of them, lower-cased
    and stripped, the record under a key carries that key as its address
    and the chain as given, and the response had a non-empty entry for it. *)
Theorem get_multiple_token_prices_keys (self : BaseClient) (chain_ : string)
    (addrs : list string) (w w' : World) (res : gmap string TokenPrice) :
  get_multiple_token_prices self chain_ addrs w = (inr res, w') →
  ∀ k tp, res !! k = Some tp →
    (∃ a, a ∈ take 100 addrs ∧ k = str_strip (str_lower a)) ∧
    tp_address tp = k ∧ tp_chain tp = chain_ ∧
    market_cap tp = JNull ∧ volume_24h tp = JNull.
Proof.
  unfold get_multiple_token_prices.
  destruct (negb (opt_truthy (get_coingecko_platform chain_))); [done|].
  cbv zeta. unfold mbind, ME_bind.
  destruct (BaseClient_get _ _ _ _ w) as [[e|d] w0]; [done|].
  unfold lift.
  destruct (collect_prices chain_ d (batch_addresses addrs) ∅) as [e|res'] eqn:Hc;
    [done|].
  intros [= <- <-] k tp Hk.
  destruct (collect_prices_keys _ _ _ _ _ Hc k tp Hk) as [Hin|(Hin & Ha & Hch & Hm & Hv & _)].
  { by rewrite lookup_empty in Hin. }
  split; [|done].
  unfold batch_addresses in Hin. apply list_elem_of_fmap in Hin as (a & -> & Hin).
  by exists a.
Qed.

End Batch.

(** ** The risk scorer: more of what the table implies *)

(** What [calculate_risk] returns: the record with the three derived
    fields set from the sum of the contributions. *)
Lemma calculate_risk_inv (self r : TokenSecurity) :
  calculate_risk self = inr r →
  ∃ b s,
    tax_part (buy_tax self) "⚠️ 买入税: " = inr b ∧
    tax_part (sell_tax self) "⚠️ 卖出税: " = inr s ∧
    let a := acc_add (flag_part (is_honeypot self) 100 "🚨 蜜罐合约 - 无法卖出!")
               (acc_add b (acc_add s (rest_part self))) in
    r = set_risk self (Z.min 100 a.1) (level_of a.1) a.2 ∧
    0 ≤ b.1 ≤ 30 ∧ 0 ≤ s.1 ≤ 30 ∧ 0 ≤ (rest_part self).1.
Proof.
  unfold calculate_risk. rewrite risk_acc_closed.
  unfold mbind, result_bind, mret, result_ret.
  destruct (tax_part (buy_tax self) _) as [e|b] eqn:Eb; [done|].
  destruct (tax_part (sell_tax self) _) as [e|s] eqn:Es; [done|].
  cbv beta iota. intros [= <-]. exists b, s. split; [done|]. split; [done|].
  split; [done|].
  pose proof (tax_part_nonneg _ _ _ Eb). pose proof (tax_part_nonneg _ _ _ Es).
  pose proof (rest_part_good self) as (_ & Hr & _). lia.
Qed.

(** Property X17. A honeypot always gets the score 100 and the level
    critical, whatever its other fields are, and the honeypot flag is the
    first factor of the list. *)
Theorem honeypot_is_critical (self r : TokenSecurity) :
  is_honeypot self = true →
  calculate_risk self = inr r →
  risk_score r = 100 ∧ risk_level r = CRITICAL ∧
  head (risk_factors r) = Some "🚨 蜜罐合约 - 无法卖出!".
Proof.
  intros Hh (b & s & _ & _ & Hr & Hb & Hs & Hrest)%calculate_risk_inv.
  cbv zeta in Hr. rewrite Hh in Hr. subst r. cbn [risk_score risk_level risk_factors set_risk].
  unfold flag_part, acc_add. cbn [fst snd].
  set (score := 100 + _) in *.
  assert (100 ≤ score) as Hsc by (unfold score; lia).
  split; [lia|]. split; [|done].
  unfold level_of. by destruct (Z.leb_spec 80 score); [|lia].
Qed.

Lemma honeypot_is_critical_witness :
  let self := as_honeypot token_015 in
  is_honeypot self = true ∧
  calculate_risk self
  = inr (set_risk self 100 CRITICAL ["🚨 蜜罐合约 - 无法卖出!"; "⚠️ 买入税: 15.0%"]) ∧
  risk_score (set_risk self 100 CRITICAL ["🚨 蜜罐合约 - 无法卖出!"; "⚠️ 买入税: 15.0%"]) = 100 ∧
  risk_level (set_risk self 100 CRITICAL ["🚨 蜜罐合约 - 无法卖出!"; "⚠️ 买入税: 15.0%"]) = CRITICAL ∧
  head (risk_factors (set_risk self 100 CRITICAL ["🚨 蜜罐合约 - 无法卖出!"; "⚠️ 买入税: 15.0%"]))
  = Some "🚨 蜜罐合约 - 无法卖出!".
Proof.
  split; [reflexivity|]. split; [reflexivity|].
  apply (honeypot_is_critical (as_honeypot token_015)); reflexivity.
Defined.

(** Property X18. Taxes alone never make a token critical: with no flag
    set and the code open, each tax adds at most 30 points, so the score
    is at most 60 and the level is at most high. *)
Theorem taxes_alone_never_critical (self r : TokenSecurity) :
  is_honeypot self = false →
  rest_triggered self = 0%nat →
  calculate_risk self = inr r →
  0 ≤ risk_score r ≤ 60 ∧ risk_level r ≠ CRITICAL.
Proof.
  intros Hh Hrest (b & s & _ & _ & Hr & Hb & Hs & _)%calculate_risk_inv.
  pose proof (rest_part_good self) as (_ & _ & Hz). specialize (Hz Hrest).
  cbv zeta in Hr. rewrite Hh in Hr. subst r.
  cbn [risk_score risk_level set_risk]. unfold flag_part, acc_add. cbn [fst snd].
  rewrite Hz. set (score := 0 + _).
  assert (0 ≤ score ≤ 60) as Hsc by (unfold score; lia).
  split; [lia|]. unfold level_of. by destruct (Z.leb_spec 80 score); [lia|];
    destruct (50 <=? score), (25 <=? score), (0 <? score).
Qed.

Lemma taxes_alone_never_critical_witness :
  is_honeypot token_015 = false ∧ rest_triggered token_015 = 0%nat ∧
  calculate_risk token_015 = inr (set_risk token_015 15 LOW ["⚠️ 买入税: 15.0%"]) ∧
  0 ≤ risk_score (set_risk token_015 15 LOW ["⚠️ 买入税: 15.0%"]) ≤ 60 ∧
  risk_level (set_risk token_015 15 LOW ["⚠️ 买入税: 15.0%"]) ≠ CRITICAL.
Proof.
  split; [reflexivity|]. split; [reflexivity|]. split; [reflexivity|].
  apply (taxes_alone_never_critical token_015); reflexivity.
Defined.

(** Property X19. Scoring is idempotent and touches the three derived
    fields only: the result is the input with a new score, level and
    factor list, and scoring the result again returns it unchanged, so the
    factors do not pile up. *)
Theorem calculate_risk_idempotent (self r : TokenSecurity) :
  calculate_risk self = inr r →
  r = set_risk self (risk_score r) (risk_level r) (risk_factors r) ∧
  calculate_risk r = inr r.
Proof.
  unfold calculate_risk.
  destruct (risk_acc self) as [e|[score factors]] eqn:Ha; simpl; [done|].
  intros [= <-]. split; [done|].
  change (risk_acc (set_risk self (Z.min 100 score) (level_of score) factors))
    with (risk_acc self).
  by rewrite Ha.
Qed.

Lemma calculate_risk_idempotent_witness :
  let r := set_risk token_0157 15 LOW ["⚠️ 买入税: 15.7%"] in
  calculate_risk token_0157 = inr r ∧
  r = set_risk token_0157 (risk_score r) (risk_level r) (risk_factors r) ∧
  calculate_risk r = inr r.
Proof.
  split; [reflexivity|].
  apply (calculate_risk_idempotent token_0157). reflexivity.
Defined.

(** ** The security scan: what a returned record satisfies *)

Lemma risk_acc_set_risk (self : TokenSecurity) (score : Z) (level : RiskLevel)
    (factors : list string) :
  risk_acc (set_risk self score level factors) = risk_acc self.
Proof. reflexivity. Qed.

Lemma calculate_risk_fixed (self r : TokenSecurity) :
  calculate_risk self = inr r → calculate_risk r = inr r.
Proof.
  unfold calculate_risk.
  destruct (risk_acc self) as [e|[score factors]] eqn:Ha; simpl; [done|].
  intros [= <-]. by rewrite risk_acc_set_risk, Ha.
Qed.

Lemma calculate_risk_score (self r : TokenSecurity) :
  calculate_risk self = inr r → 0 ≤ risk_score r ≤ 100.
Proof.
  intros (b & s & _ & _ & Hr & Hb & Hs & Hrest)%calculate_risk_inv.
  cbv zeta in Hr. subst r. cbn [risk_score set_risk].
  pose proof (flag_part_good (is_honeypot self) 100 "🚨 蜜罐合约 - 无法卖出!" ltac:(lia))
    as (_ & Hh & _).
  unfold acc_add. cbn [fst snd]. lia.
Qed.

Lemma lift_inr {A : Type} (m : result A) (w w' : World) (x : A) :
  lift m w = (inr x, w') → m = inr x ∧ w' = w.
Proof. destruct m; simpl; by intros [= <- <-]. Qed.

Lemma bind_inr {A B : Type} (m : M A) (k : A → M B) (w w' : World) (y : B) :
  (m ≫= k) w = (inr y, w') → ∃ x w0, m w = (inr x, w0) ∧ k x w0 = (inr y, w').
Proof.
  unfold mbind, ME_bind. destruct (m w) as [[e|x] w0]; [done|]. eauto.
Qed.

Lemma result_bind_inr {A B : Type} (m : result A) (k : A → result B) (y : B) :
  m ≫= k = inr y → ∃ x, m = inr x ∧ k x = inr y.
Proof. destruct m as [e|x]; [done|]. eauto. Qed.

Section Scan.

Context {RT : Runtime}.

(** Property X20. Every record the security scan returns is for the
    address as normalised (lower-cased, then stripped) and the chain as
    given, on a chain of the GoPlus table; its score lies in 0..100 and
    its derived fields are those the scorer computes from its own flags
    and taxes; and both holder counts are present. *)
Theorem check_token_security_record (self : BaseClient) (chain_ address_ : string)
    (w w' : World) (r : TokenSecurity) :
  check_token_security self chain_ address_ w = (inr r, w') →
  address r = str_strip (str_lower address_) ∧ chain r = chain_ ∧
  is_Some (get_goplus_chain_id chain_) ∧
  0 ≤ risk_score r ≤ 100 ∧
  calculate_risk r = inr r ∧
  is_Some (holder_count r) ∧ is_Some (lp_holder_count r).
Proof.
  unfold check_token_security.
  destruct (get_goplus_chain_id chain_) as [cid|] eqn:Hc; [|done].
  destruct (negb (opt_truthy (Some cid))); [done|]. cbv zeta.
  intros (d & w0 & _ & H)%bind_inr.
  apply bind_inr in H as (code & w1 & _ & H).
  destruct (negb (eq_int code 1)).
  { apply bind_inr in H as (msg & w2 & _ & H). done. }
  apply bind_inr in H as (res & w2 & _ & H).
  apply bind_inr in H as (token_data & w3 & _ & H).
  destruct (negb (truthy token_data)); [done|].
  apply bind_inr in H as (security & w4 & Hs & (Hr & _)%lift_inr).
  apply lift_inr in Hs as [Hs _].
  repeat (apply result_bind_inr in Hs as (? & _ & Hs)).
  injection Hs as <-.
  pose proof (calculate_risk_fixed _ _ Hr) as Hfix.
  pose proof (calculate_risk_score _ _ Hr) as Hscore.
  apply calculate_risk_inv in Hr as (b & s & _ & _ & Hr & _).
  cbv zeta in Hr. rewrite Hr in *.
  cbn [address chain holder_count lp_holder_count set_risk].
  split; [done|]. split; [done|]. split; [done|]. split; [done|]. by split.
Qed.

End Scan.

(** ** The pool listing on any response *)

Lemma Qltb_ge (x y : Q) : Qltb x y = false → (y <= x)%Q.
Proof.
  unfold Qltb. intros H%negb_false_iff. by apply Qle_bool_iff.
Qed.

(** A pool that reaches [result.append] passed the three range tests. *)
Lemma pool_step_bounds (cf : option string) (q : PoolQuery) (pool : json)
    (p : DefiPool) :
  pool_step cf q pool = inr (Some p) → within_bounds q p.
Proof.
  unfold pool_step. intros H.
  apply result_bind_inr in H as ([] & _ & H); [done|].
  apply result_bind_inr in H as ([] & _ & H); [done|].
  apply result_bind_inr in H as (tvl0 & _ & H).
  apply result_bind_inr in H as (tvl & _ & H).
  destruct (Qltb tvl (min_tvl q)) eqn:Htvl; [done|].
  apply result_bind_inr in H as (a0 & _ & H).
  apply result_bind_inr in H as (a & _ & H).
  destruct (Qltb a (min_apy q)) eqn:Hlo; [done|].
  destruct (Qltb (max_apy q) a) eqn:Hhi; [done|].
  cbn [orb] in H.
  apply result_bind_inr in H as ([] & _ & H); [done|].
  apply result_bind_inr in H as ([] & _ & H); [done|].
  repeat (apply result_bind_inr in H as (? & _ & H)).
  injection H as <-. unfold within_bounds. cbn [tvl_usd apy].
  auto using Qltb_ge.
Qed.

(** The loop keeps the bounds, and stops at [limit] pools, or at one
    when [limit] is below one. *)
Lemma pools_loop_bounds (cf : option string) (q : PoolQuery) (pools : list json) :
  ∀ acc res : list DefiPool,
  pools_loop cf q pools acc = inr res →
  Forall (within_bounds q) acc →
  acc = [] ∨ Z.of_nat (length acc) < limit q →
  Forall (within_bounds q) res ∧ Z.of_nat (length res) ≤ Z.max 1 (limit q).
Proof.
  induction pools as [|pool rest IH]; intros acc res Hres Hacc Hlen; simpl in Hres.
  - injection Hres as <-. split; [done|]. destruct Hlen as [->|Hlen]; simpl; lia.
  - destruct (pool_step cf q pool) as [e|[p|]] eqn:Hstep; simpl in Hres;
      [done| |by apply (IH acc)].
    pose proof (pool_step_bounds _ _ _ _ Hstep) as Hp.
    assert (Forall (within_bounds q) (acc ++ [p])) as Hacc'.
    { apply Forall_app. split; [done|by constructor]. }
    destruct (Z.leb_spec (limit q) (Z.of_nat (length (acc ++ [p])))) as [Hstop|Hgo].
    + injection Hres as <-. split; [done|].
      rewrite length_app in *. destruct Hlen as [->|Hlen]; simpl in *; lia.
    + apply (IH _ _ Hres Hacc'). by right.
Qed.

Lemma filter_pools_inv (q : PoolQuery) (all_pools : json) (res : list DefiPool) :
  filter_pools q all_pools = inr res →
  Forall (within_bounds q) res ∧ sorted_by_apy res ∧
  Z.of_nat (length res) ≤ Z.max 1 (limit q).
Proof.
  unfold filter_pools. cbv zeta.
  intros (pools & _ & H)%result_bind_inr.
  apply result_bind_inr in H as (res0 & Hloop & [= <-]).
  destruct (pools_loop_bounds _ _ _ _ _ Hloop) as [Hb Hlen]; [done|by left|].
  split; [by rewrite sort_pools_perm|]. split; [apply sort_pools_sorted|].
  by rewrite (Permutation_length (sort_pools_perm res0)).
Qed.

Lemma pool_docs_length (pools : list DefiPool) :
  ∀ docs, pool_docs pools = inr docs → length docs = length pools.
Proof.
  induction pools as [|pool rest IH]; simpl; intros docs.
  - by intros [= <-].
  - intros (d & _ & H)%result_bind_inr.
    apply result_bind_inr in H as (ds & Hds & [= <-]). simpl. by rewrite (IH ds).
Qed.

Lemma trending_docs_length (items : list json) :
  ∀ docs, trending_docs items = inr docs → length docs = length items.
Proof.
  induction items as [|item rest IH]; simpl; intros docs.
  - by intros [= <-].
  - intros H. do 5 (apply result_bind_inr in H as (? & _ & H)).
    apply result_bind_inr in H as (ds & Hds & [= <-]). simpl. by rewrite (IH ds).
Qed.

Lemma first_ten_length (x : json) (items : list json) :
  first_ten x = inr items → (length items ≤ 10)%nat.
Proof.
  destruct x; simpl; try done; intros [= <-];
    rewrite ?length_map, length_take; lia.
Qed.

(** What a tool returns when its body raises: the error document of one
    of its clauses. *)
Lemma try_clauses_inr (body : M json) (clauses : list ((exn → bool) * (exn → json)))
    (w w' : World) (doc : json) :
  try_clauses body clauses w = (inr doc, w') →
  body w = (inr doc, w')
  ∨ ∃ e, body w = (inl e, w') ∧ select_handler clauses e = Some doc.
Proof.
  unfold try_clauses. destruct (body w) as [[e|x] w0].
  - destruct (select_handler clauses e) as [doc'|] eqn:Hsel; [|done].
    intros [= <- <-]. right. by exists e.
  - intros [= <- <-]. by left.
Qed.

Section Listing.

Context {RT : Runtime}.



(** Property X23. The yields tool answers with an error document or with a
    listing whose [count] is the number of its entries, at most [limit],
    or one when [limit] is below one. *)
Theorem defi_yields_count (chain_ project_ : option string)
    (min_tvl_ min_apy_ max_apy_ : Q) (stablecoin_only_ : bool) (limit_ : Z)
    (w w' : World) (doc : json) :
  defi_yields chain_ project_ min_tvl_ min_apy_ max_apy_ stablecoin_only_ limit_ w
  = (inr doc, w') →
  (∃ msg, doc = error_doc msg)
  ∨ ∃ docs, doc = JObj [("count", JInt (Z.of_nat (length docs))); ("pools", JArr docs)]
            ∧ Z.of_nat (length docs) ≤ Z.max 1 limit_.
Proof.
  unfold defi_yields. intros [H|(e & _ & H)]%try_clauses_inr.
  - right. apply bind_inr in H as (pools & w0 & Hpools & H).
    apply bind_inr in H as (docs & w1 & [Hdocs _]%lift_inr & [= <- <-]).
    exists docs. split; [done|].
    unfold get_pools in Hpools.
    apply bind_inr in Hpools as (all_pools & w2 & _ & [Hf _]%lift_inr).
    apply filter_pools_inv in Hf as (_ & _ & Hlen). cbn [limit] in Hlen.
    by rewrite (pool_docs_length _ _ Hdocs).
  - left. simpl in H. injection H as <-. eauto.
Qed.

(** Property X24. The trending tool answers with an error document or with
    at most ten coins. *)
Theorem trending_coins_at_most_ten (env : Env) (w w' : World) (doc : json) :
  trending_coins env w = (inr doc, w') →
  (∃ msg, doc = error_doc msg)
  ∨ ∃ docs, doc = JObj [("trending", JArr docs)] ∧ (length docs ≤ 10)%nat.
Proof.
  unfold trending_coins. intros [H|(e & _ & H)]%try_clauses_inr.
  - right. apply bind_inr in H as (trending & w0 & _ & H).
    apply bind_inr in H as (items & w1 & [Hitems _]%lift_inr & H).
    apply bind_inr in H as (docs & w2 & [Hdocs _]%lift_inr & [= <- <-]).
    exists docs. split; [done|].
    rewrite (trending_docs_length _ _ Hdocs). by apply first_ten_length in Hitems.
  - left. simpl in H. injection H as <-. eauto.
Qed.

End Listing.

(** ** Chain tables *)

Ltac by_alias k :=
  repeat match goal with
         | |- context [String.eqb k ?s] =>
             destruct (String.eqb_spec k s) as [->|_]
         end.

(** Property X25. The four tables agree with each other: an alias Li.Fi
    knows is known to GoPlus, under the same chain id written in decimal;
    CoinGecko and DefiLlama know the same aliases; and every alias of
    Li.Fi is one of CoinGecko, every alias of CoinGecko one of GoPlus. So
    a chain that one tool accepts is not rejected by a tool whose provider
    covers at least as much. *)
Theorem chain_tables_consistent (c : string) :
  (∀ n, get_lifi_chain_id c = Some n → get_goplus_chain_id c = Some (pretty n)) ∧
  (is_Some (get_coingecko_platform c) ↔ is_Some (get_defillama_chain c)) ∧
  (is_Some (get_lifi_chain_id c) → is_Some (get_coingecko_platform c)) ∧
  (is_Some (get_coingecko_platform c) → is_Some (get_goplus_chain_id c)).
Proof.
  unfold get_lifi_chain_id, get_goplus_chain_id, get_coingecko_platform,
    get_defillama_chain.
  generalize (str_lower c). intros k.
  unfold LIFI_CHAINS, GOPLUS_CHAINS, COINGECKO_PLATFORMS, DEFILLAMA_CHAINS.
  cbn [assoc]. by_alias k; cbn [String.eqb Ascii.eqb Bool.eqb];
    (split; [intros n Hn; try discriminate Hn; by injection Hn as <-|]);
    (split; [split; intros [x Hx]; try discriminate Hx; by eexists|]);
    split; intros [x Hx]; try discriminate Hx; by eexists.
Qed.

(** ** Credentials *)

(** Property X26. How the two keyed clients use their key. CoinGecko: the
    pro host is used exactly when the pro header is sent, and the header
    then holds the key, which is not empty. GoPlus: an Authorization
    header is the bearer form of a non-empty key. Neither client sends the
    header of the other, and both keep the two headers of the base class. *)
Theorem api_key_headers (key : option string) (ttl : Z) :
  let g := GoPlusClient_init key ttl in
  let c := CoinGeckoClient_init key ttl in
  (base_url c = CoinGecko_PRO_BASE_URL ↔ is_Some (assoc "x-cg-pro-api-key" (headers c))) ∧
  (base_url c = CoinGecko_BASE_URL ↔ assoc "x-cg-pro-api-key" (headers c) = None) ∧
  (∀ k, assoc "x-cg-pro-api-key" (headers c) = Some k → key = Some k ∧ k ≠ "") ∧
  (∀ v, assoc "Authorization" (headers g) = Some v →
        ∃ k, key = Some k ∧ k ≠ "" ∧ v = "Bearer " +:+ k) ∧
  (opt_truthy key = true → is_Some (assoc "Authorization" (headers g))) ∧
  assoc "x-cg-pro-api-key" (headers g) = None ∧
  assoc "Authorization" (headers c) = None ∧
  base_url g = GoPlus_BASE_URL ∧
  assoc "User-Agent" (headers g) = Some "ToolFi/0.1.0" ∧
  assoc "User-Agent" (headers c) = Some "ToolFi/0.1.0".
Proof.
  intros g c. unfold g, c, GoPlusClient_init, CoinGeckoClient_init.
  cbn [base_url headers].
  assert (CoinGecko_BASE_URL ≠ CoinGecko_PRO_BASE_URL) as Hne by discriminate.
  destruct key as [[|a k]|]; cbn [opt_truthy str_truthy];
    change (rstrip_slash CoinGecko_BASE_URL) with CoinGecko_BASE_URL;
    change (rstrip_slash CoinGecko_PRO_BASE_URL) with CoinGecko_PRO_BASE_URL;
    change (rstrip_slash GoPlus_BASE_URL) with GoPlus_BASE_URL;
    refine (conj _ (conj _ (conj _ (conj _ (conj _ (conj _
              (conj _ (conj _ (conj _ _)))))))));
    try reflexivity; try (by intros ? [=]); try (by intros [=]);
    try (by split; [|intros [? [=]]]).
  - by split.
  - split; [by intros [=]|by intros [=]].
  - by intros ? [= <-].
  - intros ? [= <-]. by eexists.
  - by split.
Qed.

(** ** What the chain list advertises *)

Section Advertised.

Context {RT : Runtime}.

(** Property X27. The chain list tool advertises, besides the chains
    GoPlus reports, three fixed lists; every chain on them is accepted by
    the client it is listed for: the CoinGecko and Li.Fi names are aliases
    of their tables, and each DefiLlama name resolves to itself. *)
Theorem advertised_chains_are_accepted (env : Env) (w w' : World) (doc : json) :
  supported_chains env w = (inr doc, w') →
  (∃ msg, doc = error_doc msg)
  ∨ ∃ names cg dl lf,
      doc = JObj [("goplus", JArr names); ("coingecko", JArr (map JStr cg));
                  ("defillama", JArr (map JStr dl)); ("lifi", JArr (map JStr lf))] ∧
      Forall (λ c, is_Some (get_coingecko_platform c)) cg ∧
      Forall (λ c, get_defillama_chain c = Some c) dl ∧
      Forall (λ c, is_Some (get_lifi_chain_id c)) lf.
Proof.
  unfold supported_chains. intros [H|(e & _ & H)]%try_clauses_inr.
  - right. apply bind_inr in H as (chains & w0 & _ & H).
    apply bind_inr in H as (cs & w1 & _ & H).
    apply bind_inr in H as (names & w2 & _ & [= <- <-]).
    exists names,
      ["ethereum"; "bsc"; "polygon"; "arbitrum"; "base"; "optimism"; "avalanche";
       "solana"],
      ["Ethereum"; "BSC"; "Polygon"; "Arbitrum"; "Base"; "Optimism"; "Avalanche";
       "Solana"],
      ["ethereum"; "arbitrum"; "base"; "polygon"; "optimism"; "bsc"; "avalanche"].
    split; [reflexivity|].
    split; [|split]; repeat constructor; by eexists.
  - left. simpl in H. injection H as <-. eauto.
Qed.

End Advertised.

(** ** The bridge quote: what a returned quote satisfies *)

Section Quote.

Context {RT : Runtime}.

(** Property X28. Every quote [get_quote] returns is between two chains of
    the Li.Fi table, named as given, with the tokens as resolved on those
    chains; a gas cost is reported only when it is above zero, and is
    absent otherwise. *)
Theorem get_quote_record (self : BaseClient)
    (from_chain_ to_chain_ from_token_ to_token_ amount from_address : string)
    (slippage : spec_float) (w w' : World) (q : BridgeQuote) :
  get_quote self from_chain_ to_chain_ from_token_ to_token_ amount from_address
    slippage w = (inr q, w') →
  ∃ from_id to_id,
    get_lifi_chain_id from_chain_ = Some from_id ∧
    get_lifi_chain_id to_chain_ = Some to_id ∧
    from_chain q = from_chain_ ∧ to_chain q = to_chain_ ∧
    from_token q = resolve_token from_token_ from_id ∧
    to_token q = resolve_token to_token_ to_id ∧
    (∀ x, gas_cost_usd q = Some x → F64.ltb F64.zero x = true).
Proof.
  unfold get_quote.
  destruct (get_lifi_chain_id from_chain_) as [from_id|]; [|done].
  destruct (negb (optZ_truthy (Some from_id))); [done|].
  destruct (get_lifi_chain_id to_chain_) as [to_id|]; [|done].
  destruct (negb (optZ_truthy (Some to_id))); [done|]. cbv zeta.
  intros (d & w0 & _ & H)%bind_inr.
  apply bind_inr in H as ([] & w1 & _ & H).
  { apply bind_inr in H as (err & w2 & _ & H).
    apply bind_inr in H as (msg & w3 & _ & H). done. }
  apply lift_inr in H as [H _].
  repeat (apply result_bind_inr in H as (? & _ & H)).
  injection H as <-. exists from_id, to_id.
  cbn [from_chain to_chain from_token to_token gas_cost_usd default].
  repeat split.
  intros gas. match goal with
             | |- context [F64.ltb F64.zero ?t] =>
                 destruct (F64.ltb F64.zero t) eqn:Hgas
             end; [by intros [= <-]|done].
Qed.

End Quote.

Lemma get_quote_record_witness :
  let w := fresh_world quote_upstream in
  let run := get_quote (RT := stub_runtime) lifi "ethereum" "base" "USDC" "usdc"
               "1000" "0xfeed" F64.lit_0_03 w in
  run = (inr quote_usdc, run.2) ∧
  ∃ from_id to_id,
    get_lifi_chain_id "ethereum" = Some from_id ∧
    get_lifi_chain_id "base" = Some to_id ∧
    from_chain quote_usdc = "ethereum" ∧ to_chain quote_usdc = "base" ∧
    from_token quote_usdc = resolve_token "USDC" from_id ∧
    to_token quote_usdc = resolve_token "usdc" to_id ∧
    (∀ x, gas_cost_usd quote_usdc = Some x → F64.ltb F64.zero x = true).
Proof.
  split; [reflexivity|].
  apply (get_quote_record (RT := stub_runtime) lifi "ethereum" "base" "USDC" "usdc"
           "1000" "0xfeed" F64.lit_0_03 (fresh_world quote_upstream)
           (get_quote (RT := stub_runtime) lifi "ethereum" "base" "USDC" "usdc"
              "1000" "0xfeed" F64.lit_0_03 (fresh_world quote_upstream)).2
           quote_usdc).
  reflexivity.
Defined.

(** ** The properties above, at concrete inputs *)


Lemma BaseClient_get_read_through_witness :
  let w := fresh_world two_pools_upstream in
  let j := JObj [("data", JArr [pool_a; pool_b])] in
  let run := BaseClient_get (RT := stub_runtime) defillama "/pools" None true w in
  run = (inr j, run.2) ∧ j ≠ JNull ∧
  ∃ entry,
    cache run.2 !! make_key (RT := stub_runtime) "https://yields.llama.fi/pools" None
    = Some entry ∧
    data entry = j ∧
    (F64.ltb (clock run.2 (ticks run.2)) (expires_at entry) = true →
     BaseClient_get (RT := stub_runtime) defillama "/pools" None true run.2
     = (inr j, tick run.2)).
Proof.
  split; [reflexivity|]. split; [discriminate|].
  apply (BaseClient_get_read_through (RT := stub_runtime)
           defillama "/pools" None (fresh_world two_pools_upstream)).
  - reflexivity.
  - discriminate.
Defined.

Lemma BaseClient_get_null_not_served_witness :
  let w := with_cache (fresh_world two_pools_upstream) null_cached in
  let entry := {| data := JNull; expires_at := F64.of_Z 2000000000 |} in
  cache w !! make_key (RT := stub_runtime) "https://yields.llama.fi/pools" None
  = Some entry ∧
  data entry = JNull ∧
  F64.ltb (clock w (ticks w)) (expires_at entry) = true ∧
  sent (BaseClient_get (RT := stub_runtime) defillama "/pools" None true w).2
  = sent w ++ [pools_request].
Proof.
  split; [apply lookup_insert_eq|]. split; [reflexivity|]. split; [reflexivity|].
  apply (BaseClient_get_null_not_served (RT := stub_runtime) defillama "/pools" None
           (with_cache (fresh_world two_pools_upstream) null_cached)
           {| data := JNull; expires_at := F64.of_Z 2000000000 |}).
  - apply lookup_insert_eq.
  - reflexivity.
Defined.

Lemma get_multiple_token_prices_witness :
  let w := fresh_world prices_upstream in
  let run := get_multiple_token_prices (RT := stub_runtime)
               (CoinGeckoClient_init None 60) "ethereum" [" 0xABC "; "0xdef"] w in
  run = (inr {[ "0xabc" := price_abc ]}, run.2) ∧
  ({[ "0xabc" := price_abc ]} : gmap string TokenPrice) !! "0xabc" = Some price_abc ∧
  (∃ a, a ∈ take 100 [" 0xABC "; "0xdef"] ∧ "0xabc" = str_strip (str_lower a)) ∧
  tp_address price_abc = "0xabc" ∧ tp_chain price_abc = "ethereum" ∧
  market_cap price_abc = JNull ∧ volume_24h price_abc = JNull.
Proof.
  split; [reflexivity|]. split; [reflexivity|].
  apply (get_multiple_token_prices_keys (RT := stub_runtime)
           (CoinGeckoClient_init None 60) "ethereum" [" 0xABC "; "0xdef"]
           (fresh_world prices_upstream)
           (get_multiple_token_prices (RT := stub_runtime)
              (CoinGeckoClient_init None 60) "ethereum" [" 0xABC "; "0xdef"]
              (fresh_world prices_upstream)).2
           {[ "0xabc" := price_abc ]}); reflexivity.
Defined.

Lemma check_token_security_record_witness :
  let w := fresh_world scan_upstream in
  let run := check_token_security (RT := stub_runtime) (goplus no_keys)
               "ETH" " 0xABC " w in
  run = (inr scanned_abc, run.2) ∧
  address scanned_abc = str_strip (str_lower " 0xABC ") ∧
  chain scanned_abc = "ETH" ∧
  is_Some (get_goplus_chain_id "ETH") ∧
  0 ≤ risk_score scanned_abc ≤ 100 ∧
  calculate_risk scanned_abc = inr scanned_abc ∧
  is_Some (holder_count scanned_abc) ∧ is_Some (lp_holder_count scanned_abc).
Proof.
  split; [reflexivity|].
  apply (check_token_security_record (RT := stub_runtime) (goplus no_keys)
           "ETH" " 0xABC " (fresh_world scan_upstream)
           (check_token_security (RT := stub_runtime) (goplus no_keys)
              "ETH" " 0xABC " (fresh_world scan_upstream)).2 scanned_abc).
  reflexivity.
Defined.



Lemma defi_yields_count_witness :
  let w := fresh_world two_pools_upstream in
  let run := defi_yields (RT := stub_runtime) (Some "base") None 1000000 0 10000
               true 50 w in
  run = (inr yields_doc, run.2) ∧
  ((∃ msg, yields_doc = error_doc msg)
   ∨ ∃ docs, yields_doc = JObj [("count", JInt (Z.of_nat (length docs)));
                                ("pools", JArr docs)]
             ∧ Z.of_nat (length docs) ≤ Z.max 1 50).
Proof.
  split; [reflexivity|].
  apply (defi_yields_count (RT := stub_runtime) (Some "base") None 1000000 0 10000
           true 50 (fresh_world two_pools_upstream)
           (defi_yields (RT := stub_runtime) (Some "base") None 1000000 0 10000
              true 50 (fresh_world two_pools_upstream)).2 yields_doc).
  reflexivity.
Defined.

Lemma trending_coins_at_most_ten_witness :
  let w := fresh_world trending_upstream in
  let run := trending_coins (RT := stub_runtime) no_keys w in
  run = (inr trending_doc, run.2) ∧
  ((∃ msg, trending_doc = error_doc msg)
   ∨ ∃ docs, trending_doc = JObj [("trending", JArr docs)] ∧ (length docs ≤ 10)%nat).
Proof.
  split; [reflexivity|].
  apply (trending_coins_at_most_ten (RT := stub_runtime) no_keys
           (fresh_world trending_upstream)
           (trending_coins (RT := stub_runtime) no_keys
              (fresh_world trending_upstream)).2 trending_doc).
  reflexivity.
Defined.

Lemma advertised_chains_are_accepted_witness :
  let w := fresh_world chains_upstream in
  let run := supported_chains (RT := stub_runtime) no_keys w in
  run = (inr chains_doc, run.2) ∧
  ((∃ msg, chains_doc = error_doc msg)
   ∨ ∃ names cg dl lf,
       chains_doc
       = JObj [("goplus", JArr names); ("coingecko", JArr (map JStr cg));
               ("defillama", JArr (map JStr dl)); ("lifi", JArr (map JStr lf))] ∧
       Forall (λ c, is_Some (get_coingecko_platform c)) cg ∧
       Forall (λ c, get_defillama_chain c = Some c) dl ∧
       Forall (λ c, is_Some (get_lifi_chain_id c)) lf).
Proof.
  split; [reflexivity|].
  apply (advertised_chains_are_accepted (RT := stub_runtime) no_keys
           (fresh_world chains_upstream)
           (supported_chains (RT := stub_runtime) no_keys
              (fresh_world chains_upstream)).2 chains_doc).
  reflexivity.
Defined.

Lemma unsupported_chain_sends_nothing_witness :
  let w := fresh_world (λ _, TimedOut) in
  get_goplus_chain_id "fantom" = None ∧
  check_address_security (RT := stub_runtime) (goplus no_keys) "fantom" "0xabc" w
  = (inl (ValueError ("Unsupported chain: " +:+ "fantom")), w).
Proof.
  split; [reflexivity|].
  apply (proj1 (unsupported_chain_sends_nothing (RT := stub_runtime) (goplus no_keys)
                  (fresh_world (λ _, TimedOut)))).
  reflexivity.
Defined.
